(** * Olynk.ai analytics core: a shallow embedding of
      [backend/advanced_analytics.py] and the properties of its five
      public operations.

    Conventions of the embedding.

    - A binary64 number is idealised as a real ([R]); the only special
      value kept is NaN ([NaN] in results, [Null] in a table cell).
      Overflow, infinities and rounding are outside the model: an equation
      between two computed numbers is an equation between reals.
    - A [DataFrame] is an ordered list of rows, each row a finite map from
      column name to [cell]; a missing key reads as [Null].
    - Python objects live in a store ([heap]); [df.copy()] allocates, and
      [df[c] = v] writes in place, so aliasing between the caller's table
      and the local copies is visible.
    - The three scikit-learn models held by [AdvancedAnalytics] are fields
      of the machine state; the numerical routines of scikit-learn and the
      text parsing and formatting of pandas and Python are collected in the
      record [Library] and left uninterpreted.
    - An exception is a value [Raise msg]; [try ... except Exception] is
      [try_except]. *)

From Stdlib Require Import Reals Lra Lia ZArith String Ascii List DecimalString
  DecimalNat Sorted.
From stdpp Require Import base option list strings gmap sorting.
Import ListNotations.

Local Open Scope string_scope.
Local Open Scope nat_scope.

(** ** Numbers *)

Inductive float : Type :=
| Fin (r : R)
| NaN.

#[global] Instance Rlt_decision (x y : R) : Decision (x < y)%R := Rlt_dec x y.
#[global] Instance Rle_decision (x y : R) : Decision (x <= y)%R := Rle_dec x y.
#[global] Instance Req_decision : EqDecision R := Req_dec_T.

(** [a > b] on floats: false as soon as one side is NaN. *)
Definition float_gt (a b : float) : bool :=
  match a, b with
  | Fin x, Fin y => bool_decide (y < x)%R
  | _, _ => false
  end.

Definition float_lt (a b : float) : bool := float_gt b a.

Definition float_abs (a : float) : float :=
  match a with Fin x => Fin (Rabs x) | NaN => NaN end.

Definition float_of_option (o : option R) : float :=
  match o with Some x => Fin x | None => NaN end.

Definition INZ (z : Z) : R := IZR z.

Fixpoint Rsum (xs : list R) : R :=
  match xs with
  | [] => 0%R
  | x :: xs' => (x + Rsum xs')%R
  end.

(** Arithmetic mean of a non-empty list (the value on [[]] is never used). *)
Definition Rmean (xs : list R) : R := (Rsum xs / INR (length xs))%R.

(** ** Exceptions *)

Inductive result (A : Type) : Type :=
| Ok (a : A)
| Raise (msg : string).
Arguments Ok {A} a.
Arguments Raise {A} msg.

Definition rbind {A B} (r : result A) (f : A -> result B) : result B :=
  match r with Ok a => f a | Raise m => Raise m end.

Fixpoint rmapM {A B} (f : A -> result B) (xs : list A) : result (list B) :=
  match xs with
  | [] => Ok []
  | x :: xs' =>
      rbind (f x) (fun y => rbind (rmapM f xs') (fun ys => Ok (y :: ys)))
  end.

Notation "x <~ r ;; k" := (rbind r (fun x => k))
  (at level 100, r at next level, right associativity).

(** ** Strings: [str.lower()] and the substring test [x in s] *)

Definition lower_ascii (c : ascii) : ascii :=
  let n := nat_of_ascii c in
  if (65 <=? n)%nat && (n <=? 90)%nat then ascii_of_nat (n + 32) else c.

Fixpoint lower (s : string) : string :=
  match s with
  | EmptyString => EmptyString
  | String c s' => String (lower_ascii c) (lower s')
  end.

Fixpoint contains (x s : string) : bool :=
  String.prefix x s ||
  match s with
  | EmptyString => false
  | String _ s' => contains x s'
  end.

(** [any(x in f.lower() for x in keys)] *)
Definition any_in_lower (keys : list string) (f : string) : bool :=
  existsb (fun x => contains x (lower f)) keys.

Definition str_of_nat (n : nat) : string :=
  NilEmpty.string_of_uint (Nat.to_uint n).

(** ** Tables *)

Inductive cell : Type :=
| Null                (* None, NaN, NaT *)
| Num (x : R)
| Str (s : string)
| Ts (t : Z).         (* a timestamp, nanoseconds since 1970-01-01 *)

Abbreviation row := (gmap string cell).

Record DataFrame : Type := mkDF {
  columns : list string;
  rows : list row
}.

Definition at_col (c : string) (r : row) : cell := default Null (r !! c).

Definition is_null (c : cell) : bool :=
  match c with Null => true | _ => false end.

Definition is_number (c : cell) : bool :=
  match c with Null | Num _ => true | _ => false end.

Definition has_column (df : DataFrame) (c : string) : bool :=
  bool_decide (c ∈ columns df).

Definition column (df : DataFrame) (c : string) : list cell :=
  map (at_col c) (rows df).

(** [len(df)] *)
Definition len (df : DataFrame) : nat := length (rows df).

(** [df.empty]: no column or no row. *)
Definition empty (df : DataFrame) : bool :=
  match columns df, rows df with
  | [], _ | _, [] => true
  | _, _ => false
  end.

(** [df[c]]: KeyError when the column is absent. *)
Definition getitem (df : DataFrame) (c : string) : result (list cell) :=
  if has_column df c then Ok (column df c) else Raise ("KeyError: " ++ c).

(** [df[cs]] for a list of names: KeyError if one is absent. *)
Definition getitems (df : DataFrame) (cs : list string) : result DataFrame :=
  match List.filter (fun c => negb (has_column df c)) cs with
  | [] => Ok (mkDF cs (rows df))
  | c :: _ => Raise ("KeyError: " ++ c)
  end.

(** The frame after [df[c] = vals]: the column is replaced, or appended
    when new; a value list of another length is a ValueError. *)
Definition with_column (df : DataFrame) (c : string) (vals : list cell)
  : result DataFrame :=
  if bool_decide (length vals = len df) then
    Ok (mkDF (if has_column df c then columns df else columns df ++ [c])
             (zip_with (fun r v => <[c := v]> r) (rows df) vals))
  else Raise "ValueError: Length of values does not match length of index".

(** A column has a numeric dtype when it holds only numbers and missing
    values.  A cell [Null] stands for NaN and for None alike, so a column of
    [Null] only is taken for a float column of NaN; pandas gives a column
    built from None only the dtype object, and [select_dtypes] leaves it
    out.  The statements that depend on which columns are numeric are
    restricted to tables where the two readings agree ([typed_by_values]
    below). *)
Definition numeric_column (df : DataFrame) (c : string) : bool :=
  forallb is_number (column df c).

(** [df.select_dtypes(include=[np.number])] *)
Definition select_numeric (df : DataFrame) : DataFrame :=
  mkDF (List.filter (numeric_column df) (columns df)) (rows df).

(** [df.dropna(subset=cs)]: KeyError if a name of [cs] is absent. *)
Definition dropna (df : DataFrame) (cs : list string) : result DataFrame :=
  match List.filter (fun c => negb (has_column df c)) cs with
  | [] =>
      Ok (mkDF (columns df)
            (List.filter
               (fun r => forallb (fun c => negb (is_null (at_col c r))) cs)
               (rows df)))
  | c :: _ => Raise ("KeyError: " ++ c)
  end.

(** [df.tail(n)]: the last [n] rows; for a negative [n], all rows but the
    first [-n]. *)
Definition tail_list {A} (n : Z) (xs : list A) : list A :=
  if (0 <=? n)%Z then drop (length xs - Z.to_nat n) xs
  else drop (Z.to_nat (- n)) xs.

Definition tail (n : Z) (df : DataFrame) : DataFrame :=
  mkDF (columns df) (tail_list n (rows df)).

(** [df[mask]] with a boolean mask; a mask of another length is refused. *)
Definition mask_list {A} (mask : list bool) (xs : list A) : list A :=
  map snd (List.filter fst (zip mask xs)).

Definition boolean_mask (df : DataFrame) (mask : list bool) : result DataFrame :=
  if bool_decide (length mask = len df) then
    Ok (mkDF (columns df) (mask_list mask (rows df)))
  else Raise "ValueError: Item wrong length".

(** [df.to_dict('records')] *)
Definition to_records (df : DataFrame) : list row :=
  map (fun r => list_to_map (map (fun c => (c, at_col c r)) (columns df)))
      (rows df).

(** *** Sorting *)

(** A stable insertion sort: [x] stays in front of [y] when [le x y]. *)
Fixpoint insert_by {A} (le : A -> A -> bool) (x : A) (xs : list A) : list A :=
  match xs with
  | [] => [x]
  | y :: ys => if le x y then x :: y :: ys else y :: insert_by le x ys
  end.

Fixpoint sort_by {A} (le : A -> A -> bool) (xs : list A) : list A :=
  match xs with
  | [] => []
  | x :: xs' => insert_by le x (sort_by le xs')
  end.

(** [sort_values] on a datetime column puts missing keys last; rows with
    equal keys keep their order here (pandas makes no promise on ties). *)
Definition sort_key (c : cell) : option Z :=
  match c with Ts t => Some t | _ => None end.

Definition key_le (a b : option Z) : bool :=
  match a, b with
  | Some x, Some y => (x <=? y)%Z
  | Some _, None => true
  | None, Some _ => false
  | None, None => true
  end.

Definition sort_values (df : DataFrame) (c : string) : result DataFrame :=
  if has_column df c then
    Ok (mkDF (columns df)
             (sort_by (fun r1 r2 => key_le (sort_key (at_col c r1))
                                           (sort_key (at_col c r2)))
                      (rows df)))
  else Raise ("KeyError: " ++ c).

(** [df.nlargest(n, c)]: the first [n] rows in descending order of a
    numeric column, ties in table order, missing values last. *)
Definition score_of (c : string) (r : row) : option R :=
  match at_col c r with Num x => Some x | _ => None end.

Definition score_ge (a b : option R) : bool :=
  match a, b with
  | Some x, Some y => bool_decide (y <= x)%R
  | Some _, None => true
  | None, Some _ => false
  | None, None => true
  end.

Definition nlargest (n : nat) (c : string) (df : DataFrame) : result DataFrame :=
  if has_column df c then
    Ok (mkDF (columns df)
             (take n (sort_by (fun r1 r2 => score_ge (score_of c r1)
                                                     (score_of c r2))
                              (rows df))))
  else Raise ("KeyError: " ++ c).

(** ** Numerical routines of pandas and numpy *)

(** The numbers of a column, with NaN for a missing value; anything else
    in the column is a type error. *)
Definition numeric_values (xs : list cell) : result (list (option R)) :=
  rmapM (fun c => match c with
                  | Null => Ok None
                  | Num x => Ok (Some x)
                  | _ => Raise "TypeError: non-numeric data"
                  end) xs.

Definition float_cell (o : option R) : cell :=
  match o with Some x => Num x | None => Null end.

(** Mean of the present values; NaN when there is none. *)
Definition nanmean (xs : list (option R)) : option R :=
  match omap (M := list) (fun o : option R => o) xs with
  | [] => None
  | ys => Some (Rmean ys)
  end.

(** [s.rolling(window=w, min_periods=1).mean()] *)
Definition rolling_mean (w : nat) (xs : list (option R)) : list (option R) :=
  map (fun i => nanmean (drop (S i - w) (take (S i) xs)))
      (seq 0 (length xs)).

(** [s.mean()] *)
Definition series_mean (xs : list cell) : result float :=
  rbind (numeric_values xs) (fun ys => Ok (float_of_option (nanmean ys))).

(** [float(s.iloc[-1])] *)
Definition to_float (c : cell) : result float :=
  match c with
  | Null => Ok NaN
  | Num x => Ok (Fin x)
  | Str _ => Raise "ValueError: could not convert string to float"
  | Ts _ => Raise "TypeError: float() argument must be a string or a number"
  end.

Definition iloc_last (xs : list cell) : result cell :=
  match last xs with
  | Some c => Ok c
  | None => Raise "IndexError: single positional indexer is out-of-bounds"
  end.

(** [s.values] handed to numpy's numerical code: only finite numbers pass. *)
Definition finite_values (xs : list cell) : result (list R) :=
  rmapM (fun c => match c with
                  | Num x => Ok x
                  | Null => Raise "LinAlgError: SVD did not converge in Linear Least Squares"
                  | _ => Raise "TypeError: non-numeric data"
                  end) xs.

(** [np.arange(n)] *)
Definition arange (n : nat) : list R := map INR (seq 0 n).

Definition sum_sq_dev (xs : list R) : R :=
  Rsum (map (fun x => (x - Rmean xs) * (x - Rmean xs))%R xs).

Definition sum_co_dev (xs ys : list R) : R :=
  Rsum (zip_with (fun x y => (x - Rmean xs) * (y - Rmean ys))%R xs ys).

(** [np.polyfit(x, y, 1)]: slope and intercept of the least-squares line.
    With a single abscissa the minimum-norm solution is the horizontal
    line through the mean.  The line is the exact one: on values that are
    all equal the slope is 0 here, while numpy may return a slope of the
    size of a rounding error, of either sign.  The statements on the sign
    of a slope are therefore about windows that rise or fall strictly. *)
Definition polyfit1 (xs ys : list R) : result (R * R) :=
  match xs with
  | [] => Raise "TypeError: expected non-empty vector for x"
  | _ =>
      if bool_decide (length xs = length ys) then
        if bool_decide (sum_sq_dev xs = 0%R) then Ok (0%R, Rmean ys)
        else
          let slope := (sum_co_dev xs ys / sum_sq_dev xs)%R in
          Ok (slope, (Rmean ys - slope * Rmean xs)%R)
      else Raise "TypeError: expected x and y to have same length"
  end.

(** [np.std(a)]: the population standard deviation. *)
Definition np_std (xs : list R) : R := sqrt (sum_sq_dev xs / INR (length xs)).

(** [s.std()]: the sample standard deviation, NaN below two values. *)
Definition sample_std (xs : list R) : float :=
  match xs with
  | [] | [_] => NaN
  | _ => Fin (sqrt (sum_sq_dev xs / INR (length xs - 1)))
  end.

Definition Rsort (xs : list R) : list R :=
  sort_by (fun x y => bool_decide (x <= y)%R) xs.

(** [s.median()] of present values. *)
Definition median (xs : list R) : float :=
  let s := Rsort xs in
  let n := length s in
  match n with
  | 0 => NaN
  | _ =>
      if Nat.even n then
        Fin ((nth (n / 2 - 1) s 0 + nth (n / 2) s 0) / 2)%R
      else Fin (nth (n / 2) s 0%R)
  end.

(** [np.percentile(a, 90)], linear interpolation between order statistics. *)
Definition percentile90 (xs : list R) : float :=
  let s := Rsort xs in
  match length s with
  | 0 => NaN
  | S m =>
      let lo := (9 * m / 10)%nat in
      let frac := (INR (9 * m mod 10) / 10)%R in
      let a := nth lo s 0%R in
      let b := nth (S lo) s a in
      Fin (a + frac * (b - a))%R
  end.

Definition Rlist_min (xs : list R) : result R :=
  match xs with
  | [] => Raise "ValueError: zero-size array to reduction operation minimum"
  | x :: xs' => Ok (fold_left Rmin xs' x)
  end.

Definition Rlist_max (xs : list R) : result R :=
  match xs with
  | [] => Raise "ValueError: zero-size array to reduction operation maximum"
  | x :: xs' => Ok (fold_left Rmax xs' x)
  end.

(** [np.mean(a)], NaN on an empty array. *)
Definition np_mean (xs : list R) : float :=
  match xs with [] => NaN | _ => Fin (Rmean xs) end.

(** Pearson correlation of two columns over the rows where both are
    present ([DataFrame.corr], [min_periods=1]): NaN without such a row or
    when one side has no variance. *)
Definition complete_pairs (xs ys : list cell) : list (R * R) :=
  omap (M := list) (fun p : cell * cell => match p with
                 | (Num x, Num y) => Some (x, y)
                 | _ => None
                 end) (zip xs ys).

Definition pearson (xs ys : list cell) : float :=
  let ps := complete_pairs xs ys in
  match ps with
  | [] => NaN
  | _ =>
      let a := map fst ps in
      let b := map snd ps in
      let d := sqrt (sum_sq_dev a * sum_sq_dev b) in
      if bool_decide (d = 0%R) then NaN else Fin (sum_co_dev a b / d)%R
  end.

(** [s.dt.dayofweek] (Monday is 0); timestamps count nanoseconds from
    1970-01-01, a Thursday. *)
Definition ns_per_day : Z := 86400000000000.

Definition dayofweek (t : Z) : Z := ((t / ns_per_day + 3) mod 7)%Z.

#[global] Instance cell_eq_dec : EqDecision cell.
Proof. solve_decision. Defined.

(** [pd.to_numeric(s, errors='coerce')] is defined below, once the parser
    of the library is at hand. *)

(** ** Results: a success payload or [{"error": reason}] *)

Inductive payload (A : Type) : Type :=
| Success (a : A)
| Error (reason : string).
Arguments Success {A} a.
Arguments Error {A} reason.

(** ** The libraries *)

Definition matrix : Type := list (list float).

(** What a fitted [KMeans] exposes. *)
Record KMeansFit : Type := mkKMeansFit {
  labels_ : list Z;
  cluster_centers_ : list (list R);
  inertia_ : R
}.

(** The routines taken from pandas, scikit-learn and Python without a
    model of their own.  Each is a function of its arguments: randomised
    estimators receive their seed explicitly. *)
Record Library : Type := mkLibrary {
  (* pandas *)
  parse_datetime : string -> option Z;
  number_to_datetime : R -> option Z;
  parse_number : string -> option R;
  pct_change : nat -> list cell -> result (list cell);
  (* Python formatting *)
  format_2f : R -> string;
  format_float : R -> string;
  round1 : R -> R;
  (* sklearn.preprocessing.StandardScaler *)
  scaler_params : Type;
  scaler_fit : matrix -> result scaler_params;
  scaler_transform : scaler_params -> matrix -> result matrix;
  (* sklearn.ensemble.IsolationForest *)
  iforest : Type;
  iforest_fit : R -> Z -> matrix -> result iforest;
  iforest_decision : iforest -> matrix -> result (list R);
  (* sklearn.cluster.KMeans *)
  kmeans_fit : Z -> Z -> matrix -> result KMeansFit;
  (* numpy's global generator, used by an estimator without a seed *)
  draw_seed : Z -> Z * Z
}.

Section Analytics.

Variable lib : Library.

(** [pd.to_datetime(x, errors='coerce')] on one value *)
Definition to_datetime (c : cell) : cell :=
  match c with
  | Null => Null
  | Ts t => Ts t
  | Str s => match parse_datetime lib s with Some t => Ts t | None => Null end
  | Num x => match number_to_datetime lib x with Some t => Ts t | None => Null end
  end.

(** [pd.to_numeric(x, errors='coerce')] on one value *)
Definition to_numeric (c : cell) : option R :=
  match c with
  | Null => None
  | Num x => Some x
  | Str s => parse_number lib s
  | Ts t => Some (IZR t)
  end.

(** ** The machine state *)

Definition loc : Type := nat.

Record StandardScaler : Type := mkScaler {
  scaler_fitted : option (scaler_params lib)
}.

Record IsolationForest : Type := mkIsolationForest {
  contamination : R;
  if_random_state : option Z;
  if_fitted : option (iforest lib)
}.

Record KMeans : Type := mkKMeans {
  n_clusters : Z;
  km_random_state : option Z;
  km_fitted : option KMeansFit
}.

Record state : Type := mkState {
  heap : list DataFrame;
  scaler : StandardScaler;
  anomaly_detector : IsolationForest;
  segmentation_model : KMeans;
  np_random : Z
}.

Definition set_heap (h : list DataFrame) (s : state) : state :=
  mkState h (scaler s) (anomaly_detector s) (segmentation_model s) (np_random s).
Definition set_scaler (x : StandardScaler) (s : state) : state :=
  mkState (heap s) x (anomaly_detector s) (segmentation_model s) (np_random s).
Definition set_anomaly_detector (x : IsolationForest) (s : state) : state :=
  mkState (heap s) (scaler s) x (segmentation_model s) (np_random s).
Definition set_segmentation_model (x : KMeans) (s : state) : state :=
  mkState (heap s) (scaler s) (anomaly_detector s) x (np_random s).
Definition set_np_random (x : Z) (s : state) : state :=
  mkState (heap s) (scaler s) (anomaly_detector s) (segmentation_model s) x.

(** [AdvancedAnalytics.__init__] *)
Definition init (h : list DataFrame) (rng : Z) : state :=
  mkState h
    (mkScaler None)
    (mkIsolationForest 0.1%R (Some 42%Z) None)
    (mkKMeans 4%Z (Some 42%Z) None)
    rng.

(** ** Computations: state and exceptions *)

Definition M (A : Type) : Type := state -> result A * state.

Definition ret {A} (a : A) : M A := fun s => (Ok a, s).

Definition raise {A} (msg : string) : M A := fun s => (Raise msg, s).

Definition bind {A B} (m : M A) (f : A -> M B) : M B :=
  fun s => match m s with
           | (Ok a, s') => f a s'
           | (Raise msg, s') => (Raise msg, s')
           end.

Definition lift {A} (r : result A) : M A := fun s => (r, s).

Definition get_state : M state := fun s => (Ok s, s).

Definition modify (f : state -> state) : M unit := fun s => (Ok tt, f s).

Notation "x <- m ;; k" := (bind m (fun x => k))
  (at level 100, m at next level, right associativity).
Notation "m ;; k" := (bind m (fun _ => k))
  (at level 100, right associativity).

(** *** The store *)

Definition alloc (d : DataFrame) : M loc :=
  fun s => (Ok (length (heap s)), set_heap (heap s ++ [d]) s).

Definition load (l : loc) : M DataFrame :=
  fun s => match heap s !! l with
           | Some d => (Ok d, s)
           | None => (Raise "ReferenceError", s)
           end.

Definition store (l : loc) (d : DataFrame) : M unit :=
  modify (fun s => set_heap (<[l := d]> (heap s)) s).

(** [df.copy()] *)
Definition df_copy (l : loc) : M loc := d <- load l ;; alloc d.

(** [df[c]] *)
Definition df_getitem (l : loc) (c : string) : M (list cell) :=
  d <- load l ;; lift (getitem d c).

(** [df[c] = vals] *)
Definition df_setitem (l : loc) (c : string) (vals : list cell) : M unit :=
  d <- load l ;; d' <- lift (with_column d c vals) ;; store l d'.

(** [len(df)] *)
Definition df_len (l : loc) : M nat := d <- load l ;; ret (len d).

(** Methods that return a new frame. *)
Definition df_new (l : loc) (f : DataFrame -> result DataFrame) : M loc :=
  d <- load l ;; d' <- lift (f d) ;; alloc d'.

Definition df_dropna (l : loc) (cs : list string) : M loc :=
  df_new l (fun d => dropna d cs).

Definition df_sort_values (l : loc) (c : string) : M loc :=
  df_new l (fun d => sort_values d c).

Definition df_tail (l : loc) (n : Z) : M loc :=
  df_new l (fun d => Ok (tail n d)).

(** [try: body  except Exception as e: return {"error": f"{prefix}{e}"}] *)
Definition try_except {A} (body : M (payload A)) (prefix : string)
  : state -> payload A * state :=
  fun s => match body s with
           | (Ok p, s') => (p, s')
           | (Raise msg, s') => (Error (prefix ++ msg), s')
           end.

(** ** [detect_trends] *)

Record TrendResult : Type := mkTrendResult {
  trend_direction : string;
  trend_strength : string;
  growth_rate_7d : float;
  growth_rate_30d : float;
  seasonality_score : float;
  moving_average_7_day : float;
  moving_average_30_day : float;
  data_points : nat
}.

(** [s.rolling(window=w, min_periods=1).mean()] as a column *)
Definition rolling_mean_column (w : nat) (xs : list cell) : result (list cell) :=
  rbind (numeric_values xs) (fun ys => Ok (map float_cell (rolling_mean w ys))).

(** [s.dt.dayofweek] *)
Definition dt_dayofweek (dates : list cell) : result (list (option Z)) :=
  rmapM (fun c => match c with
                  | Ts t => Ok (Some (dayofweek t))
                  | Null => Ok None
                  | _ => Raise "AttributeError: Can only use .dt accessor with datetimelike values"
                  end) dates.

(** [df.groupby(keys)[c].mean()]: one mean per weekday that occurs, in
    increasing order of the weekday. *)
Definition groupby_mean (keys : list (option Z)) (vals : list cell)
  : result (list (option R)) :=
  rbind (numeric_values vals) (fun xs =>
    Ok (omap (M := list)
          (fun d : Z =>
             match mask_list (map (fun k => bool_decide (k = Some d)) keys) xs with
             | [] => None
             | g => Some (nanmean g)
             end)
          [0; 1; 2; 3; 4; 5; 6]%Z)).

Definition present (xs : list (option R)) : list R :=
  omap (M := list) (fun o : option R => o) xs.

Definition float_div (a b : float) : float :=
  match a, b with
  | Fin x, Fin y => if bool_decide (y = 0%R) then NaN else Fin (x / y)%R
  | _, _ => NaN
  end.

(** [weekly_avg.std() / weekly_avg.mean() if weekly_avg.mean() > 0 else 0] *)
Definition seasonality (weekly_avg : list (option R)) : float :=
  let m := float_of_option (nanmean weekly_avg) in
  if float_gt m (Fin 0) then float_div (sample_std (present weekly_avg)) m
  else Fin 0.

Definition detect_trends_body (df : loc) (date_column value_column : string)
    (window_days : Z) : M (payload TrendResult) :=
  df_copy <- df_copy df ;;
  dates <- df_getitem df_copy date_column ;;
  df_setitem df_copy date_column (map to_datetime dates) ;;
  df_copy <- df_dropna df_copy [date_column; value_column] ;;
  n <- df_len df_copy ;;
  if n <? 2 then ret (Error "Insufficient data for trend analysis") else
  df_copy <- df_sort_values df_copy date_column ;;
  v <- df_getitem df_copy value_column ;;
  ma <- lift (rolling_mean_column 7 v) ;;
  df_setitem df_copy "MA_7" ma ;;
  v <- df_getitem df_copy value_column ;;
  ma <- lift (rolling_mean_column 30 v) ;;
  df_setitem df_copy "MA_30" ma ;;
  v <- df_getitem df_copy value_column ;;
  g <- lift (pct_change lib 1 v) ;;
  df_setitem df_copy "Daily_Growth" g ;;
  v <- df_getitem df_copy value_column ;;
  g <- lift (pct_change lib 7 v) ;;
  df_setitem df_copy "Weekly_Growth" g ;;
  recent_data <- df_tail df_copy window_days ;;
  m <- df_len recent_data ;;
  if 1 <? m then
    let x := arange m in
    yc <- df_getitem recent_data value_column ;;
    y <- lift (finite_values yc) ;;
    fit <- lift (polyfit1 x y) ;;
    let slope := fst fit in
    let trend_direction :=
      if bool_decide (0 < slope)%R then "increasing" else "decreasing" in
    let trend_strength :=
      if bool_decide (np_std y < Rabs slope)%R then "strong" else "moderate" in
    dates <- df_getitem df_copy date_column ;;
    keys <- lift (dt_dayofweek dates) ;;
    v <- df_getitem df_copy value_column ;;
    weekly_avg <- lift (groupby_mean keys v) ;;
    let seasonality_score := seasonality weekly_avg in
    wg <- df_getitem df_copy "Weekly_Growth" ;;
    g7 <- lift (series_mean (tail_list 7 wg)) ;;
    dg <- df_getitem df_copy "Daily_Growth" ;;
    g30 <- lift (series_mean (tail_list 30 dg)) ;;
    ma7 <- df_getitem df_copy "MA_7" ;;
    ma7 <- lift (rbind (iloc_last ma7) to_float) ;;
    ma30 <- df_getitem df_copy "MA_30" ;;
    ma30 <- lift (rbind (iloc_last ma30) to_float) ;;
    n <- df_len df_copy ;;
    ret (Success (mkTrendResult trend_direction trend_strength g7 g30
                    seasonality_score ma7 ma30 n))
  else ret (Error "Insufficient recent data for trend analysis").

Definition detect_trends (df : loc) (date_column value_column : string)
    (window_days : Z) : state -> payload TrendResult * state :=
  try_except (detect_trends_body df date_column value_column window_days)
             "Trend analysis failed: ".

(** ** The shared estimators *)

(** [self.scaler.fit_transform(X)] ([copy=True]: [X] itself is not
    written). *)
Definition scaler_fit_transform (X : matrix) : M matrix :=
  p <- lift (scaler_fit lib X) ;;
  modify (set_scaler (mkScaler (Some p))) ;;
  lift (scaler_transform lib p X).

(** The seed of one fit: the estimator's [random_state] when it is an
    integer, else a draw from numpy's global generator. *)
Definition seed_of (random_state : option Z) : M Z :=
  match random_state with
  | Some z => ret z
  | None =>
      s <- get_state ;;
      modify (set_np_random (snd (draw_seed lib (np_random s)))) ;;
      ret (fst (draw_seed lib (np_random s)))
  end.

(** [self.anomaly_detector.set_params(contamination=c)] *)
Definition if_set_params (c : R) : M unit :=
  modify (fun s =>
    set_anomaly_detector
      (mkIsolationForest c (if_random_state (anomaly_detector s))
                         (if_fitted (anomaly_detector s))) s).

(** [predict]: -1 where the decision function is negative, else 1. *)
Definition if_label (score : R) : Z :=
  if bool_decide (score < 0)%R then (-1)%Z else 1%Z.

(** [self.anomaly_detector.fit_predict(X)] *)
Definition if_fit_predict (X : matrix) : M (list Z) :=
  s <- get_state ;;
  seed <- seed_of (if_random_state (anomaly_detector s)) ;;
  model <- lift (iforest_fit lib (contamination (anomaly_detector s)) seed X) ;;
  modify (fun s =>
    set_anomaly_detector
      (mkIsolationForest (contamination (anomaly_detector s))
                         (if_random_state (anomaly_detector s))
                         (Some model)) s) ;;
  scores <- lift (iforest_decision lib model X) ;;
  ret (map if_label scores).

(** [self.anomaly_detector.decision_function(X)] *)
Definition if_decision_function (X : matrix) : M (list R) :=
  s <- get_state ;;
  match if_fitted (anomaly_detector s) with
  | Some model => lift (iforest_decision lib model X)
  | None => raise "NotFittedError"
  end.

(** [self.segmentation_model.set_params(n_clusters=n)] *)
Definition km_set_params (n : Z) : M unit :=
  modify (fun s =>
    set_segmentation_model
      (mkKMeans n (km_random_state (segmentation_model s))
                (km_fitted (segmentation_model s))) s).

(** [self.segmentation_model.fit_predict(X)] *)
Definition km_fit_predict (X : matrix) : M (list Z) :=
  s <- get_state ;;
  seed <- seed_of (km_random_state (segmentation_model s)) ;;
  fit <- lift (kmeans_fit lib (n_clusters (segmentation_model s)) seed X) ;;
  modify (fun s =>
    set_segmentation_model
      (mkKMeans (n_clusters (segmentation_model s))
                (km_random_state (segmentation_model s))
                (Some fit)) s) ;;
  ret (labels_ fit).

(** An attribute of the fitted [KMeans]. *)
Definition km_attribute {A} (f : KMeansFit -> A) : M A :=
  s <- get_state ;;
  match km_fitted (segmentation_model s) with
  | Some fit => ret (f fit)
  | None => raise "AttributeError: 'KMeans' object has no attribute"
  end.

(** ** Preparing the numeric data *)

(** [numeric_data.fillna(numeric_data.mean())] *)
Definition fillna_mean (nd : DataFrame) : DataFrame :=
  mkDF (columns nd)
    (map (fun r =>
            fold_left
              (fun r c =>
                 match at_col c r, nanmean (map (score_of c) (rows nd)) with
                 | Null, Some m => <[c := Num m]> r
                 | _, _ => r
                 end)
              (columns nd) r)
         (rows nd)).

(** The array handed to scikit-learn. *)
Definition to_matrix (nd : DataFrame) : matrix :=
  map (fun r => map (fun c => float_of_option (score_of c r)) (columns nd))
      (rows nd).

(** [a / b] on integers: ZeroDivisionError on a zero divisor. *)
Definition py_div (a b : nat) : result R :=
  match b with
  | 0 => Raise "ZeroDivisionError: division by zero"
  | _ => Ok (INR a / INR b)%R
  end.

(** [a[mask]] on a numpy array *)
Definition np_mask {A} (mask : list bool) (xs : list A) : result (list A) :=
  if bool_decide (length mask = length xs) then Ok (mask_list mask xs)
  else Raise "IndexError: boolean index did not match indexed array".

(** ** [detect_anomalies] *)

Record AnomalyResult : Type := mkAnomalyResult {
  total_records : nat;
  anomaly_count : nat;
  anomaly_percentage : R;
  anomaly_threshold : float;
  top_anomalies : list row;
  anomaly_scores_mean : float;
  anomaly_scores_std : R;
  anomaly_scores_min : R;
  anomaly_scores_max : R
}.

Definition detect_anomalies_body (df : loc) (cols : list string)
    (contamination : R) : M (payload AnomalyResult) :=
  d <- load df ;;
  sel <- lift (getitems d cols) ;;
  let numeric_data := select_numeric sel in
  if empty numeric_data then
    ret (Error "No numeric columns found for anomaly detection")
  else
  let numeric_data := fillna_mean numeric_data in
  scaled_data <- scaler_fit_transform (to_matrix numeric_data) ;;
  if_set_params contamination ;;
  anomaly_labels <- if_fit_predict scaled_data ;;
  anomaly_scores <- if_decision_function scaled_data ;;
  let mask := map (fun l => (l =? -1)%Z) anomaly_labels in
  flagged <- df_new df (fun d => boolean_mask d mask) ;;
  anomalies <- df_copy flagged ;;
  flagged_scores <- lift (np_mask mask anomaly_scores) ;;
  df_setitem anomalies "anomaly_score" (map Num flagged_scores) ;;
  total_records <- df_len df ;;
  anomaly_count <- df_len anomalies ;;
  ratio <- lift (py_div anomaly_count total_records) ;;
  let anomaly_percentage := (ratio * 100)%R in
  a <- load anomalies ;;
  top_anomalies <- lift (nlargest 5 "anomaly_score" a) ;;
  lo <- lift (Rlist_min anomaly_scores) ;;
  hi <- lift (Rlist_max anomaly_scores) ;;
  ret (Success (mkAnomalyResult total_records anomaly_count anomaly_percentage
                  (percentile90 anomaly_scores)
                  (to_records top_anomalies)
                  (np_mean anomaly_scores) (np_std anomaly_scores) lo hi)).

Definition detect_anomalies (df : loc) (cols : list string)
    (contamination : R) : state -> payload AnomalyResult * state :=
  try_except (detect_anomalies_body df cols contamination)
             "Anomaly detection failed: ".

(** ** [segment_customers] *)

Record feat_stats : Type := mkFeatStats {
  fs_mean : float;
  fs_median : float;
  fs_std : float
}.

(** The dict [{"size": _, "percentage": _, "characteristics": {...}}]. *)
Record cluster_info : Type := mkClusterInfo {
  ci_size : nat;
  ci_percentage : R;
  ci_characteristics : gmap string feat_stats
}.

(** [len(cluster_info)]: the number of keys of that dict. *)
Definition cluster_info_len (ci : cluster_info) : nat :=
  length ["size"; "percentage"; "characteristics"].

Record cluster_detail : Type := mkClusterDetail {
  cd_size : nat;
  cd_percentage : R;
  cd_characteristics : string;
  cd_type : string
}.

Record SegmentationResult : Type := mkSegmentationResult {
  sr_n_clusters : Z;
  cluster_analysis : gmap string cluster_info;
  cluster_details : list cluster_detail;
  cluster_centers : list (list R);
  total_customers : nat;
  features_used : list string;
  segmentation_quality : R;
  business_insights : list string
}.

Definition float_add (a b : float) : float :=
  match a, b with
  | Fin x, Fin y => Fin (x + y)
  | _, _ => NaN
  end.

(** [for feature in fs: if feature in characteristics: acc += ...["mean"]] *)
Definition sum_feature_means (ci : cluster_info) (fs : list string) : float :=
  fold_left
    (fun acc f =>
       match ci_characteristics ci !! f with
       | Some st => float_add acc (fs_mean st)
       | None => acc
       end)
    fs (Fin 0).

Definition spending_keys : list string :=
  ["spent"; "value"; "amount"; "revenue"; "total"].

Definition order_keys : list string := ["order"; "count"; "frequency"].

(** The first two stages of [_determine_cluster_type] return a label or
    fall through. *)
Definition spending_type (ci : cluster_info) (features : list string)
  : option string :=
  let spending_features := List.filter (any_in_lower spending_keys) features in
  match spending_features with
  | [] => None
  | _ =>
      let avg_spending := sum_feature_means ci spending_features in
      if float_gt avg_spending (Fin 0) then
        Some (if float_gt avg_spending (Fin 10000) then "High-Value Premium"
              else if float_gt avg_spending (Fin 5000) then "Mid-Value Standard"
              else "Low-Value Basic")
      else None
  end.

Definition order_type (ci : cluster_info) (features : list string)
  : option string :=
  let order_features := List.filter (any_in_lower order_keys) features in
  match order_features with
  | [] => None
  | _ =>
      let avg_orders := sum_feature_means ci order_features in
      if float_gt avg_orders (Fin 0) then
        Some (if float_gt avg_orders (Fin 20) then "High-Frequency Loyal"
              else if float_gt avg_orders (Fin 10) then "Medium-Frequency Regular"
              else "Low-Frequency Occasional")
      else None
  end.

Definition size_type (ci : cluster_info) : string :=
  if bool_decide (INR (cluster_info_len ci) * 0.4 < INR (ci_size ci))%R then
    "Mainstream Majority"
  else if bool_decide (INR (ci_size ci) < INR (cluster_info_len ci) * 0.1)%R then
    "Niche Minority"
  else "Standard Segment".

Definition _determine_cluster_type (ci : cluster_info) (features : list string)
  : string :=
  match spending_type ci features with
  | Some t => t
  | None =>
      match order_type ci features with
      | Some t => t
      | None => size_type ci
      end
  end.

Definition cluster_key (cluster_id : nat) : string :=
  "cluster_" ++ str_of_nat cluster_id.

(** [range(n)] *)
Definition range (n : Z) : list nat := seq 0 (Z.to_nat n).

(** [df_with_clusters[df_with_clusters['cluster'] == cluster_id]] *)
Definition cluster_rows (dw : DataFrame) (cluster_id : nat) : DataFrame :=
  mkDF (columns dw)
       (List.filter
          (fun r => bool_decide (at_col "cluster" r = Num (INR cluster_id)))
          (rows dw)).

(** The inner loop over [features] that fills ["characteristics"]. *)
Definition characteristics_of (cluster_data : DataFrame)
    (features : list string) : gmap string feat_stats :=
  fold_left
    (fun acc feature =>
       if has_column cluster_data feature then
         let feature_data :=
           omap (M := list) to_numeric (column cluster_data feature) in
         match feature_data with
         | [] => acc
         | _ => <[feature := mkFeatStats (Fin (Rmean feature_data))
                                         (median feature_data)
                                         (sample_std feature_data)]> acc
         end
       else acc)
    features ∅.

(** The first loop: one entry of [cluster_analysis] per cluster id. *)
Definition analyse_cluster (dw : DataFrame) (total : nat)
    (features : list string) (cluster_id : nat) : result cluster_info :=
  let cluster_data := cluster_rows dw cluster_id in
  rbind (py_div (len cluster_data) total) (fun ratio =>
    Ok (mkClusterInfo (len cluster_data) (ratio * 100)%R
                      (characteristics_of cluster_data features))).

Fixpoint analyse_clusters (dw : DataFrame) (total : nat)
    (features : list string) (ids : list nat)
    (cluster_analysis : gmap string cluster_info)
  : result (gmap string cluster_info) :=
  match ids with
  | [] => Ok cluster_analysis
  | cluster_id :: ids' =>
      rbind (analyse_cluster dw total features cluster_id) (fun ci =>
        analyse_clusters dw total features ids'
          (<[cluster_key cluster_id := ci]> cluster_analysis))
  end.

(** [", ".join(xs)] *)
Fixpoint join (sep : string) (xs : list string) : string :=
  match xs with
  | [] => ""
  | [x] => x
  | x :: xs' => x ++ sep ++ join sep xs'
  end.

(** The readable characteristics of one cluster. *)
Definition readable_characteristics (ci : cluster_info)
    (features : list string) : list string :=
  omap (M := list)
    (fun feature =>
       match ci_characteristics ci !! feature with
       | Some st =>
           match fs_mean st with
           | Fin m =>
               if bool_decide (0 < m)%R then
                 Some (feature ++ ": ₹" ++ format_2f lib m ++ " avg")
               else None
           | NaN => None
           end
       | None => None
       end)
    features.

(** The second loop: one entry of [cluster_details] per cluster id. *)
Definition describe_cluster (cluster_analysis : gmap string cluster_info)
    (features : list string) (cluster_id : nat) : result cluster_detail :=
  match cluster_analysis !! cluster_key cluster_id with
  | None => Raise ("KeyError: " ++ cluster_key cluster_id)
  | Some cluster_info =>
      let characteristics := readable_characteristics cluster_info features in
      let cluster_type := _determine_cluster_type cluster_info features in
      Ok (mkClusterDetail (ci_size cluster_info)
                          (round1 lib (ci_percentage cluster_info))
                          (join ", " (take 3 characteristics))
                          cluster_type)
  end.

(** [max(xs, key=...)] and [min(xs, key=...)]: the first extremal item. *)
Fixpoint py_max_by {A} (key : A -> nat) (x : A) (xs : list A) : A :=
  match xs with
  | [] => x
  | y :: ys => py_max_by key (if key x <? key y then y else x) ys
  end.

Fixpoint py_min_by {A} (key : A -> nat) (x : A) (xs : list A) : A :=
  match xs with
  | [] => x
  | y :: ys => py_min_by key (if key y <? key x then y else x) ys
  end.

(** [any(b)] on a boolean: the built-in wants an iterable. *)
Definition any_of_bool (b : bool) : result bool :=
  Raise "'bool' object is not iterable".

(** [[c for c in xs if cond(c)]] with a condition that can raise *)
Fixpoint filterM {A} (cond : A -> result bool) (xs : list A) : result (list A) :=
  match xs with
  | [] => Ok []
  | x :: xs' =>
      rbind (cond x) (fun b =>
        rbind (filterM cond xs') (fun ys => Ok (if b then x :: ys else ys)))
  end.

Definition segment_line (what : string) (c : cluster_detail) : string :=
  what ++ " segment: " ++ cd_type c ++ " (" ++ str_of_nat (cd_size c)
       ++ " items, " ++ format_float lib (cd_percentage c) ++ "%)".

Definition business_insights_of (cluster_details : list cluster_detail)
  : result (list string) :=
  match cluster_details with
  | c :: (_ :: _) as rest =>
      let largest_cluster := py_max_by cd_size c rest in
      let smallest_cluster := py_min_by cd_size c rest in
      let business_insights :=
        [segment_line "Largest" largest_cluster;
         segment_line "Smallest" smallest_cluster] in
      rbind (filterM
               (fun c => any_of_bool (contains "high" (lower (cd_type c))
                                      || contains "premium" (lower (cd_type c))))
               cluster_details)
        (fun high_value_clusters =>
           match high_value_clusters with
           | [] => Ok business_insights
           | _ =>
               Ok (app business_insights
                     ["High-value segments identified: "
                        ++ str_of_nat (length high_value_clusters)
                        ++ " premium groups"])
           end)
  | _ => Ok []
  end.

Definition segment_customers_body (df : loc) (features : list string)
    (n_clusters : Z) : M (payload SegmentationResult) :=
  d <- load df ;;
  sel <- lift (getitems d features) ;;
  let feature_data := select_numeric sel in
  if empty feature_data then
    ret (Error "No numeric features found for segmentation")
  else
  let feature_data := fillna_mean feature_data in
  scaled_features <- scaler_fit_transform (to_matrix feature_data) ;;
  km_set_params n_clusters ;;
  cluster_labels <- km_fit_predict scaled_features ;;
  df_with_clusters <- df_copy df ;;
  df_setitem df_with_clusters "cluster" (map (fun l => Num (IZR l)) cluster_labels) ;;
  dw <- load df_with_clusters ;;
  total <- df_len df ;;
  cluster_analysis <-
    lift (analyse_clusters dw total features (range n_clusters) ∅) ;;
  cluster_centers <- km_attribute cluster_centers_ ;;
  cluster_details <-
    lift (rmapM (describe_cluster cluster_analysis features) (range n_clusters)) ;;
  business_insights <- lift (business_insights_of cluster_details) ;;
  inertia <- km_attribute inertia_ ;;
  ret (Success (mkSegmentationResult n_clusters cluster_analysis cluster_details
                  cluster_centers total features inertia business_insights)).

Definition segment_customers (df : loc) (features : list string)
    (n_clusters : Z) : state -> payload SegmentationResult * state :=
  try_except (segment_customers_body df features n_clusters)
             "Customer segmentation failed: ".

(** ** [calculate_correlations] *)

Record StrongCorrelation : Type := mkStrongCorrelation {
  variable1 : string;
  variable2 : string;
  correlation : float;
  strength : string;
  variable1_display : string;
  variable2_display : string;
  interpretation : string
}.

Record CorrelationResult : Type := mkCorrelationResult {
  correlation_matrix : gmap string (gmap string float);
  strong_correlations : list StrongCorrelation;
  variables_analyzed : nat;
  total_variables : nat;
  strong_correlations_count : nat;
  mean_correlation : float
}.

Definition in_lower (x s : string) : bool := contains x (lower s).

(** [_interpret_correlation]: four keyword rules, each of which returns a
    sentence or falls through, then the generic sentences. *)
Definition spend_rule (var1 var2 : string) (corr_value : float) : option string :=
  if in_lower "total" var1 || in_lower "amount" var1 || in_lower "spent" var1 then
    if in_lower "total" var2 || in_lower "amount" var2 || in_lower "spent" var2 then
      if float_gt corr_value (Fin 0.7) then
        Some "High spending customers tend to have high total amounts"
      else Some "Spending patterns are independent"
    else None
  else None.

Definition stock_rule (var1 var2 : string) (corr_value : float) : option string :=
  if in_lower "stock" var1 || in_lower "quantity" var1 then
    if in_lower "cost" var2 || in_lower "price" var2 then
      if float_gt corr_value (Fin 0.7) then
        Some "Higher stock quantities correlate with higher costs"
      else if float_lt corr_value (Fin (-0.7)) then
        Some "Higher stock quantities correlate with lower unit costs (bulk pricing)"
      else None
    else None
  else None.

Definition order_rule (var1 var2 : string) (corr_value : float) : option string :=
  if in_lower "order" var1 || in_lower "count" var1 then
    if in_lower "total" var2 || in_lower "amount" var2 then
      if float_gt corr_value (Fin 0.7) then
        Some "More orders correlate with higher total amounts"
      else Some "Order frequency and amounts are independent"
    else None
  else None.

Definition date_rule (var1 var2 : string) (corr_value : float) : option string :=
  if in_lower "date" var1 || in_lower "time" var1 then
    if in_lower "total" var2 || in_lower "amount" var2 then
      if float_gt corr_value (Fin 0.7) then
        Some "Time-based trends in spending/amounts detected"
      else if float_lt corr_value (Fin (-0.7)) then
        Some "Inverse time-based trends detected"
      else None
    else None
  else None.

Definition generic_rule (corr_value : float) : string :=
  if float_gt corr_value (Fin 0.9) then
    "Very strong positive relationship - these variables move together"
  else if float_gt corr_value (Fin 0.7) then
    "Strong positive relationship - as one increases, the other tends to increase"
  else if float_lt corr_value (Fin (-0.9)) then
    "Very strong negative relationship - these variables move in opposite directions"
  else if float_lt corr_value (Fin (-0.7)) then
    "Strong negative relationship - as one increases, the other tends to decrease"
  else "Moderate relationship - some connection exists".

Definition _interpret_correlation (var1 var2 : string) (corr_value : float)
  : string :=
  match spend_rule var1 var2 corr_value with
  | Some t => t
  | None =>
  match stock_rule var1 var2 corr_value with
  | Some t => t
  | None =>
  match order_rule var1 var2 corr_value with
  | Some t => t
  | None =>
  match date_rule var1 var2 corr_value with
  | Some t => t
  | None => generic_rule corr_value
  end end end end.

(** The entry of [variable_names] for a column. *)
Definition display_name (col : string) : string :=
  if in_lower "total" col || in_lower "amount" col || in_lower "spent" col then
    "💰 " ++ col
  else if in_lower "date" col || in_lower "time" col then "📅 " ++ col
  else if in_lower "stock" col || in_lower "quantity" col then "📦 " ++ col
  else if in_lower "price" col || in_lower "cost" col then "💵 " ++ col
  else if in_lower "order" col || in_lower "count" col then "🛒 " ++ col
  else "📊 " ++ col.

(** [numeric_data.corr()], read by position and as the nested dict of
    [to_dict()]. *)
Definition corr_iloc (nd : DataFrame) (i j : nat) : float :=
  pearson (column nd (nth i (columns nd) "")) (column nd (nth j (columns nd) "")).

Definition corr_to_dict (nd : DataFrame) : gmap string (gmap string float) :=
  list_to_map
    (map (fun a =>
            (a, list_to_map
                  (map (fun b => (b, pearson (column nd a) (column nd b)))
                       (columns nd))))
         (columns nd)).

(** [range(a, b)] *)
Definition range2 (a b : nat) : list nat := seq a (b - a).

(** The double loop that collects the strong pairs, with the fields added
    by the second loop over them. *)
Definition strong_pairs (nd : DataFrame) : list StrongCorrelation :=
  let n := length (columns nd) in
  flat_map
    (fun i =>
       flat_map
         (fun j =>
            let corr_value := corr_iloc nd i j in
            if float_gt (float_abs corr_value) (Fin 0.7) then
              let var1 := nth i (columns nd) "" in
              let var2 := nth j (columns nd) "" in
              [mkStrongCorrelation var1 var2 corr_value
                 (if float_gt corr_value (Fin 0) then "strong positive"
                  else "strong negative")
                 (display_name var1) (display_name var2)
                 (_interpret_correlation var1 var2 corr_value)]
            else [])
         (range2 (i + 1) n))
    (range2 0 n).

(** [a.mean()] on a numpy array that may hold NaN *)
Fixpoint finite_floats (xs : list float) : option (list R) :=
  match xs with
  | [] => Some []
  | Fin x :: xs' => option_map (cons x) (finite_floats xs')
  | NaN :: _ => None
  end.

Definition float_mean (xs : list float) : float :=
  match finite_floats xs with
  | Some (y :: ys) => Fin (Rmean (y :: ys))
  | _ => NaN
  end.

(** [values[np.triu_indices_from(values, k=1)]] *)
Definition upper_triangle (nd : DataFrame) : list float :=
  let n := length (columns nd) in
  flat_map (fun i => map (corr_iloc nd i) (range2 (i + 1) n)) (range2 0 n).

Definition calculate_correlations_body (df : loc) (cols : option (list string))
  : M (payload CorrelationResult) :=
  d <- load df ;;
  numeric_data <-
    match cols with
    | None => ret (select_numeric d)
    | Some cs => sel <- lift (getitems d cs) ;; ret (select_numeric sel)
    end ;;
  if empty numeric_data then
    ret (Error "No numeric columns found for correlation analysis")
  else
  let enhanced_correlations := strong_pairs numeric_data in
  let n := length (columns numeric_data) in
  ret (Success (mkCorrelationResult (corr_to_dict numeric_data)
                  enhanced_correlations n n (length enhanced_correlations)
                  (float_mean (upper_triangle numeric_data)))).

Definition calculate_correlations (df : loc) (cols : option (list string))
  : state -> payload CorrelationResult * state :=
  try_except (calculate_correlations_body df cols)
             "Correlation analysis failed: ".

(** ** [generate_forecast] *)

Record ForecastPoint : Type := mkForecastPoint {
  period : nat;
  forecast : R;
  lower_bound : R;
  upper_bound : R
}.

Record ForecastResult : Type := mkForecastResult {
  forecast_periods : Z;
  trend_slope : R;
  fc_trend_direction : string;
  confidence_interval : R;
  forecast_data : list ForecastPoint;
  last_actual_value : R;
  forecast_accuracy : string
}.

(** [np.arange(a, a + k)] *)
Definition arange_from (a : nat) (k : Z) : list R :=
  map INR (seq a (Z.to_nat k)).

(** [recent_values - (slope * x + intercept)] *)
Definition residuals (slope intercept : R) (x recent_values : list R) : list R :=
  zip_with (fun v xi => v - (slope * xi + intercept))%R recent_values x.

Definition forecast_rows (confidence_interval : R) (forecast_values : list R)
  : list ForecastPoint :=
  imap (fun i value =>
          mkForecastPoint (i + 1) value (value - confidence_interval)
                          (value + confidence_interval))
       forecast_values.

Definition generate_forecast_body (df : loc) (date_column value_column : string)
    (periods : Z) : M (payload ForecastResult) :=
  df_copy <- df_copy df ;;
  dates <- df_getitem df_copy date_column ;;
  df_setitem df_copy date_column (map to_datetime dates) ;;
  df_copy <- df_dropna df_copy [date_column; value_column] ;;
  n <- df_len df_copy ;;
  if n <? 10 then
    ret (Error "Insufficient data for forecasting (minimum 10 data points required)")
  else
  df_copy <- df_sort_values df_copy date_column ;;
  v <- df_getitem df_copy value_column ;;
  ma <- lift (rolling_mean_column 7 v) ;;
  df_setitem df_copy "MA_7" ma ;;
  v <- df_getitem df_copy value_column ;;
  ma <- lift (rolling_mean_column 14 v) ;;
  df_setitem df_copy "MA_14" ma ;;
  v <- df_getitem df_copy value_column ;;
  let recent_cells := tail_list 14 v in
  if 2 <=? length recent_cells then
    recent_values <- lift (finite_values recent_cells) ;;
    let x := arange (length recent_values) in
    fit <- lift (polyfit1 x recent_values) ;;
    let slope := fst fit in
    let intercept := snd fit in
    let future_x := arange_from (length recent_values) periods in
    let forecast_values := map (fun xi => slope * xi + intercept)%R future_x in
    let std_error := np_std (residuals slope intercept x recent_values) in
    let confidence_interval := (1.96 * std_error)%R in
    let forecast_data := forecast_rows confidence_interval forecast_values in
    last_value <- lift (match last recent_values with
                        | Some y => Ok y
                        | None => Raise "IndexError: index -1 is out of bounds"
                        end) ;;
    ret (Success (mkForecastResult periods slope
                    (if bool_decide (0 < slope)%R then "increasing" else "decreasing")
                    confidence_interval forecast_data last_value "moderate"))
  else ret (Error "Insufficient recent data for forecasting").

Definition generate_forecast (df : loc) (date_column value_column : string)
    (periods : Z) : state -> payload ForecastResult * state :=
  try_except (generate_forecast_body df date_column value_column periods)
             "Forecasting failed: ".

End Analytics.

(** ** What each operation computes from the table

    The payload of every operation is determined by the table it is
    given (and, for the two estimators, by the seed 42 set in
    [__init__]).  The functions below spell that payload out without the
    store; the lemmas [*_run] further down prove that each operation
    returns exactly this payload in every machine state. *)

Section Values.

Variable lib : Library.

Definition catch {A} (r : result (payload A)) (prefix : string) : payload A :=
  match r with
  | Ok p => p
  | Raise msg => Error (prefix ++ msg)
  end.

(** The rows an analysis of a time series keeps: the date parsed, and
    neither date nor value missing. *)
Definition valid_rows (d : DataFrame) (date_column value_column : string)
  : result DataFrame :=
  dates <~ getitem d date_column ;;
  d1 <~ with_column d date_column (map (to_datetime lib) dates) ;;
  dropna d1 [date_column; value_column].

Definition detect_trends_value (d : DataFrame) (date_column value_column : string)
    (window_days : Z) : payload TrendResult :=
  catch
    (dates <~ getitem d date_column ;;
     d1 <~ with_column d date_column (map (to_datetime lib) dates) ;;
     d2 <~ dropna d1 [date_column; value_column] ;;
     if len d2 <? 2 then Ok (Error "Insufficient data for trend analysis") else
     d3 <~ sort_values d2 date_column ;;
     v <~ getitem d3 value_column ;;
     ma <~ rolling_mean_column 7 v ;;
     d4 <~ with_column d3 "MA_7" ma ;;
     v <~ getitem d4 value_column ;;
     ma <~ rolling_mean_column 30 v ;;
     d5 <~ with_column d4 "MA_30" ma ;;
     v <~ getitem d5 value_column ;;
     g <~ pct_change lib 1 v ;;
     d6 <~ with_column d5 "Daily_Growth" g ;;
     v <~ getitem d6 value_column ;;
     g <~ pct_change lib 7 v ;;
     d7 <~ with_column d6 "Weekly_Growth" g ;;
     let recent_data := tail window_days d7 in
     if 1 <? len recent_data then
       yc <~ getitem recent_data value_column ;;
       y <~ finite_values yc ;;
       fit <~ polyfit1 (arange (len recent_data)) y ;;
       dates <~ getitem d7 date_column ;;
       keys <~ dt_dayofweek dates ;;
       v <~ getitem d7 value_column ;;
       weekly_avg <~ groupby_mean keys v ;;
       wg <~ getitem d7 "Weekly_Growth" ;;
       g7 <~ series_mean (tail_list 7 wg) ;;
       dg <~ getitem d7 "Daily_Growth" ;;
       g30 <~ series_mean (tail_list 30 dg) ;;
       ma7 <~ getitem d7 "MA_7" ;;
       ma7 <~ rbind (iloc_last ma7) to_float ;;
       ma30 <~ getitem d7 "MA_30" ;;
       ma30 <~ rbind (iloc_last ma30) to_float ;;
       Ok (Success (mkTrendResult
                      (if bool_decide (0 < fst fit)%R then "increasing"
                       else "decreasing")
                      (if bool_decide (np_std y < Rabs (fst fit))%R then "strong"
                       else "moderate")
                      g7 g30 (seasonality weekly_avg) ma7 ma30 (len d7)))
     else Ok (Error "Insufficient recent data for trend analysis"))
    "Trend analysis failed: ".

Definition detect_anomalies_value (d : DataFrame) (cols : list string)
    (contamination : R) : payload AnomalyResult :=
  catch
    (sel <~ getitems d cols ;;
     if empty (select_numeric sel) then
       Ok (Error "No numeric columns found for anomaly detection")
     else
     let X := to_matrix (fillna_mean (select_numeric sel)) in
     p <~ scaler_fit lib X ;;
     scaled_data <~ scaler_transform lib p X ;;
     model <~ iforest_fit lib contamination 42 scaled_data ;;
     scores <~ iforest_decision lib model scaled_data ;;
     anomaly_scores <~ iforest_decision lib model scaled_data ;;
     let mask := map (fun l => (l =? -1)%Z) (map if_label scores) in
     flagged <~ boolean_mask d mask ;;
     flagged_scores <~ np_mask mask anomaly_scores ;;
     anomalies <~ with_column flagged "anomaly_score" (map Num flagged_scores) ;;
     ratio <~ py_div (len anomalies) (len d) ;;
     top_anomalies <~ nlargest 5 "anomaly_score" anomalies ;;
     lo <~ Rlist_min anomaly_scores ;;
     hi <~ Rlist_max anomaly_scores ;;
     Ok (Success (mkAnomalyResult (len d) (len anomalies) (ratio * 100)%R
                    (percentile90 anomaly_scores) (to_records top_anomalies)
                    (np_mean anomaly_scores) (np_std anomaly_scores) lo hi)))
    "Anomaly detection failed: ".

Definition segment_customers_value (d : DataFrame) (features : list string)
    (n_clusters : Z) : payload SegmentationResult :=
  catch
    (sel <~ getitems d features ;;
     if empty (select_numeric sel) then
       Ok (Error "No numeric features found for segmentation")
     else
     let X := to_matrix (fillna_mean (select_numeric sel)) in
     p <~ scaler_fit lib X ;;
     scaled_features <~ scaler_transform lib p X ;;
     fit <~ kmeans_fit lib n_clusters 42 scaled_features ;;
     dw <~ with_column d "cluster" (map (fun l => Num (IZR l)) (labels_ fit)) ;;
     cluster_analysis <~
       analyse_clusters lib dw (len d) features (range n_clusters) ∅ ;;
     cluster_details <~
       rmapM (describe_cluster lib cluster_analysis features) (range n_clusters) ;;
     business_insights <~ business_insights_of lib cluster_details ;;
     Ok (Success (mkSegmentationResult n_clusters cluster_analysis
                    cluster_details (cluster_centers_ fit) (len d) features
                    (inertia_ fit) business_insights)))
    "Customer segmentation failed: ".

Definition calculate_correlations_value (d : DataFrame)
    (cols : option (list string)) : payload CorrelationResult :=
  catch
    (numeric_data <~
       match cols with
       | None => Ok (select_numeric d)
       | Some cs => sel <~ getitems d cs ;; Ok (select_numeric sel)
       end ;;
     if empty numeric_data then
       Ok (Error "No numeric columns found for correlation analysis")
     else
     Ok (Success (mkCorrelationResult (corr_to_dict numeric_data)
                    (strong_pairs numeric_data)
                    (length (columns numeric_data))
                    (length (columns numeric_data))
                    (length (strong_pairs numeric_data))
                    (float_mean (upper_triangle numeric_data)))))
    "Correlation analysis failed: ".

Definition generate_forecast_value (d : DataFrame) (date_column value_column : string)
    (periods : Z) : payload ForecastResult :=
  catch
    (dates <~ getitem d date_column ;;
     d1 <~ with_column d date_column (map (to_datetime lib) dates) ;;
     d2 <~ dropna d1 [date_column; value_column] ;;
     if len d2 <? 10 then
       Ok (Error "Insufficient data for forecasting (minimum 10 data points required)")
     else
     d3 <~ sort_values d2 date_column ;;
     v <~ getitem d3 value_column ;;
     ma <~ rolling_mean_column 7 v ;;
     d4 <~ with_column d3 "MA_7" ma ;;
     v <~ getitem d4 value_column ;;
     ma <~ rolling_mean_column 14 v ;;
     d5 <~ with_column d4 "MA_14" ma ;;
     v <~ getitem d5 value_column ;;
     if 2 <=? length (tail_list 14 v) then
       recent_values <~ finite_values (tail_list 14 v) ;;
       let x := arange (length recent_values) in
       fit <~ polyfit1 x recent_values ;;
       let confidence_interval :=
         (1.96 * np_std (residuals (fst fit) (snd fit) x recent_values))%R in
       last_value <~ match last recent_values with
                     | Some y => Ok y
                     | None => Raise "IndexError: index -1 is out of bounds"
                     end ;;
       Ok (Success (mkForecastResult periods (fst fit)
                      (if bool_decide (0 < fst fit)%R then "increasing"
                       else "decreasing")
                      confidence_interval
                      (forecast_rows confidence_interval
                         (map (fun xi => fst fit * xi + snd fit)%R
                              (arange_from (length recent_values) periods)))
                      last_value "moderate"))
     else Ok (Error "Insufficient recent data for forecasting"))
    "Forecasting failed: ".

End Values.

Arguments mkState {lib}.
Arguments heap {lib}.
Arguments scaler {lib}.
Arguments anomaly_detector {lib}.
Arguments segmentation_model {lib}.
Arguments np_random {lib}.
Arguments mkIsolationForest {lib}.
Arguments contamination {lib}.
Arguments if_random_state {lib}.
Arguments if_fitted {lib}.
Arguments mkScaler {lib}.
Arguments bind {lib A B}.
Arguments ret {lib A}.
Arguments raise {lib A}.
Arguments lift {lib A}.
Arguments get_state {lib}.
Arguments modify {lib}.
Arguments alloc {lib}.
Arguments load {lib}.
Arguments store {lib}.
Arguments try_except {lib A}.

(** ** States, runs and reachability *)

Section Reach.

Context {lib : Library}.
Implicit Types (s : state lib).

(** The estimators are created once, with the seed 42, and no operation
    changes a seed. *)
Definition seeded s : Prop :=
  if_random_state (anomaly_detector s) = Some 42%Z /\
  km_random_state (segmentation_model s) = Some 42%Z.

(** [run_to s p x]: the run [x], started in [s], returned the payload [p],
    left every object of the store of [s] as it was, and kept the seeds. *)
Definition run_to {A} s (p : payload A) (x : payload A * state lib) : Prop :=
  fst x = p /\
  exists ext sc ad km,
    snd x = mkState (heap s ++ ext) sc ad km (np_random s) /\
    if_random_state ad = if_random_state (anomaly_detector s) /\
    km_random_state km = km_random_state (segmentation_model s).

(** The states a program can be in: the analytics object was created once
    by [__init__]; since then the five operations ran any number of times
    on any arguments, while the rest of the program loaded or edited
    tables and drew from numpy's generator. *)
Inductive reachable : state lib -> Prop :=
| reach_init h rng : reachable (init lib h rng)
| reach_tables s h : reachable s -> reachable (set_heap lib h s)
| reach_random s z : reachable s -> reachable (set_np_random lib z s)
| reach_detect_trends s df dc vc wd :
    reachable s -> reachable (snd (detect_trends lib df dc vc wd s))
| reach_detect_anomalies s df cols c :
    reachable s -> reachable (snd (detect_anomalies lib df cols c s))
| reach_segment_customers s df features n :
    reachable s -> reachable (snd (segment_customers lib df features n s))
| reach_calculate_correlations s df cols :
    reachable s -> reachable (snd (calculate_correlations lib df cols s))
| reach_generate_forecast s df dc vc periods :
    reachable s -> reachable (snd (generate_forecast lib df dc vc periods s)).

(** An operation answers with a success payload or an error payload. *)
Definition answers {A} (x : payload A * state lib) : Prop :=
  (exists a, fst x = Success a) \/ (exists reason, fst x = Error reason).

End Reach.

(** ** A toy library and small tables, for concrete runs

    The scaler is the identity, the anomaly score of a row is its first
    feature, and the clusterer accepts one cluster and puts every row in
    it. *)

Definition toy_lib : Library :=
  mkLibrary
    (fun _ => None) (fun _ => None) (fun _ => None)
    (fun _ xs => Ok (map (fun _ => Null) xs))
    (fun _ => "") (fun _ => "") (fun x => x)
    unit (fun _ => Ok tt) (fun _ X => Ok X)
    unit (fun _ _ _ => Ok tt)
    (fun _ X => Ok (map (fun r => match r with Fin x :: _ => x | _ => 0%R end) X))
    (fun n _ X =>
       if (n =? 1)%Z then Ok (mkKMeansFit (map (fun _ => 0%Z) X) [] 0%R)
       else Raise "InvalidParameterError")
    (fun z => (z, (z + 1)%Z)).

Definition toy_row (t : Z) (x : R) : row :=
  {[ "date" := Ts t; "amount" := Num x ]}.

Definition toy_table : DataFrame :=
  mkDF ["date"; "amount"] [toy_row 0 1; toy_row 1 3].

Definition no_rows : DataFrame := mkDF ["date"; "amount"] [].

(** ** The statements about the time-series operations *)

(** The last [k] items of a list. *)
Definition trailing {A} (k : nat) (xs : list A) : list A :=
  drop (length xs - k) xs.

(** What C7 says of one call of [detect_trends]: when it succeeds, the two
    moving averages it reports are the means of the last [min(7, n)] and
    [min(30, n)] values of the date-sorted series of the valid rows. *)
Definition moving_averages_claim (lib : Library) (s : state lib) (df : loc)
    (dc vc : string) (wd : Z) : Prop :=
  forall d r,
    heap s !! df = Some d ->
    fst (detect_trends lib df dc vc wd s) = Success r ->
    exists d2 d3 ys,
      valid_rows lib d dc vc = Ok d2 /\ sort_values d2 dc = Ok d3 /\
      column d3 vc = map Num ys /\ 2 <= length ys /\
      moving_average_7_day r
        = Fin (Rmean (trailing (Nat.min 7 (length ys)) ys)) /\
      moving_average_30_day r
        = Fin (Rmean (trailing (Nat.min 30 (length ys)) ys)).

(** A table whose value column is itself called MA_7. *)
Definition ma7_table : DataFrame :=
  mkDF ["date"; "MA_7"]
       [ {[ "date" := Ts 0; "MA_7" := Num 0 ]};
         {[ "date" := Ts 86400000000000; "MA_7" := Num 2 ]} ].

(** Sum of squared residuals of the line [a x + b], and what it is to be
    a least-squares line. *)
Definition sse (a b : R) (xs ys : list R) : R :=
  Rsum (map (fun e => e * e)%R (residuals a b xs ys)).

Definition least_squares (xs ys : list R) (a b : R) : Prop :=
  forall a' b', (sse a b xs ys <= sse a' b' xs ys)%R.

(** [sum(x * y)] *)
Definition Sxy (xs ys : list R) : R := Rsum (zip_with Rmult xs ys).

(** What C4 says of one call of [generate_forecast]: with at least 10
    valid rows it succeeds, the reported slope is that of a least-squares
    line through the values [w] of the last 14 rows, and every forecast
    point lies on that line with bounds 1.96 residual standard deviations
    below and above; with fewer than 10 valid rows it answers with an
    error. *)
Definition forecast_claim (lib : Library) (s : state lib) (df : loc)
    (dc vc : string) (periods : Z) : Prop :=
  forall d d2,
    heap s !! df = Some d -> valid_rows lib d dc vc = Ok d2 ->
    (10 <= len d2 ->
     exists r d3 w b,
       fst (generate_forecast lib df dc vc periods s) = Success r /\
       sort_values d2 dc = Ok d3 /\
       tail_list 14 (column d3 vc) = map Num w /\
       least_squares (arange (length w)) w (trend_slope r) b /\
       length (forecast_data r) = Z.to_nat periods /\
       Forall
         (fun p =>
            let sd := np_std (residuals (trend_slope r) b (arange (length w)) w) in
            forecast p = (trend_slope r * INR (length w + (period p - 1)) + b)%R /\
            lower_bound p = (forecast p - 1.96 * sd)%R /\
            upper_bound p = (forecast p + 1.96 * sd)%R)
         (forecast_data r)) /\
    (len d2 < 10 ->
     exists reason, fst (generate_forecast lib df dc vc periods s) = Error reason).

(** Ten dated rows whose value column holds text, and ten with numbers. *)
Definition text_table : DataFrame :=
  mkDF ["date"; "note"]
       (map (fun i => {[ "date" := Ts (Z.of_nat i); "note" := Str "late" ]})
            (seq 0 10)).

Definition ten_rows : DataFrame :=
  mkDF ["date"; "amount"] (map (fun i => toy_row (Z.of_nat i) (INR i)) (seq 0 10)).

(** ** The statements about correlations *)

(** The numbers present in a column. *)
Definition numbers (xs : list cell) : list R :=
  omap (M := list) (fun c => match c with Num x => Some x | _ => None end) xs.

(** A column varies when its numbers are not all equal. *)
Definition varies (xs : list cell) : Prop := sum_sq_dev (numbers xs) <> 0%R.

(** [pearson] on the list of complete pairs. *)
Definition pearson_pairs (ps : list (R * R)) : float :=
  match ps with
  | [] => NaN
  | _ =>
      let d := sqrt (sum_sq_dev (map fst ps) * sum_sq_dev (map snd ps)) in
      if bool_decide (d = 0%R) then NaN
      else Fin (sum_co_dev (map fst ps) (map snd ps) / d)
  end.

(** What C3 says of one call of [calculate_correlations] *)
Definition symmetric_matrix (m : gmap string (gmap string float)) : Prop :=
  forall a b ra v,
    m !! a = Some ra -> ra !! b = Some v ->
    exists rb, m !! b = Some rb /\ rb !! a = Some v.

Definition unit_diagonal (m : gmap string (gmap string float)) : Prop :=
  forall a ra, m !! a = Some ra -> ra !! a = Some (Fin 1).

Definition strong_pairs_sound (r : CorrelationResult) : Prop :=
  Forall
    (fun p =>
       (exists x, correlation p = Fin x /\ (0.7 < Rabs x)%R) /\
       exists ra, correlation_matrix r !! variable1 p = Some ra /\
                  ra !! variable2 p = Some (correlation p))
    (strong_correlations r).

Definition correlation_claim (lib : Library) (s : state lib) (df : loc)
    (cols : option (list string)) : Prop :=
  forall d r,
    heap s !! df = Some d ->
    fst (calculate_correlations lib df cols s) = Success r ->
    symmetric_matrix (correlation_matrix r) /\
    unit_diagonal (correlation_matrix r) /\
    strong_pairs_sound r.

(** The diagonal as the code computes it: 1 on a column that varies, NaN
    on a column whose numbers are all equal (or absent). *)
Definition diagonal_of (d : DataFrame) (m : gmap string (gmap string float))
  : Prop :=
  forall a ra,
    m !! a = Some ra ->
    (varies (column d a) -> ra !! a = Some (Fin 1)) /\
    (~ varies (column d a) -> ra !! a = Some NaN).

Definition correlation_claim_amended (lib : Library) (s : state lib) (df : loc)
    (cols : option (list string)) : Prop :=
  forall d r,
    heap s !! df = Some d ->
    fst (calculate_correlations lib df cols s) = Success r ->
    symmetric_matrix (correlation_matrix r) /\
    diagonal_of d (correlation_matrix r) /\
    strong_pairs_sound r.

Definition constant_table : DataFrame :=
  mkDF ["price"; "cost"]
       [ {[ "price" := Num 5; "cost" := Num 1 ]};
         {[ "price" := Num 5; "cost" := Num 2 ]} ].

(** ** What the claims on [segment_customers] say *)

(** The contract of [KMeans.fit]: it accepts at least one cluster and
    labels every sample with a cluster id below [n_clusters]. *)
Definition kmeans_contract (lib : Library) : Prop :=
  forall n seed X fit,
    kmeans_fit lib n seed X = Ok fit ->
    (1 <= n)%Z /\ Forall (fun l => (0 <= l < n)%Z) (labels_ fit).

Fixpoint nat_sum (xs : list nat) : nat :=
  match xs with
  | [] => 0
  | x :: xs' => x + nat_sum xs'
  end.

(** The rule of the spec for a cluster without spending or order features:
    more than 40% of the rows, fewer than 10% of the rows, or neither. *)
Definition size_rule (size total : nat) : string :=
  if bool_decide (0.4 * INR total < INR size)%R then "Mainstream Majority"
  else if bool_decide (INR size < 0.1 * INR total)%R then "Niche Minority"
  else "Standard Segment".

(** The same thresholds taken on the three keys of [cluster_info]:
    1.2 and 0.3, whatever the table. *)
Definition key_count_rule (size : nat) : string :=
  if decide (2 <= size) then "Mainstream Majority"
  else if decide (size = 0) then "Niche Minority"
  else "Standard Segment".

(** Feature names that suggest neither spending nor order counts. *)
Definition neutral_features (features : list string) : Prop :=
  Forall (fun f => any_in_lower spending_keys f = false /\
                   any_in_lower order_keys f = false) features.

Definition one_row : DataFrame := mkDF ["age"] [ {[ "age" := Num 30 ]} ].

(** ** Tables for [detect_anomalies] *)

(** A row whose only feature is called score. *)
Definition score_row (x : R) : row := {[ "score" := Num x ]}.

Fixpoint in_order {A} (le : A -> A -> bool) (xs : list A) : bool :=
  match xs with
  | x :: (y :: _) as xs' => le x y && in_order le xs'
  | _ => true
  end.

(** ** Notions used to state what the operations report *)

(** pandas types a column by the objects it holds: a column of numbers and
    missing values is numeric, and so is a column of NaN only, while a
    column of None only has dtype object.  [Null] stands for NaN and None
    alike, so [numeric_column] is the dtype of a column only when the
    column holds a number, or a text or a date.  The statements that count
    numeric columns are about tables in which every column that holds
    neither text nor date holds a number. *)
Definition holds_number (d : DataFrame) (c : string) : bool :=
  existsb (fun x => match x with Num _ => true | _ => false end) (column d c).

Definition typed_by_values (d : DataFrame) (cols : list string) : bool :=
  forallb (fun c => implb (numeric_column d c) (holds_number d c)) cols.


(** The decision scores a call of [detect_anomalies] computes for the rows
    of [d]: the selected numeric columns, missing values filled with the
    column mean, scaled, and scored by a forest fitted on them with seed
    42. *)
Definition decision_scores (lib : Library) (d : DataFrame) (cols : list string)
    (c : R) (scores : list R) : Prop :=
  exists sel p X model,
    getitems d cols = Ok sel /\
    scaler_fit lib (to_matrix (fillna_mean (select_numeric sel))) = Ok p /\
    scaler_transform lib p (to_matrix (fillna_mean (select_numeric sel))) = Ok X /\
    iforest_fit lib c 42 X = Ok model /\
    iforest_decision lib model X = Ok scores.

(** A row is flagged when its decision score is negative. *)
Definition negative (x : R) : bool := bool_decide (x < 0)%R.

(** The score stored in a flagged row. *)
Definition score_value (r : row) : R :=
  match at_col "anomaly_score" r with Num x => x | _ => 0%R end.

(** The sentence [_interpret_correlation] keeps for a correlation that is
    not strong. *)
Definition moderate_sentence : string :=
  "Moderate relationship - some connection exists".

(** [n] times the co-deviation of two lists of length [n]. *)
Definition comoment (xs ys : list R) : R :=
  (INR (length xs) * Sxy xs ys - Rsum xs * Rsum ys)%R.

(** The columns [detect_trends] and [generate_forecast] add to their
    working copy. *)
Definition trend_columns : list string :=
  ["MA_7"; "MA_30"; "Daily_Growth"; "Weekly_Growth"].

Definition forecast_columns : list string := ["MA_7"; "MA_14"].

(** *** More small tables *)

Definition three_scores : DataFrame :=
  mkDF ["score"] (map score_row [-2; 1; -1]%R).

(** Two columns that hold the same numbers. *)
Definition twin_table : DataFrame :=
  mkDF ["price"; "cost"]
       [ {[ "price" := Num 1; "cost" := Num 1 ]};
         {[ "price" := Num 2; "cost" := Num 2 ]} ].

(** Two spending columns that move against each other. *)
Definition mirror_table : DataFrame :=
  mkDF ["total"; "amount"]
       [ {[ "total" := Num 1; "amount" := Num 2 ]};
         {[ "total" := Num 2; "amount" := Num 1 ]} ].

(** A library like [toy_lib] whose clusterer accepts any positive number
    of clusters and still puts every row in the first. *)
Definition lenient_lib : Library :=
  mkLibrary
    (fun _ => None) (fun _ => None) (fun _ => None)
    (fun _ xs => Ok (map (fun _ => Null) xs))
    (fun _ => "") (fun _ => "") (fun x => x)
    unit (fun _ => Ok tt) (fun _ X => Ok X)
    unit (fun _ _ _ => Ok tt)
    (fun _ X => Ok (map (fun r => match r with Fin x :: _ => x | _ => 0%R end) X))
    (fun n _ X =>
       if (1 <=? n)%Z then Ok (mkKMeansFit (map (fun _ => 0%Z) X) [] 0%R)
       else Raise "InvalidParameterError")
    (fun z => (z, (z + 1)%Z)).

(** ** A library that follows scikit-learn's rules

    The forest keeps the threshold rule of [IsolationForest]: the raw score
    of a row lies in [-1, 0), [offset_] is the percentile of the raw scores
    of the training rows at [100 * contamination], and the decision
    function is the raw score minus the offset, so that about a share
    [contamination] of the rows gets a negative value.  The raw score of a
    row is its first feature when that lies in the range, and -1/2
    otherwise.  The clusterer labels row [i] with [i mod n_clusters], as
    [KMeans] does on rows that lie far apart: no cluster is left empty, and
    more clusters than rows are refused.  The scaler is the identity. *)

(** [np.percentile(a, q)], linear interpolation between order statistics. *)
Definition np_percentile (q : R) (xs : list R) : R :=
  let s := Rsort xs in
  match length s with
  | 0 => 0%R
  | S m =>
      let position := (q / 100 * INR m)%R in
      let lo := Z.to_nat (Int_part position) in
      let a := nth lo s 0%R in
      let b := nth (S lo) s a in
      (a + frac_part position * (b - a))%R
  end.

Definition raw_score (sample : list float) : R :=
  match sample with
  | Fin x :: _ =>
      if bool_decide (-1 <= x)%R && bool_decide (x < 0)%R then x
      else (-1 / 2)%R
  | _ => (-1 / 2)%R
  end.

Definition sk_lib : Library :=
  mkLibrary
    (fun _ => None) (fun _ => None) (fun _ => None)
    (fun _ xs => Ok (map (fun _ => Null) xs))
    (fun _ => "") (fun _ => "") (fun x => x)
    unit (fun _ => Ok tt) (fun _ X => Ok X)
    R
    (fun c _ X =>
       if bool_decide (0 < c)%R && bool_decide (c <= 1 / 2)%R then
         Ok (np_percentile (100 * c) (map raw_score X))
       else Raise "InvalidParameterError")
    (fun offset X => Ok (map (fun sample => (raw_score sample - offset)%R) X))
    (fun n _ X =>
       if (1 <=? n)%Z && (n <=? Z.of_nat (length X))%Z then
         Ok (mkKMeansFit (imap (fun i _ => (Z.of_nat i mod n)%Z) X) [] 0%R)
       else Raise "ValueError: n_samples should be >= n_clusters")
    (fun z => (z, (z + 1)%Z)).

(** Sixty rows with the features -0.61, -0.60, ..., -0.02. *)
Definition sixty_scores : list R :=
  map (fun i => ((INR i - 61) / 100)%R) (seq 0 60).

Definition sixty_rows : DataFrame := mkDF ["score"] (map score_row sixty_scores).

(** The offset of the forest of [sk_lib] fitted on [sixty_rows] with
    contamination 0.1: the percentile sits at position 5.9, between -0.56
    and -0.55. *)
Definition sixty_offset : R := (-551 / 1000)%R.

(** Two rows and two clusters. *)
Definition two_rows : DataFrame :=
  mkDF ["age"] [ {[ "age" := Num 30 ]}; {[ "age" := Num 40 ]} ].

(** * The web application: [backend/app.py]

    The route [/advanced-analysis/<analysis_type>] is the caller of the
    analytics object above.  A response is the value handed to [jsonify]
    with its status code; encoding it as JSON is outside the model.
    Column names are taken to be ASCII, as for [lower]. *)

(** ** Strings: [str.replace] on one character and [str.title()] *)

Definition is_upper (c : ascii) : bool :=
  let n := nat_of_ascii c in (65 <=? n)%nat && (n <=? 90)%nat.

Definition is_lower (c : ascii) : bool :=
  let n := nat_of_ascii c in (97 <=? n)%nat && (n <=? 122)%nat.

Definition upper_ascii (c : ascii) : ascii :=
  if is_lower c then ascii_of_nat (nat_of_ascii c - 32) else c.

(** [s.replace(a, b)] for single characters *)
Fixpoint replace_char (a b : ascii) (s : string) : string :=
  match s with
  | EmptyString => EmptyString
  | String c s' =>
      String (if Ascii.eqb c a then b else c) (replace_char a b s')
  end.

(** [s.title()]: a letter is put in upper case when the character before
    it is not a letter, and in lower case otherwise. *)
Fixpoint title_from (previous_is_cased : bool) (s : string) : string :=
  match s with
  | EmptyString => EmptyString
  | String c s' =>
      let cased := is_upper c || is_lower c in
      String (if cased then
                if previous_is_cased then lower_ascii c else upper_ascii c
              else c)
             (title_from cased s')
  end.

Definition title (s : string) : string := title_from false s.

(** ** [_get_business_friendly_name] and [_get_correlation_interpretation] *)

(** The dict [name_mapping], in the order of its keys. *)
Definition name_mapping : list (string * string) :=
  [ ("total_amount", "💰 Total Sales");
    ("total_spent", "💳 Customer Spending");
    ("total_value", "📊 Total Value");
    ("grand_total", "💰 Grand Total");
    ("unit_price", "💵 Unit Price");
    ("quantity", "📦 Quantity");
    ("stock_quantity", "📦 Stock Level");
    ("current_stock", "📦 Current Stock");
    ("unit_cost", "💲 Unit Cost");
    ("total_cost", "💲 Total Cost");
    ("average_order_value", "📈 Average Order Value");
    ("total_orders", "🛒 Total Orders");
    ("price", "💵 Price");
    ("cost", "💲 Cost");
    ("revenue", "💰 Revenue");
    ("amount", "💵 Amount");
    ("value", "📊 Value");
    ("spent", "💳 Amount Spent");
    ("orders", "🛒 Orders");
    ("customers", "👥 Customers");
    ("products", "📦 Products");
    ("inventory", "📊 Inventory") ].

Definition _get_business_friendly_name (column_name : string) : string :=
  (* Try exact match first *)
  match List.find (fun kv => String.eqb (fst kv) (lower column_name))
                  name_mapping with
  | Some kv => snd kv
  | None =>
      (* Try partial matches *)
      match List.find (fun kv => contains (fst kv) (lower column_name))
                      name_mapping with
      | Some kv => snd kv
      | None =>
          (* Default: capitalize and add emoji *)
          "📊 " ++ title (replace_char "_" " " column_name)
      end
  end.

(** [a <= b] on floats: false as soon as one side is NaN. *)
Definition float_le (a b : float) : bool :=
  match a, b with
  | Fin x, Fin y => bool_decide (x <= y)%R
  | _, _ => false
  end.

Definition _get_correlation_interpretation (col1 col2 : string)
    (corr_value : float) : string :=
  let col1_friendly := _get_business_friendly_name col1 in
  let col2_friendly := _get_business_friendly_name col2 in
  let strength :=
    if float_gt (float_abs corr_value) (Fin 0.9) then "very strongly"
    else if float_gt (float_abs corr_value) (Fin 0.7) then "strongly"
    else "moderately" in
  let direction :=
    if float_gt corr_value (Fin 0) then "increase together"
    else "move in opposite directions" in
  col1_friendly ++ " and " ++ col2_friendly ++ " " ++ strength ++ " " ++ direction.

(** ** Uploaded data *)

(** One record of [df.to_dict('records')]: a dict, as the list of its
    items in insertion order. *)
Definition record : Type := list (string * cell).

(** The keys of a list of dicts, each once, in the order of first
    appearance. *)
Fixpoint first_seen (seen xs : list string) : list string :=
  match xs with
  | [] => []
  | x :: xs' =>
      if bool_decide (x ∈ seen) then first_seen seen xs'
      else x :: first_seen (x :: seen) xs'
  end.

(** [pd.DataFrame(records)]: a key absent from a record reads as missing. *)
Definition frame_of_records (records : list record) : DataFrame :=
  mkDF (first_seen [] (concat (map (map fst) records)))
       (map (fun r : record => list_to_map r) records).

(** ** Responses *)

(** One entry of the lists the route builds for the correlations. *)
Record Relationship : Type := mkRelationship {
  rel_variable1 : string;
  rel_variable2 : string;
  rel_variable1_display : string;
  rel_variable2_display : string;
  rel_correlation : float;
  rel_strength : string;
  rel_direction : string;
  rel_interpretation : string
}.

(** The dict of [calculate_correlations] after the route rewrote it: the
    keys [strong_correlations] and [variables_analyzed] are replaced, the
    matrix and the summary are kept, five keys are added. *)
Record CorrelationReport : Type := mkCorrelationReport {
  cr_correlation_matrix : gmap string (gmap string float);
  cr_strong_correlations : list Relationship;
  cr_variables_analyzed : nat;
  cr_total_variables : nat;
  cr_strong_correlations_count : nat;
  cr_mean_correlation : float;
  cr_moderate_correlations : list Relationship;
  cr_total_relationships : nat;
  cr_business_insights : list string;
  cr_recommendations : list string
}.

(** What is handed to [jsonify]. *)
Inductive body : Type :=
| ErrorBody (msg : string)                          (* {'error': msg} *)
| TrendsBody (result : payload TrendResult)
| AnomaliesBody (result : payload AnomalyResult)
| CorrelationsBody (result : payload CorrelationReport)
| ForecastBody (result : payload ForecastResult).

Definition response : Type := (body * nat)%type.

(** ** The route *)

Definition analysis_to_data_map : list (string * list string) :=
  [ ("trends", ["orders"; "customers"; "inventory"]);
    ("anomalies", ["orders"; "customers"; "inventory"; "products"]);
    ("correlations", ["orders"; "customers"; "inventory"; "products"]) ].

(** [[col for col in df.columns if 'Date' in col or 'date' in col.lower()]] *)
Definition date_like (col : string) : bool :=
  contains "Date" col || contains "date" (lower col).

Definition value_like (col : string) : bool :=
  contains "Total" col || contains "Value" col || contains "Cost" col
  || contains "Price" col || contains "Spent" col || contains "Amount" col.

(** [not any(x in col.lower() for x in ['id', 'sku', 'index'])] *)
Definition safe_column (col : string) : bool :=
  negb (any_in_lower ["id"; "sku"; "index"] col).

(** [enumerate(xs)] *)
Definition enumerate {A} (xs : list A) : list (nat * A) :=
  imap (fun i x => (i, x)) xs.

(** [result.get('correlation_matrix', {}).get(col1, {}).get(col2, 0)] *)
Definition matrix_get (m : gmap string (gmap string float)) (col1 col2 : string)
  : float :=
  default (Fin 0) (default ∅ (m !! col1) !! col2).

(** The two double loops over the upper triangle. *)
Definition relationships (m : gmap string (gmap string float))
    (safe_numeric_cols : list string)
    (keep : float -> bool) (strength_of : float -> string)
  : list Relationship :=
  flat_map
    (fun '(i, col1) =>
       flat_map
         (fun '(j, col2) =>
            if (i <? j)%nat then
              let corr_value := matrix_get m col1 col2 in
              if keep corr_value then
                [mkRelationship col1 col2
                   (_get_business_friendly_name col1)
                   (_get_business_friendly_name col2)
                   corr_value (strength_of corr_value)
                   (if float_gt corr_value (Fin 0) then "Positive" else "Negative")
                   (_get_correlation_interpretation col1 col2 corr_value)]
              else []
            else [])
         (enumerate safe_numeric_cols))
    (enumerate safe_numeric_cols).

Definition strong_relationships (m : gmap string (gmap string float))
    (safe_numeric_cols : list string) : list Relationship :=
  relationships m safe_numeric_cols
    (fun corr_value => float_gt (float_abs corr_value) (Fin 0.7))
    (fun corr_value =>
       if float_gt (float_abs corr_value) (Fin 0.9) then "Very Strong"
       else "Strong").

Definition moderate_relationships (m : gmap string (gmap string float))
    (safe_numeric_cols : list string) : list Relationship :=
  relationships m safe_numeric_cols
    (fun corr_value =>
       float_lt (Fin 0.5) (float_abs corr_value)
       && float_le (float_abs corr_value) (Fin 0.7))
    (fun _ => "Moderate").

Definition is_nil {A} (xs : list A) : bool :=
  match xs with [] => true | _ => false end.

Definition insights_of (strong moderate : list Relationship) : list string :=
  (if is_nil strong then []
   else ["Your business has " ++ str_of_nat (length strong)
           ++ " strong connections between different metrics";
         "When one metric changes, the related metrics tend to change in the same direction"])
  ++ (if is_nil moderate then []
      else ["Found " ++ str_of_nat (length moderate)
              ++ " moderate connections worth monitoring"])
  ++ (if is_nil strong && is_nil moderate then
        ["Your business metrics appear to be mostly independent - this could indicate diverse revenue streams"]
      else []).

Definition recommendations_of (strong moderate : list Relationship) : list string :=
  (if is_nil strong then []
   else ["Focus on the metrics that are strongly connected - improving one will likely improve the other";
         "Use these connections to predict business performance and make informed decisions"])
  ++ (if is_nil moderate then []
      else ["Monitor the moderately connected metrics to identify emerging business patterns"])
  ++ (if is_nil strong && is_nil moderate then
        ["Your business has diverse metrics - consider analyzing each area separately for optimization"]
      else []).

(** The rewriting of a successful result. *)
Definition enhance (result : CorrelationResult) (safe_numeric_cols : list string)
  : CorrelationReport :=
  let strong_correlations :=
    strong_relationships (correlation_matrix result) safe_numeric_cols in
  let moderate_correlations :=
    moderate_relationships (correlation_matrix result) safe_numeric_cols in
  mkCorrelationReport (correlation_matrix result) strong_correlations
    (length safe_numeric_cols)
    (total_variables result) (strong_correlations_count result)
    (mean_correlation result)
    moderate_correlations
    (length strong_correlations + length moderate_correlations)
    (insights_of strong_correlations moderate_correlations)
    (recommendations_of strong_correlations moderate_correlations).

Section Application.

Variable lib : Library.

Local Notation "x <- m ;; k" := (bind m (fun x => k))
  (at level 100, m at next level, right associativity).
Local Notation "m ;; k" := (bind m (fun _ => k))
  (at level 100, right associativity).

(** The module-level state of [app.py]. *)
Record App : Type := mkApp {
  PHASE_2_AVAILABLE : bool;
  uploaded_data : gmap string (list record);
  advanced_analytics : state lib
}.

(** [try: body  except Exception as e: handler(e)] *)
Definition try_with {A} (body : M lib A) (handler : string -> M lib A)
  : M lib A :=
  fun s => match body s with
           | (Ok a, s') => (Ok a, s')
           | (Raise msg, s') => handler msg s'
           end.

(** A call of a method of [advanced_analytics]: it returns its payload
    and never raises. *)
Definition call {A} (method : state lib -> A * state lib) : M lib A :=
  fun s => (Ok (fst (method s)), snd (method s)).

Definition trends_branch (df : loc) : M lib response :=
  d <- load df ;;
  let date_columns := List.filter date_like (columns d) in
  let value_columns := List.filter value_like (columns d) in
  match date_columns, value_columns with
  | date_col :: _, value_col :: _ =>
      try_with
        (df_copy <- df_copy lib df ;;
         dates <- df_getitem lib df_copy date_col ;;
         df_setitem lib df_copy date_col (map (to_datetime lib) dates) ;;
         df_copy <- df_dropna lib df_copy [date_col; value_col] ;;
         n <- df_len lib df_copy ;;
         if (5 <? n)%nat then
           result <- call (detect_trends lib df_copy date_col value_col 30) ;;
           ret (TrendsBody result, 200)
         else
           ret (ErrorBody "Insufficient data points for trend analysis (need at least 5)",
                400))
        (fun e => ret (ErrorBody ("Error in trend analysis: " ++ e), 400))
  | _, _ =>
      ret (ErrorBody "Date and value columns required for trend analysis", 400)
  end.

Definition anomalies_branch (df : loc) : M lib response :=
  d <- load df ;;
  let numeric_cols := columns (select_numeric d) in
  match numeric_cols with
  | [] => ret (ErrorBody "Numeric columns required for anomaly detection", 400)
  | _ =>
      let safe_numeric_cols := List.filter safe_column numeric_cols in
      match safe_numeric_cols with
      | [] =>
          ret (ErrorBody "No suitable numeric columns for anomaly detection", 400)
      | _ =>
          try_with
            (result <- call (detect_anomalies lib df safe_numeric_cols 0.1) ;;
             ret (AnomaliesBody result, 200))
            (fun e => ret (ErrorBody ("Error in anomaly detection: " ++ e), 400))
      end
  end.

Definition correlations_branch (df : loc) : M lib response :=
  d <- load df ;;
  let numeric_cols := columns (select_numeric d) in
  if (1 <? length numeric_cols)%nat then
    let safe_numeric_cols := List.filter safe_column numeric_cols in
    if (1 <? length safe_numeric_cols)%nat then
      try_with
        (result <- call (calculate_correlations lib df (Some safe_numeric_cols)) ;;
         match result with
         | Success r =>
             ret (CorrelationsBody (Success (enhance r safe_numeric_cols)), 200)
         | Error reason => ret (CorrelationsBody (Error reason), 200)
         end)
        (fun e => ret (ErrorBody ("Error in correlation analysis: " ++ e), 400))
    else
      ret (ErrorBody "Insufficient suitable numeric columns for correlation analysis",
           400)
  else
    ret (ErrorBody "Multiple numeric columns required for correlation analysis", 400).

(** [request.json.get('periods', 30)]; no JSON body is [None]. *)
Definition periods_of (json : option (gmap string Z)) : M lib Z :=
  match json with
  | Some j => ret (default 30%Z (j !! "periods"))
  | None => raise "AttributeError: 'NoneType' object has no attribute 'get'"
  end.

Definition forecast_branch (json : option (gmap string Z)) (df : loc)
  : M lib response :=
  d <- load df ;;
  let date_columns := List.filter date_like (columns d) in
  let value_columns := List.filter value_like (columns d) in
  match date_columns, value_columns with
  | date_col :: _, value_col :: _ =>
      periods <- periods_of json ;;
      try_with
        (df_copy <- df_copy lib df ;;
         dates <- df_getitem lib df_copy date_col ;;
         df_setitem lib df_copy date_col (map (to_datetime lib) dates) ;;
         df_copy <- df_dropna lib df_copy [date_col; value_col] ;;
         n <- df_len lib df_copy ;;
         if (5 <? n)%nat then
           result <- call (generate_forecast lib df_copy date_col value_col periods) ;;
           ret (ForecastBody result, 200)
         else
           ret (ErrorBody "Insufficient data points for forecasting (need at least 5)",
                400))
        (fun e => ret (ErrorBody ("Error in forecasting: " ++ e), 400))
  | _, _ =>
      ret (ErrorBody "Date and value columns required for forecasting", 400)
  end.

(** The [if]/[elif] chain under the outer [try]. *)
Definition dispatch (analysis_type : string) (json : option (gmap string Z))
    (df : loc) : M lib response :=
  if String.eqb analysis_type "trends" then trends_branch df
  else if String.eqb analysis_type "anomalies" then anomalies_branch df
  else if String.eqb analysis_type "correlations" then correlations_branch df
  else if String.eqb analysis_type "forecast" then forecast_branch json df
  else ret (ErrorBody ("Analysis type " ++ analysis_type ++ " not supported"), 400).

(** [dt in uploaded_data and uploaded_data[dt]] *)
Definition uploaded (app : App) (dt : string) : bool :=
  match uploaded_data app !! dt with
  | Some (_ :: _) => true
  | _ => false
  end.

Definition set_advanced_analytics (s : state lib) (app : App) : App :=
  mkApp (PHASE_2_AVAILABLE app) (uploaded_data app) s.

(** [advanced_analysis(analysis_type)], with the JSON body of the request.
    An exception that passed the outer handler would be Flask's own 500;
    none does. *)
Definition advanced_analysis (analysis_type : string)
    (json : option (gmap string Z)) (app : App) : response * App :=
  if negb (PHASE_2_AVAILABLE app) then
    ((ErrorBody "Advanced analysis not available in Phase 1", 400), app)
  else
  match List.find (fun kv => String.eqb (fst kv) analysis_type)
                  analysis_to_data_map with
  | None =>
      ((ErrorBody ("Analysis type " ++ analysis_type ++ " not supported"), 400),
       app)
  | Some (_, data_types) =>
      let available_data_types := List.filter (uploaded app) data_types in
      match available_data_types with
      | [] =>
          ((ErrorBody ("No suitable data uploaded for " ++ analysis_type
                         ++ " analysis"), 400), app)
      | data_type :: _ =>
          let records := default [] (uploaded_data app !! data_type) in
          let run :=
            (df <- alloc (frame_of_records records) ;;
             try_with (dispatch analysis_type json df)
               (fun e =>
                  ret (ErrorBody ("Error in advanced analysis: " ++ e), 500)))
              (advanced_analytics app) in
          (match fst run with
           | Ok resp => resp
           | Raise e => (ErrorBody e, 500)
           end,
           set_advanced_analytics (snd run) app)
      end
  end.

End Application.

Arguments PHASE_2_AVAILABLE {lib}.
Arguments uploaded_data {lib}.
Arguments advanced_analytics {lib}.
Arguments mkApp {lib}.
Arguments try_with {lib A}.
Arguments call {lib A}.

(** ** What the statements about the route speak of *)

(** The columns the route hands to [detect_anomalies] and
    [calculate_correlations]. *)
Definition safe_numeric_columns (d : DataFrame) : list string :=
  List.filter safe_column (columns (select_numeric d)).

(** The answer of the correlations branch on the table [d]. *)
Definition correlations_response (d : DataFrame) : response :=
  if (1 <? length (columns (select_numeric d)))%nat then
    if (1 <? length (safe_numeric_columns d))%nat then
      match calculate_correlations_value d (Some (safe_numeric_columns d)) with
      | Success r =>
          (CorrelationsBody (Success (enhance r (safe_numeric_columns d))), 200)
      | Error reason => (CorrelationsBody (Error reason), 200)
      end
    else
      (ErrorBody "Insufficient suitable numeric columns for correlation analysis",
       400)
  else
    (ErrorBody "Multiple numeric columns required for correlation analysis", 400).

Section ApplicationValues.

Variable lib : Library.

(** The state a request runs in: the store holds one more frame, made
    of the chosen records. *)
Definition with_table (d : DataFrame) (s : state lib) : state lib :=
  set_heap lib (heap s ++ [d]) s.

(** The table a request works on: the records of the first data type of
    the list that has data. *)
Definition table_of (app : App lib) (data_types : list string)
  : option DataFrame :=
  match List.filter (uploaded lib app) data_types with
  | [] => None
  | data_type :: _ =>
      Some (frame_of_records (default [] (uploaded_data app !! data_type)))
  end.

(** The answer of the trends branch on the table [d], without the store. *)
Definition trends_response (d : DataFrame) : response :=
  match List.filter date_like (columns d),
        List.filter value_like (columns d) with
  | date_col :: _, value_col :: _ =>
      match valid_rows lib d date_col value_col with
      | Ok d2 =>
          if (5 <? len d2)%nat then
            (TrendsBody (detect_trends_value lib d2 date_col value_col 30), 200)
          else
            (ErrorBody "Insufficient data points for trend analysis (need at least 5)",
             400)
      | Raise e => (ErrorBody ("Error in trend analysis: " ++ e), 400)
      end
  | _, _ =>
      (ErrorBody "Date and value columns required for trend analysis", 400)
  end.

(** The answer of the anomalies branch on the table [d]. *)
Definition anomalies_response (d : DataFrame) : response :=
  match columns (select_numeric d) with
  | [] => (ErrorBody "Numeric columns required for anomaly detection", 400)
  | _ =>
      match safe_numeric_columns d with
      | [] =>
          (ErrorBody "No suitable numeric columns for anomaly detection", 400)
      | _ =>
          (AnomaliesBody
             (detect_anomalies_value lib d (safe_numeric_columns d) 0.1), 200)
      end
  end.

End ApplicationValues.

Arguments with_table {lib}.

(** What the double loop of the route appends at the positions [i] and
    [j]. *)
Definition relationship_at (m : gmap string (gmap string float)) (cols : list string)
    (keep : float -> bool) (strength_of : float -> string) (i j : nat)
  : list Relationship :=
  let col1 := nth i cols "" in
  let col2 := nth j cols "" in
  let corr_value := matrix_get m col1 col2 in
  if keep corr_value then
    [mkRelationship col1 col2
       (_get_business_friendly_name col1) (_get_business_friendly_name col2)
       corr_value (strength_of corr_value)
       (if float_gt corr_value (Fin 0) then "Positive" else "Negative")
       (_get_correlation_interpretation col1 col2 corr_value)]
  else [].

(** A body made by the analytics object, not by the route. *)
Definition analytics_body (b : body) : bool :=
  match b with
  | ErrorBody _ => false
  | _ => true
  end.

Definition forecast_body (b : body) : bool :=
  match b with
  | ForecastBody _ => true
  | _ => false
  end.

(** Six dated orders, and the first five of them. *)
Definition order_record (i : nat) : record :=
  [ ("Order Date", Ts (Z.of_nat i)); ("Total Amount", Num (INR i)) ].

Definition six_orders : list record := map order_record (seq 0 6).

Definition five_orders : list record := map order_record (seq 0 5).

(** Two records whose two columns hold the same numbers. *)
Definition twin_records : list record :=
  [ [("price", Num 1); ("cost", Num 1)];
    [("price", Num 2); ("cost", Num 2)] ].

Definition shop (lib : Library) (orders : list record) : App lib :=
  mkApp true {[ "orders" := orders ]} (init lib [] 0).

(** ** Running a computation step by step *)

Local Open Scope list_scope.

Section Execution.

Context {lib : Library}.
Implicit Types (s : state lib) (h ext : list DataFrame).

Lemma run_bind_bind {A B C} (m : M lib A) (g : A -> M lib B)
    (f : B -> M lib C) s :
  bind (bind m g) f s = bind m (fun a => bind (g a) f) s.
Proof. unfold bind. destruct (m s) as [[a|e] s1]; reflexivity. Qed.

Lemma run_bind_ret {A B} (a : A) (f : A -> M lib B) s :
  bind (ret a) f s = f a s.
Proof. reflexivity. Qed.

Lemma run_bind_raise {A B} e (f : A -> M lib B) s :
  bind (raise e) f s = (Raise e, s).
Proof. reflexivity. Qed.

Lemma run_bind_lift {A B} (r : result A) (f : A -> M lib B) s :
  bind (lift r) f s = match r with Ok a => f a s | Raise e => (Raise e, s) end.
Proof. unfold bind, lift. destruct r; reflexivity. Qed.

Lemma run_bind_get_state {B} (f : state lib -> M lib B) s :
  bind get_state f s = f s s.
Proof. reflexivity. Qed.

Lemma run_bind_modify {B} g (f : unit -> M lib B) s :
  bind (modify g) f s = f tt (g s).
Proof. reflexivity. Qed.

Lemma run_bind_store {B} l d (f : unit -> M lib B) s :
  bind (store l d) f s = f tt (set_heap lib (<[l := d]> (heap s)) s).
Proof. reflexivity. Qed.

Lemma run_bind_alloc {B} d (f : loc -> M lib B) s :
  bind (alloc d) f s = f (length (heap s)) (set_heap lib (heap s ++ [d]) s).
Proof. reflexivity. Qed.

Lemma run_bind_load {B} l d (f : DataFrame -> M lib B) s :
  heap s !! l = Some d -> bind (load l) f s = f d s.
Proof. intros H. unfold bind, load. by rewrite H. Qed.

Lemma run_bind_load_dangling {B} l (f : DataFrame -> M lib B) s :
  heap s !! l = None -> bind (load l) f s = (Raise "ReferenceError", s).
Proof. intros H. unfold bind, load. by rewrite H. Qed.

Lemma run_ret {A} (a : A) s : ret a s = (Ok a, s).
Proof. reflexivity. Qed.

Lemma run_raise {A} e s : @raise lib A e s = (Raise e, s).
Proof. reflexivity. Qed.

Lemma run_lift {A} (r : result A) s : lift r s = (r, s).
Proof. reflexivity. Qed.

(** The store is the caller's part [h] followed by what the running
    operation allocated. *)
Lemma lookup_ext {A} (h e : list A) k : (h ++ e) !! (length h + k) = e !! k.
Proof. rewrite lookup_app_r by lia. f_equal. lia. Qed.

Lemma insert_ext {A} (h e : list A) k y :
  <[length h + k := y]> (h ++ e) = h ++ <[k := y]> e.
Proof. apply insert_app_r. Qed.

Lemma snoc_ext {A} (h e : list A) x : (h ++ e) ++ [x] = h ++ (e ++ [x]).
Proof. by rewrite <- app_assoc. Qed.

Lemma length_ext {A} (h e : list A) : length (h ++ e) = length h + length e.
Proof. apply length_app. Qed.

Lemma state_ext h sc ad km rng :
  mkState (lib := lib) h sc ad km rng = mkState (h ++ []) sc ad km rng.
Proof. by rewrite app_nil_r. Qed.

(** One step of each pandas call on a live reference. *)
Lemma run_df_copy {B} l d (f : loc -> M lib B) s :
  heap s !! l = Some d ->
  bind (df_copy lib l) f s
  = f (length (heap s)) (set_heap lib (heap s ++ [d]) s).
Proof.
  intros H. unfold df_copy. rewrite run_bind_bind. by erewrite run_bind_load.
Qed.

Lemma run_df_getitem {B} l c d (f : list cell -> M lib B) s :
  heap s !! l = Some d ->
  bind (df_getitem lib l c) f s =
  match getitem d c with Ok v => f v s | Raise e => (Raise e, s) end.
Proof.
  intros H. unfold df_getitem. rewrite run_bind_bind.
  erewrite run_bind_load by done. apply run_bind_lift.
Qed.

Lemma run_df_setitem {B} l c v d (f : unit -> M lib B) s :
  heap s !! l = Some d ->
  bind (df_setitem lib l c v) f s =
  match with_column d c v with
  | Ok d' => f tt (set_heap lib (<[l := d']> (heap s)) s)
  | Raise e => (Raise e, s)
  end.
Proof.
  intros H. unfold df_setitem. rewrite run_bind_bind.
  erewrite run_bind_load by done. rewrite run_bind_bind, run_bind_lift.
  destruct (with_column d c v); [apply run_bind_store | reflexivity].
Qed.

Lemma run_df_len {B} l d (f : nat -> M lib B) s :
  heap s !! l = Some d -> bind (df_len lib l) f s = f (len d) s.
Proof.
  intros H. unfold df_len. rewrite run_bind_bind. by erewrite run_bind_load.
Qed.

Lemma run_df_new {B} l g d (f : loc -> M lib B) s :
  heap s !! l = Some d ->
  bind (df_new lib l g) f s =
  match g d with
  | Ok d' => f (length (heap s)) (set_heap lib (heap s ++ [d']) s)
  | Raise e => (Raise e, s)
  end.
Proof.
  intros H. unfold df_new. rewrite run_bind_bind.
  erewrite run_bind_load by done. rewrite run_bind_bind, run_bind_lift.
  destruct (g d); [apply run_bind_alloc | reflexivity].
Qed.

End Execution.

Ltac state_norm :=
  unfold set_heap, set_scaler, set_anomaly_detector, set_segmentation_model,
    set_np_random;
  cbn [heap scaler anomaly_detector segmentation_model np_random
       contamination if_random_state if_fitted
       n_clusters km_random_state km_fitted];
  repeat first
    [ rewrite snoc_ext
    | rewrite length_ext
    | rewrite insert_ext ];
  cbn [app length insert list_insert].

Ltac heap_lookup :=
  cbn [heap];
  first
    [ rewrite lookup_ext; reflexivity
    | apply lookup_app_l_Some; eassumption
    | reflexivity ].

Ltac split_result :=
  cbv beta iota;
  try match goal with
      | H : ?r = _ |- context [match ?r with Ok _ => _ | Raise _ => _ end] =>
          rewrite H
      | |- context [match ?r with Ok _ => _ | Raise _ => _ end] =>
          destruct r eqn:?
      end.

Ltac mstep :=
  first
    [ erewrite run_df_getitem by heap_lookup; split_result
    | erewrite run_df_setitem by heap_lookup; split_result
    | erewrite run_df_len by heap_lookup
    | erewrite run_df_copy by heap_lookup
    | erewrite run_df_new by heap_lookup; split_result
    | rewrite run_bind_lift; split_result
    | rewrite run_bind_bind
    | rewrite run_bind_ret
    | rewrite run_bind_raise
    | rewrite run_bind_get_state
    | rewrite run_bind_modify
    | rewrite run_bind_alloc
    | erewrite run_bind_load by heap_lookup
    | rewrite run_ret
    | rewrite run_raise
    | rewrite run_lift
    | match goal with
      | H : ?b = _ |- context [(if ?b then _ else _) (mkState _ _ _ _ _)] =>
          rewrite H
      | |- context [(if ?b then _ else _) (mkState _ _ _ _ _)] =>
          destruct b eqn:?
      | |- context [(match ?o with Some _ => _ | None => _ end)
                      (mkState _ _ _ _ _)] =>
          destruct o eqn:?
      end ];
  cbv beta iota zeta; state_norm; cbn [rbind catch].

Ltac mstart :=
  unfold try_except, df_dropna, df_sort_values, df_tail,
    scaler_fit_transform, if_set_params, if_fit_predict, if_decision_function,
    km_set_params, km_fit_predict, km_attribute, seed_of.

Ltac mleaf :=
  split;
  [ reflexivity
  | cbn [snd heap anomaly_detector segmentation_model np_random
         if_random_state km_random_state];
    do 4 eexists; split;
    [ rewrite <- app_assoc; reflexivity | split; reflexivity ] ].

Ltac mrun := mstart; repeat mstep; try mleaf.

(** ** Every operation returns its value, in every state *)

Section Runs.

Context {lib : Library}.
Implicit Types (s : state lib).

Lemma detect_trends_run s df d date_column value_column window_days :
  heap s !! df = Some d ->
  run_to s (detect_trends_value lib d date_column value_column window_days)
         (detect_trends lib df date_column value_column window_days s).
Proof.
  destruct s as [h sc ad km rng]; cbn [heap].
  intros Hd. rewrite (state_ext h).
  unfold detect_trends, detect_trends_body, detect_trends_value.
  mrun.
Qed.

Lemma generate_forecast_run s df d date_column value_column periods :
  heap s !! df = Some d ->
  run_to s (generate_forecast_value lib d date_column value_column periods)
         (generate_forecast lib df date_column value_column periods s).
Proof.
  destruct s as [h sc ad km rng]; cbn [heap].
  intros Hd. rewrite (state_ext h).
  unfold generate_forecast, generate_forecast_body, generate_forecast_value.
  mrun.
Qed.

Lemma calculate_correlations_run s df d cols :
  heap s !! df = Some d ->
  run_to s (calculate_correlations_value d cols)
         (calculate_correlations lib df cols s).
Proof.
  destruct s as [h sc ad km rng]; cbn [heap].
  intros Hd. rewrite (state_ext h).
  unfold calculate_correlations, calculate_correlations_body,
    calculate_correlations_value.
  destruct cols as [cs|]; mrun.
Qed.

Lemma detect_anomalies_run s df d cols c :
  heap s !! df = Some d -> seeded s ->
  run_to s (detect_anomalies_value lib d cols c)
         (detect_anomalies lib df cols c s).
Proof.
  destruct s as [h sc [c0 rs fitted] km rng]; cbn [heap].
  intros Hd [Hs _]; cbn in Hs; subst rs. rewrite (state_ext h).
  unfold detect_anomalies, detect_anomalies_body, detect_anomalies_value.
  mrun.
Qed.

Lemma segment_customers_run s df d features n :
  heap s !! df = Some d -> seeded s ->
  run_to s (segment_customers_value lib d features n)
         (segment_customers lib df features n s).
Proof.
  destruct s as [h sc ad [n0 rs fitted] rng]; cbn [heap].
  intros Hd [_ Hs]; cbn in Hs; subst rs. rewrite (state_ext h).
  unfold segment_customers, segment_customers_body, segment_customers_value.
  mrun.
Qed.

End Runs.


(** ** Reachable states *)

Section Reachable.

Context {lib : Library}.
Implicit Types (s : state lib).

Lemma run_to_seeded {A} s (p : payload A) x :
  seeded s -> run_to s p x -> seeded (snd x).
Proof.
  intros [H1 H2] (_ & ext & sc & ad & km & -> & Ha & Hk).
  split; cbn; congruence.
Qed.

(** On a dangling reference every operation fails at its first access
    and leaves the state as it is. *)
Lemma dangling_detect_trends s df dc vc wd :
  heap s !! df = None -> snd (detect_trends lib df dc vc wd s) = s.
Proof.
  intros H. unfold detect_trends, detect_trends_body, try_except, df_copy.
  rewrite run_bind_bind. by erewrite run_bind_load_dangling.
Qed.

Lemma dangling_generate_forecast s df dc vc periods :
  heap s !! df = None -> snd (generate_forecast lib df dc vc periods s) = s.
Proof.
  intros H. unfold generate_forecast, generate_forecast_body, try_except, df_copy.
  rewrite run_bind_bind. by erewrite run_bind_load_dangling.
Qed.

Lemma dangling_detect_anomalies s df cols c :
  heap s !! df = None -> snd (detect_anomalies lib df cols c s) = s.
Proof.
  intros H. unfold detect_anomalies, detect_anomalies_body, try_except.
  by erewrite run_bind_load_dangling.
Qed.

Lemma dangling_segment_customers s df features n :
  heap s !! df = None -> snd (segment_customers lib df features n s) = s.
Proof.
  intros H. unfold segment_customers, segment_customers_body, try_except.
  by erewrite run_bind_load_dangling.
Qed.

Lemma dangling_calculate_correlations s df cols :
  heap s !! df = None -> snd (calculate_correlations lib df cols s) = s.
Proof.
  intros H. unfold calculate_correlations, calculate_correlations_body, try_except.
  by erewrite run_bind_load_dangling.
Qed.

Lemma reachable_seeded s : reachable s -> seeded s.
Proof.
  induction 1 as [h rng | s h _ IH | s z _ IH
                 | s df dc vc wd _ IH | s df cols c _ IH
                 | s df features n _ IH | s df cols _ IH
                 | s df dc vc periods _ IH].
  - split; reflexivity.
  - exact IH.
  - exact IH.
  - destruct (heap s !! df) as [d|] eqn:Hd.
    + eapply run_to_seeded; [exact IH | by apply detect_trends_run].
    + by rewrite dangling_detect_trends.
  - destruct (heap s !! df) as [d|] eqn:Hd.
    + eapply run_to_seeded; [exact IH | by apply detect_anomalies_run].
    + by rewrite dangling_detect_anomalies.
  - destruct (heap s !! df) as [d|] eqn:Hd.
    + eapply run_to_seeded; [exact IH | by apply segment_customers_run].
    + by rewrite dangling_segment_customers.
  - destruct (heap s !! df) as [d|] eqn:Hd.
    + eapply run_to_seeded; [exact IH | by apply calculate_correlations_run].
    + by rewrite dangling_calculate_correlations.
  - destruct (heap s !! df) as [d|] eqn:Hd.
    + eapply run_to_seeded; [exact IH | by apply generate_forecast_run].
    + by rewrite dangling_generate_forecast.
Qed.

(** The payload of each operation, in a reachable state. *)
Lemma detect_trends_value_eq s df d dc vc wd :
  heap s !! df = Some d ->
  fst (detect_trends lib df dc vc wd s) = detect_trends_value lib d dc vc wd.
Proof. intros H. by destruct (detect_trends_run s df d dc vc wd H). Qed.

Lemma generate_forecast_value_eq s df d dc vc periods :
  heap s !! df = Some d ->
  fst (generate_forecast lib df dc vc periods s)
  = generate_forecast_value lib d dc vc periods.
Proof. intros H. by destruct (generate_forecast_run s df d dc vc periods H). Qed.

Lemma calculate_correlations_value_eq s df d cols :
  heap s !! df = Some d ->
  fst (calculate_correlations lib df cols s) = calculate_correlations_value d cols.
Proof. intros H. by destruct (calculate_correlations_run s df d cols H). Qed.

Lemma detect_anomalies_value_eq s df d cols c :
  reachable s -> heap s !! df = Some d ->
  fst (detect_anomalies lib df cols c s) = detect_anomalies_value lib d cols c.
Proof.
  intros Hr H.
  by destruct (detect_anomalies_run s df d cols c H (reachable_seeded s Hr)).
Qed.

Lemma segment_customers_value_eq s df d features n :
  reachable s -> heap s !! df = Some d ->
  fst (segment_customers lib df features n s)
  = segment_customers_value lib d features n.
Proof.
  intros Hr H.
  by destruct (segment_customers_run s df d features n H (reachable_seeded s Hr)).
Qed.

Lemma run_to_frame {A} s (p : payload A) x l d :
  run_to s p x -> heap s !! l = Some d -> heap (snd x) !! l = Some d.
Proof.
  intros (_ & ext & sc & ad & km & -> & _) H. cbn.
  by apply lookup_app_l_Some.
Qed.

End Reachable.


(** ** Facts about frames *)

Section Frames.

Lemma length_insert_by {A} (le : A -> A -> bool) x xs :
  length (insert_by le x xs) = S (length xs).
Proof.
  induction xs as [|y ys IH]; cbn; [done|]. destruct (le x y); cbn; lia.
Qed.

Lemma length_sort_by {A} (le : A -> A -> bool) xs :
  length (sort_by le xs) = length xs.
Proof.
  induction xs as [|x xs IH]; cbn; [done|]. rewrite length_insert_by. lia.
Qed.

Lemma length_tail_list {A} (n : Z) (xs : list A) :
  (0 <= n)%Z -> length (tail_list n xs) = Nat.min (Z.to_nat n) (length xs).
Proof.
  intros Hn. unfold tail_list.
  destruct (0 <=? n)%Z eqn:E; [|lia]. rewrite length_drop. lia.
Qed.

Lemma len_tail d n : len (tail n d) = length (tail_list n (rows d)).
Proof. reflexivity. Qed.

Lemma with_column_ok d c v d' :
  with_column d c v = Ok d' ->
  length v = len d /\
  d' = mkDF (if has_column d c then columns d else columns d ++ [c])
            (zip_with (fun r x => <[c := x]> r) (rows d) v).
Proof.
  unfold with_column. case_bool_decide; [|done]. intros [= <-]. done.
Qed.

Lemma with_column_len d c v d' : with_column d c v = Ok d' -> len d' = len d.
Proof.
  intros [Hl ->]%with_column_ok. unfold len in *. cbn.
  rewrite length_zip_with. lia.
Qed.

Lemma with_column_rows_nil d c v d' :
  with_column d c v = Ok d' -> rows d = [] -> rows d' = [].
Proof.
  intros H%with_column_len Hr. unfold len in H. rewrite Hr in H.
  by destruct (rows d').
Qed.

Lemma dropna_ok d cs d' :
  dropna d cs = Ok d' ->
  d' = mkDF (columns d)
         (List.filter
            (fun r => forallb (fun c => negb (is_null (at_col c r))) cs)
            (rows d)).
Proof.
  unfold dropna. destruct (List.filter _ cs); [|done]. by intros [= <-].
Qed.

Lemma sort_values_ok d c d' :
  sort_values d c = Ok d' ->
  d' = mkDF (columns d)
         (sort_by (fun r1 r2 => key_le (sort_key (at_col c r1))
                                       (sort_key (at_col c r2))) (rows d)).
Proof.
  unfold sort_values. destruct (has_column d c); [|done]. by intros [= <-].
Qed.

Lemma sort_values_len d c d' : sort_values d c = Ok d' -> len d' = len d.
Proof. intros ->%sort_values_ok. unfold len. cbn. apply length_sort_by. Qed.

Lemma getitems_rows d cs d' : getitems d cs = Ok d' -> rows d' = rows d.
Proof.
  unfold getitems. destruct (List.filter _ cs); [|done]. by intros [= <-].
Qed.

Lemma empty_no_rows d : rows d = [] -> empty d = true.
Proof. unfold empty. intros ->. by destruct (columns d). Qed.

End Frames.

(** One step along the chain of a value function. *)
Ltac rstep :=
  lazymatch goal with
  | |- context [catch (rbind ?r _) _] =>
      destruct r eqn:?; cbn [rbind catch]
  | |- context [catch (if ?b then _ else _) _] =>
      destruct b eqn:?; cbn [rbind catch]
  end.

(** ** An empty table *)

Section EmptyTable.

Context {lib : Library}.

Lemma time_series_empty d dc vc d2 :
  rows d = [] -> valid_rows lib d dc vc = Ok d2 -> len d2 = 0.
Proof.
  unfold valid_rows. intros Hd Hv.
  destruct (getitem d dc) as [dates|e]; cbn [rbind] in Hv; [|done].
  destruct (with_column d dc _) as [d1|e] eqn:H1; cbn [rbind] in Hv; [|done].
  apply dropna_ok in Hv. apply with_column_rows_nil in H1; [|done].
  subst d2. unfold len. cbn. by rewrite H1.
Qed.

Lemma detect_trends_value_empty d dc vc wd :
  rows d = [] -> exists reason, detect_trends_value lib d dc vc wd = Error reason.
Proof.
  intros Hd. pose proof (time_series_empty d dc vc) as Hv.
  unfold detect_trends_value, valid_rows in *.
  destruct (getitem d dc) as [dates|e]; cbn [rbind catch] in *; [|eauto].
  destruct (with_column d dc _) as [d1|e]; cbn [rbind catch] in *; [|eauto].
  destruct (dropna d1 _) as [d2|e]; cbn [rbind catch]; [|eauto].
  rewrite (Hv d2) by done. cbn. eauto.
Qed.

Lemma generate_forecast_value_empty d dc vc p :
  rows d = [] ->
  exists reason, generate_forecast_value lib d dc vc p = Error reason.
Proof.
  intros Hd. pose proof (time_series_empty d dc vc) as Hv.
  unfold generate_forecast_value, valid_rows in *.
  destruct (getitem d dc) as [dates|e]; cbn [rbind catch] in *; [|eauto].
  destruct (with_column d dc _) as [d1|e]; cbn [rbind catch] in *; [|eauto].
  destruct (dropna d1 _) as [d2|e]; cbn [rbind catch]; [|eauto].
  rewrite (Hv d2) by done. cbn. eauto.
Qed.

Lemma detect_anomalies_value_empty d cols c :
  rows d = [] ->
  exists reason, detect_anomalies_value lib d cols c = Error reason.
Proof.
  intros Hd. unfold detect_anomalies_value.
  destruct (getitems d cols) as [sel|e] eqn:H1; cbn [rbind catch]; [|eauto].
  rewrite empty_no_rows; [cbn; eauto|].
  cbn. apply getitems_rows in H1. congruence.
Qed.

Lemma segment_customers_value_empty d fs n :
  rows d = [] ->
  exists reason, segment_customers_value lib d fs n = Error reason.
Proof.
  intros Hd. unfold segment_customers_value.
  destruct (getitems d fs) as [sel|e] eqn:H1; cbn [rbind catch]; [|eauto].
  rewrite empty_no_rows; [cbn; eauto|].
  cbn. apply getitems_rows in H1. congruence.
Qed.

Lemma calculate_correlations_value_empty d cols :
  rows d = [] ->
  exists reason, calculate_correlations_value d cols = Error reason.
Proof.
  intros Hd. unfold calculate_correlations_value.
  destruct cols as [cs|].
  - destruct (getitems d cs) as [sel|e] eqn:H1; cbn [rbind catch]; [|eauto].
    rewrite empty_no_rows; [cbn; eauto|].
    cbn. apply getitems_rows in H1. congruence.
  - cbn [rbind catch]. rewrite empty_no_rows; [cbn; eauto|done].
Qed.

Lemma payload_cases {A} (x : payload A * state lib) : answers x.
Proof. destruct x as [[a|e] s]; [left|right]; eauto. Qed.

End EmptyTable.

(** ** The trailing window of [detect_trends] *)

Section TrendWindow.

Context {lib : Library}.

Lemma detect_trends_value_recent d dc vc wd d2 :
  valid_rows lib d dc vc = Ok d2 -> 2 <= len d2 -> (2 <= wd)%Z ->
  (exists r, detect_trends_value lib d dc vc wd = Success r) \/
  (exists msg, detect_trends_value lib d dc vc wd
               = Error ("Trend analysis failed: " +:+ msg)).
Proof.
  unfold valid_rows, detect_trends_value. intros Hv Hn Hw.
  destruct (getitem d dc) as [dates|]; cbn [rbind] in *; [|done].
  destruct (with_column d dc _) as [d1|]; cbn [rbind] in *; [|done].
  rewrite Hv. cbn [rbind].
  destruct (len d2 <? 2)%nat eqn:E; [apply Nat.ltb_lt in E; lia|].
  do 13 (rstep; [|eauto]).
  match goal with
  | |- context [len (tail wd ?d7)] =>
      assert (len d7 = len d2) as Hlen;
      [ repeat match goal with
               | H : with_column _ _ _ = Ok _ |- _ => apply with_column_len in H
               | H : sort_values _ _ = Ok _ |- _ => apply sort_values_len in H
               end; congruence
      | rewrite len_tail, length_tail_list by lia; fold (len d7); rewrite Hlen ]
  end.
  destruct (1 <? _)%nat eqn:E1; [|apply Nat.ltb_ge in E1; lia].
  repeat (rstep; [|eauto]). eauto.
Qed.

End TrendWindow.

(** ** The claims about all five operations *)

Section Claims.

Context {lib : Library}.
Implicit Types (s : state lib).

(** C5. Determinism across calls: in any two reachable states (whatever
    ran before, on whatever tables, and wherever the table lives in the
    store), each operation returns the same payload on the same table and
    the same parameters. *)
Theorem C5_deterministic s1 s2 df1 df2 d :
  reachable s1 -> reachable s2 ->
  heap s1 !! df1 = Some d -> heap s2 !! df2 = Some d ->
  (forall dc vc wd,
     fst (detect_trends lib df1 dc vc wd s1)
     = fst (detect_trends lib df2 dc vc wd s2)) /\
  (forall cols c,
     fst (detect_anomalies lib df1 cols c s1)
     = fst (detect_anomalies lib df2 cols c s2)) /\
  (forall features n,
     fst (segment_customers lib df1 features n s1)
     = fst (segment_customers lib df2 features n s2)) /\
  (forall cols,
     fst (calculate_correlations lib df1 cols s1)
     = fst (calculate_correlations lib df2 cols s2)) /\
  (forall dc vc periods,
     fst (generate_forecast lib df1 dc vc periods s1)
     = fst (generate_forecast lib df2 dc vc periods s2)).
Proof.
  intros R1 R2 H1 H2. repeat split; intros.
  - by rewrite !(detect_trends_value_eq _ _ d).
  - by rewrite !(detect_anomalies_value_eq _ _ d).
  - by rewrite !(segment_customers_value_eq _ _ d).
  - by rewrite !(calculate_correlations_value_eq _ _ d).
  - by rewrite !(generate_forecast_value_eq _ _ d).
Qed.

(** C9. No operation changes a table of the store: after the call every
    table that was in the store, the input table among them, is what it
    was. *)
Theorem C9_input_unchanged s df d :
  reachable s -> heap s !! df = Some d ->
  forall l t, heap s !! l = Some t ->
  (forall dc vc wd,
     heap (snd (detect_trends lib df dc vc wd s)) !! l = Some t) /\
  (forall cols c,
     heap (snd (detect_anomalies lib df cols c s)) !! l = Some t) /\
  (forall features n,
     heap (snd (segment_customers lib df features n s)) !! l = Some t) /\
  (forall cols,
     heap (snd (calculate_correlations lib df cols s)) !! l = Some t) /\
  (forall dc vc periods,
     heap (snd (generate_forecast lib df dc vc periods s)) !! l = Some t).
Proof.
  intros Hr Hd l t Hl. pose proof (reachable_seeded s Hr) as Hs.
  repeat split; intros; (eapply run_to_frame; [|exact Hl]).
  - by apply detect_trends_run.
  - by apply detect_anomalies_run.
  - by apply segment_customers_run.
  - by apply calculate_correlations_run.
  - by apply generate_forecast_run.
Qed.

(** C8. Every operation answers with a success payload or an error
    payload, in every state and on every argument (an exception never
    leaves it); on a table without rows each of the five answers with an
    error payload. *)
Theorem C8_payload_or_error :
  (forall s df,
     (forall dc vc wd, answers (detect_trends lib df dc vc wd s)) /\
     (forall cols c, answers (detect_anomalies lib df cols c s)) /\
     (forall features n, answers (segment_customers lib df features n s)) /\
     (forall cols, answers (calculate_correlations lib df cols s)) /\
     (forall dc vc periods, answers (generate_forecast lib df dc vc periods s)))
  /\
  (forall s df d,
     reachable s -> heap s !! df = Some d -> rows d = [] ->
     (forall dc vc wd, exists reason,
        fst (detect_trends lib df dc vc wd s) = Error reason) /\
     (forall cols c, exists reason,
        fst (detect_anomalies lib df cols c s) = Error reason) /\
     (forall features n, exists reason,
        fst (segment_customers lib df features n s) = Error reason) /\
     (forall cols, exists reason,
        fst (calculate_correlations lib df cols s) = Error reason) /\
     (forall dc vc periods, exists reason,
        fst (generate_forecast lib df dc vc periods s) = Error reason)).
Proof.
  split.
  - intros s df. repeat split; intros; apply payload_cases.
  - intros s df d Hr Hd He. repeat split; intros.
    + rewrite (detect_trends_value_eq _ _ d) by done.
      by apply detect_trends_value_empty.
    + rewrite (detect_anomalies_value_eq _ _ d) by done.
      by apply detect_anomalies_value_empty.
    + rewrite (segment_customers_value_eq _ _ d) by done.
      by apply segment_customers_value_empty.
    + rewrite (calculate_correlations_value_eq _ _ d) by done.
      by apply calculate_correlations_value_empty.
    + rewrite (generate_forecast_value_eq _ _ d) by done.
      by apply generate_forecast_value_empty.
Qed.

(** C10. With [window_days >= 2], once at least two valid rows passed the
    first check, [detect_trends] never answers "Insufficient recent data
    for trend analysis": it returns a trend result or the error made from
    an exception. *)
Theorem C10_recent_branch_unreachable s df d dc vc wd d2 :
  heap s !! df = Some d ->
  valid_rows lib d dc vc = Ok d2 -> 2 <= len d2 -> (2 <= wd)%Z ->
  fst (detect_trends lib df dc vc wd s)
    <> Error "Insufficient recent data for trend analysis" /\
  ((exists r, fst (detect_trends lib df dc vc wd s) = Success r) \/
   (exists msg, fst (detect_trends lib df dc vc wd s)
                = Error ("Trend analysis failed: " +:+ msg))).
Proof.
  intros Hd Hv Hn Hw. rewrite (detect_trends_value_eq _ _ d) by done.
  pose proof (detect_trends_value_recent d dc vc wd d2 Hv Hn Hw) as H.
  split; [|exact H].
  destruct H as [[r ->]|[msg ->]]; [done|]. cbn. intros [=].
Qed.

End Claims.

(** *** Instances on the toy library *)

Lemma C9_witness :
  let s := init toy_lib [no_rows; toy_table] 0 in
  (forall dc vc wd,
     heap (snd (detect_trends toy_lib 1 dc vc wd s)) !! 1 = Some toy_table) /\
  (forall cols c,
     heap (snd (detect_anomalies toy_lib 1 cols c s)) !! 1 = Some toy_table) /\
  (forall features n,
     heap (snd (segment_customers toy_lib 1 features n s)) !! 1 = Some toy_table) /\
  (forall cols,
     heap (snd (calculate_correlations toy_lib 1 cols s)) !! 1 = Some toy_table) /\
  (forall dc vc periods,
     heap (snd (generate_forecast toy_lib 1 dc vc periods s)) !! 1
     = Some toy_table).
Proof.
  apply (C9_input_unchanged (lib := toy_lib) _ 1 toy_table).
  - apply reach_init.
  - reflexivity.
  - reflexivity.
Defined.

Lemma C8_witness :
  let s := init toy_lib [no_rows] 0 in
  (forall dc vc wd, exists reason,
     fst (detect_trends toy_lib 0 dc vc wd s) = Error reason) /\
  (forall cols c, exists reason,
     fst (detect_anomalies toy_lib 0 cols c s) = Error reason) /\
  (forall features n, exists reason,
     fst (segment_customers toy_lib 0 features n s) = Error reason) /\
  (forall cols, exists reason,
     fst (calculate_correlations toy_lib 0 cols s) = Error reason) /\
  (forall dc vc periods, exists reason,
     fst (generate_forecast toy_lib 0 dc vc periods s) = Error reason).
Proof.
  apply (proj2 (C8_payload_or_error (lib := toy_lib)) _ 0 no_rows).
  - apply reach_init.
  - reflexivity.
  - reflexivity.
Defined.

Lemma C10_witness :
  let s := init toy_lib [toy_table] 0 in
  fst (detect_trends toy_lib 0 "date" "amount" 30 s)
    <> Error "Insufficient recent data for trend analysis" /\
  ((exists r, fst (detect_trends toy_lib 0 "date" "amount" 30 s) = Success r) \/
   (exists msg, fst (detect_trends toy_lib 0 "date" "amount" 30 s)
                = Error ("Trend analysis failed: " +:+ msg))).
Proof.
  apply (C10_recent_branch_unreachable (lib := toy_lib) _ 0 toy_table
           "date" "amount" 30 toy_table).
  - reflexivity.
  - vm_compute. reflexivity.
  - vm_compute. lia.
  - lia.
Defined.


(** ** Columns after an assignment, and sorting *)

Ltac rinv H :=
  lazymatch type of H with
  | catch (rbind ?r _) _ = _ =>
      destruct r eqn:?; cbn [rbind catch] in H; [|discriminate H]
  | catch (if ?b then _ else _) _ = _ =>
      destruct b eqn:?; cbn [rbind catch] in H
  end.

Section Cols.

Lemma column_zip_insert_eq c (rs : list row) (v : list cell) :
  length v = length rs ->
  map (at_col c) (zip_with (fun r x => <[c := x]> r) rs v) = v.
Proof.
  revert v. induction rs as [|r rs IH]; intros [|x v] H; cbn in *; try done.
  f_equal; [|apply IH; lia]. unfold at_col. by rewrite lookup_insert_eq.
Qed.

Lemma column_zip_insert_ne c c' (rs : list row) (v : list cell) :
  c' <> c -> length v = length rs ->
  map (at_col c') (zip_with (fun r x => <[c := x]> r) rs v) = map (at_col c') rs.
Proof.
  intros Hne. revert v. induction rs as [|r rs IH]; intros [|x v] H; cbn in *; try done.
  f_equal; [|apply IH; lia]. unfold at_col. by rewrite lookup_insert_ne.
Qed.

Lemma column_with_column_eq d c v d' :
  with_column d c v = Ok d' -> column d' c = v.
Proof.
  intros [Hl ->]%with_column_ok. unfold column. cbn.
  by apply column_zip_insert_eq.
Qed.

Lemma column_with_column_ne d c c' v d' :
  with_column d c v = Ok d' -> c' <> c -> column d' c' = column d c'.
Proof.
  intros [Hl ->]%with_column_ok Hne. unfold column. cbn.
  by apply column_zip_insert_ne.
Qed.

Lemma getitem_ok d c v : getitem d c = Ok v -> v = column d c.
Proof. unfold getitem. destruct (has_column d c); [|done]. by intros [= <-]. Qed.

Lemma insert_by_Permutation {A} (le : A -> A -> bool) x xs :
  insert_by le x xs ≡ₚ x :: xs.
Proof.
  induction xs as [|y ys IH]; cbn; [done|].
  destruct (le x y); [done|]. rewrite IH. apply Permutation_swap.
Qed.

Lemma sort_by_Permutation {A} (le : A -> A -> bool) xs : sort_by le xs ≡ₚ xs.
Proof.
  induction xs as [|x xs IH]; cbn; [done|].
  rewrite insert_by_Permutation. by rewrite IH.
Qed.

End Cols.

(** ** Moving averages *)

Section Rolling.

Lemma numeric_values_Num (ys : list R) :
  numeric_values (map Num ys) = Ok (map Some ys).
Proof.
  unfold numeric_values. induction ys as [|y ys IH]; cbn; [done|]. by rewrite IH.
Qed.

Lemma present_Some (ys : list R) : present (map Some ys) = ys.
Proof.
  unfold present. induction ys as [|y ys IH]; cbn; [done|]. by rewrite IH.
Qed.

Lemma nanmean_Some (ys : list R) :
  ys <> [] -> nanmean (map Some ys) = Some (Rmean ys).
Proof.
  intros H. unfold nanmean. fold (present (map Some ys)). rewrite present_Some.
  by destruct ys.
Qed.

Lemma last_map_seq {A} (f : nat -> A) n :
  last (map f (seq 0 (S n))) = Some (f n).
Proof.
  rewrite seq_S, map_app. cbn. by rewrite last_snoc.
Qed.

Lemma rolling_mean_last (w : nat) (ys : list R) :
  0 < w -> ys <> [] ->
  last (rolling_mean w (map Some ys))
  = Some (Some (Rmean (trailing (Nat.min w (length ys)) ys))).
Proof.
  intros Hw Hys. unfold rolling_mean. rewrite length_map.
  destruct (length ys) as [|n] eqn:Hn; [by destruct ys|].
  rewrite last_map_seq.
  rewrite firstn_all2 by (rewrite length_map; lia).
  rewrite skipn_map, nanmean_Some.
  - unfold trailing. rewrite Hn. by replace (S n - Nat.min w (S n)) with (S n - w) by lia.
  - intros E. apply (f_equal length) in E. rewrite length_drop in E. cbn in E. lia.
Qed.

Lemma trailing_tail_list {A} (k : nat) (xs : list A) :
  trailing (Nat.min k (length xs)) xs = tail_list (Z.of_nat k) xs.
Proof.
  unfold trailing, tail_list.
  destruct (0 <=? Z.of_nat k)%Z eqn:E; [|apply Z.leb_gt in E; lia].
  rewrite Nat2Z.id.
  by replace (length xs - Nat.min k (length xs)) with (length xs - k) by lia.
Qed.

End Rolling.

Lemma polyfit1_total xs ys :
  xs <> [] -> length xs = length ys -> exists fit, polyfit1 xs ys = Ok fit.
Proof.
  intros Hx Hl. unfold polyfit1. destruct xs; [done|].
  rewrite bool_decide_eq_true_2 by done.
  destruct (bool_decide _); eauto.
Qed.

Section C7.
Context {lib : Library}.

Lemma numeric_values_inv (v : list cell) (ys : list (option R)) :
  numeric_values v = Ok ys -> Forall (fun c => is_null c = false) v ->
  exists zs, v = map Num zs /\ ys = map Some zs.
Proof.
  unfold numeric_values. revert ys.
  induction v as [|c v IH]; intros ys H Hnn; cbn in H.
  - injection H as <-. by exists [].
  - apply Forall_cons in Hnn as [Hc Hv].
    destruct c as [|x|s|t]; cbn in H; try done.
    destruct (rmapM _ v) as [ys'|] eqn:E; cbn in H; [|done].
    injection H as <-. destruct (IH ys' eq_refl Hv) as (zs & -> & ->).
    by exists (x :: zs).
Qed.

(** After dropping and sorting, no value of the value column is missing. *)
Lemma sorted_values_present d1 d2 d3 dc vc :
  dropna d1 [dc; vc] = Ok d2 -> sort_values d2 dc = Ok d3 ->
  Forall (fun c => is_null c = false) (column d3 vc).
Proof.
  intros ->%dropna_ok ->%sort_values_ok. unfold column. cbn.
  rewrite Forall_map. rewrite sort_by_Permutation.
  apply Forall_forall. intros r Hr.
  apply list_elem_of_In, filter_In in Hr as [_ Hr]. cbn in Hr.
  destruct (is_null (at_col vc r)); [|done].
  destruct (is_null (at_col dc r)); done.
Qed.

Lemma last_map {A B} (f : A -> B) (l : list A) :
  last (map f l) = option_map f (last l).
Proof.
  induction l as [|x [|y l] IH]; [done..|]. exact IH.
Qed.

Lemma moving_average_read w (ys : list R) :
  0 < w -> ys <> [] ->
  rbind (iloc_last (map float_cell (rolling_mean w (map Some ys)))) to_float
  = Ok (Fin (Rmean (trailing (Nat.min w (length ys)) ys))).
Proof.
  intros Hw Hys. unfold iloc_last.
  rewrite last_map, rolling_mean_last by done. reflexivity.
Qed.

(** C7. A successful [detect_trends] reports as 7-day and 30-day moving
    averages the means of the last [min(7, n)] and [min(30, n)] values of
    the date-sorted series of the [n >= 2] valid rows, on every value
    column but one: a value column that is itself named MA_7 is
    overwritten by line 38 before line 39 reads it, and the 30-day figure
    is then wrong (see [ma7_table_run]). *)
Theorem C7_moving_averages s df dc vc wd :
  vc <> "MA_7" -> moving_averages_claim lib s df dc vc wd.
Proof.
  intros Hvc d r Hd. rewrite (detect_trends_value_eq _ _ d) by done.
  unfold detect_trends_value, valid_rows. intros H.
  do 3 rinv H. rinv H; [done|]. do 13 rinv H. rinv H; [|done].
  do 15 rinv H. injection H as <-.
  cbn [moving_average_7_day moving_average_30_day].
  repeat match goal with
         | H : getitem _ _ = Ok _ |- _ => apply getitem_ok in H
         end.
  (* the value column as read for the two averages *)
  assert (column a5 vc = column a2 vc) as E5
    by (eapply column_with_column_ne; eauto).
  assert (a26 = a4) as ->.
  { subst a26.
    rewrite (column_with_column_ne _ _ _ _ _ Heqr15) by done.
    rewrite (column_with_column_ne _ _ _ _ _ Heqr12) by done.
    rewrite (column_with_column_ne _ _ _ _ _ Heqr9) by done.
    by eapply column_with_column_eq. }
  assert (a28 = a7) as ->.
  { subst a28.
    rewrite (column_with_column_ne _ _ _ _ _ Heqr15) by done.
    rewrite (column_with_column_ne _ _ _ _ _ Heqr12) by done.
    by eapply column_with_column_eq. }
  subst a6. rewrite E5 in Heqr8. subst a3.
  unfold rolling_mean_column in Heqr5, Heqr8.
  destruct (numeric_values (column a2 vc)) as [ys'|] eqn:Hnum; [|done].
  cbn [rbind] in *.
  destruct (numeric_values_inv _ _ Hnum) as (ys & Hys & ->).
  { eapply sorted_values_present; eauto. }
  injection Heqr5 as <-. injection Heqr8 as <-.
  assert (length ys = len a1) as Hlen.
  { apply sort_values_len in Heqr3. rewrite <- Heqr3.
    unfold len. rewrite <- (length_map (at_col vc)). fold (column a2 vc).
    by rewrite Hys, length_map. }
  apply Nat.ltb_ge in Heqb.
  assert (ys <> []) as Hne by (intros ->; cbn in Hlen; lia).
  rewrite moving_average_read in Heqr28, Heqr30 by (done || lia).
  injection Heqr28 as <-. injection Heqr30 as <-.
  exists a1, a2, ys. split; [by rewrite Heqr1|].
  repeat split; try done. lia.
Qed.
End C7.


Lemma toy_table_run :
  exists r,
    fst (detect_trends toy_lib 0 "date" "amount" 30 (init toy_lib [toy_table] 0))
    = Success r.
Proof.
  rewrite (detect_trends_value_eq _ _ toy_table) by reflexivity.
  vm_compute.
  match goal with
  | |- context [match ?b with left _ => _ | right _ => _ end] => destruct b
  end; eexists; reflexivity.
Qed.

Lemma C7_witness :
  exists r,
    fst (detect_trends toy_lib 0 "date" "amount" 30 (init toy_lib [toy_table] 0))
    = Success r /\
    moving_average_7_day r = Fin 2 /\ moving_average_30_day r = Fin 2.
Proof.
  destruct toy_table_run as [r Hr]. exists r. split; [exact Hr|].
  destruct (C7_moving_averages (lib := toy_lib) (init toy_lib [toy_table] 0)
              0 "date" "amount" 30 ltac:(discriminate) toy_table r eq_refl Hr)
    as (d2 & d3 & ys & Hv & Hs & Hc & _ & -> & ->).
  vm_compute in Hv. injection Hv as <-.
  vm_compute in Hs. injection Hs as <-.
  vm_compute in Hc.
  destruct ys as [|y0 [|y1 [|y2 ys]]]; try discriminate Hc.
  injection Hc as <- <-.
  split; f_equal; vm_compute; lra.
Defined.

Lemma ma7_table_run :
  exists r,
    fst (detect_trends toy_lib 0 "date" "MA_7" 30 (init toy_lib [ma7_table] 0))
    = Success r /\
    moving_average_30_day r = Fin (1 / 2).
Proof.
  rewrite (detect_trends_value_eq _ _ ma7_table) by reflexivity.
  vm_compute.
  match goal with
  | |- context [match ?b with left _ => _ | right _ => _ end] => destruct b
  end.
  all: eexists; (split; [reflexivity|]); cbn [moving_average_30_day]; f_equal; lra.
Qed.

(** The slip of lines 38 and 39 on [ma7_table]: line 38 overwrites the
    value column with its 7-row average before line 39 averages it again,
    so the reported 30-day average is 1/2 while the last two values, 0 and
    2, have mean 1. *)
Lemma C7_counterexample :
  ~ moving_averages_claim toy_lib (init toy_lib [ma7_table] 0) 0 "date" "MA_7" 30.
Proof.
  intros H. destruct ma7_table_run as (r & Hr & H30).
  destruct (H ma7_table r eq_refl Hr) as (d2 & d3 & ys & Hv & Hs & Hc & _ & _ & H30').
  vm_compute in Hv. injection Hv as <-.
  vm_compute in Hs. injection Hs as <-.
  vm_compute in Hc.
  destruct ys as [|y0 [|y1 [|y2 ys]]]; try discriminate Hc.
  injection Hc as <- <-.
  rewrite H30 in H30'. injection H30' as E.
  vm_compute in E. lra.
Qed.


(** ** The least-squares line *)

Section LeastSquares.
Local Open Scope R_scope.

Lemma sum_sq_dev_expand (m : R) (xs : list R) :
  Rsum (map (fun x => (x - m) * (x - m)) xs)
  = Sxy xs xs - 2 * m * Rsum xs + INR (length xs) * (m * m).
Proof.
  unfold Sxy. induction xs as [|x xs IH]; [cbn; lra|].
  cbn [map Rsum zip_with length]. rewrite IH, S_INR. lra.
Qed.

Lemma sum_co_dev_expand (m k : R) (xs ys : list R) :
  length xs = length ys ->
  Rsum (zip_with (fun x y => (x - m) * (y - k)) xs ys)
  = Sxy xs ys - k * Rsum xs - m * Rsum ys + INR (length xs) * (m * k).
Proof.
  unfold Sxy. revert ys.
  induction xs as [|x xs IH]; intros [|y ys] Hl; try done; [cbn; lra|].
  cbn [Rsum zip_with length]. rewrite IH, S_INR by (cbn in Hl; lia). lra.
Qed.

Lemma sse_expand (a b : R) (xs ys : list R) :
  length xs = length ys ->
  sse a b xs ys
  = Sxy ys ys - 2 * a * Sxy xs ys - 2 * b * Rsum ys
    + a * a * Sxy xs xs + 2 * a * b * Rsum xs + INR (length xs) * (b * b).
Proof.
  unfold sse, residuals, Sxy. revert ys.
  induction xs as [|x xs IH]; intros [|y ys] Hl; try done; [cbn; lra|].
  cbn [Rsum zip_with map length]. rewrite IH, S_INR by (cbn in Hl; lia). lra.
Qed.

Lemma sum_sq_dev_nonneg (xs : list R) : 0 <= sum_sq_dev xs.
Proof.
  unfold sum_sq_dev. generalize (Rmean xs). intros m.
  induction xs as [|x xs IH]; cbn [map Rsum]; [lra|].
  pose proof (Rle_0_sqr (x - m)) as H. unfold Rsqr in H. lra.
Qed.

(** The line of [polyfit1] minimises the sum of squared residuals. *)
Lemma polyfit1_least_squares xs ys a b :
  length xs = length ys -> sum_sq_dev xs <> 0 ->
  polyfit1 xs ys = Ok (a, b) -> least_squares xs ys a b.
Proof.
  intros Hl HD. unfold polyfit1. destruct xs as [|x0 xs0] eqn:Exs; [done|].
  rewrite <- Exs in *. rewrite bool_decide_eq_true_2 by done.
  rewrite bool_decide_eq_false_2 by done.
  intros [= <- <-] a' b'.
  pose proof (sum_sq_dev_nonneg xs) as HD0.
  assert (0 < INR (length xs)) as Hn by (subst xs; cbn [length]; apply lt_0_INR; lia).
  set (a := sum_co_dev xs ys / sum_sq_dev xs).
  set (b := Rmean ys - a * Rmean xs).
  assert (sse a' b' xs ys - sse a b xs ys
          = sum_sq_dev xs * ((a' - a) * (a' - a))
            + INR (length xs)
              * (((b' - b) + (a' - a) * Rmean xs) * ((b' - b) + (a' - a) * Rmean xs)))
    as E.
  { rewrite !sse_expand by done. subst a b.
    unfold sum_co_dev, sum_sq_dev in *.
    rewrite sum_co_dev_expand in * by done.
    rewrite sum_sq_dev_expand in *. unfold Rmean in *. rewrite <- Hl.
    set (n := INR (length xs)) in *. set (sx := Rsum xs) in *.
    set (sy := Rsum ys) in *. set (sxx := Sxy xs xs) in *.
    set (sxy := Sxy xs ys) in *. set (syy := Sxy ys ys).
    field. split; [lra|]. intros E0. apply HD.
    replace (sxx - 2 * (sx / n) * sx + n * (sx / n * (sx / n)))
      with ((sxx * n - 2 * sx * sx + sx * sx) / n) by (field; lra).
    rewrite E0. field. lra. }
  assert (forall t, 0 <= t * t) as Hsq by (intros; nra).
  assert (0 <= sum_sq_dev xs * ((a' - a) * (a' - a)))
    by (apply Rmult_le_pos; [exact HD0 | apply Hsq]).
  assert (0 <= INR (length xs)
               * (((b' - b) + (a' - a) * Rmean xs) * ((b' - b) + (a' - a) * Rmean xs)))
    by (apply Rmult_le_pos; [lra | apply Hsq]).
  lra.
Qed.

End LeastSquares.

Section MoreFrames.

Lemma getitem_has d c : has_column d c = true -> getitem d c = Ok (column d c).
Proof. unfold getitem. by intros ->. Qed.

Lemma getitem_has_column d c v : getitem d c = Ok v -> has_column d c = true.
Proof. unfold getitem. by destruct (has_column d c). Qed.

Lemma has_column_with_column d c v d' c' :
  with_column d c v = Ok d' -> has_column d c' = true -> has_column d' c' = true.
Proof.
  intros [_ ->]%with_column_ok. unfold has_column. cbn.
  rewrite !bool_decide_eq_true. intros H.
  destruct (bool_decide (c ∈ columns d)); [done|].
  apply elem_of_app. by left.
Qed.

Lemma with_column_total d c v :
  length v = len d -> exists d', with_column d c v = Ok d'.
Proof. intros H. unfold with_column. rewrite bool_decide_eq_true_2 by done. eauto. Qed.

Lemma dropna_has_column d cs d' c :
  dropna d cs = Ok d' -> c ∈ cs -> has_column d c = true.
Proof.
  unfold dropna. destruct (List.filter _ cs) as [|c0 l] eqn:E; [|done].
  intros _ Hc. destruct (has_column d c) eqn:Hh; [done|].
  assert (In c (List.filter (fun c => negb (has_column d c)) cs)) as Hin.
  { apply filter_In. split; [by apply list_elem_of_In|]. by rewrite Hh. }
  rewrite E in Hin. done.
Qed.

Lemma dropna_columns d cs d' : dropna d cs = Ok d' -> columns d' = columns d.
Proof. by intros ->%dropna_ok. Qed.

Lemma sort_values_total d c :
  has_column d c = true -> exists d', sort_values d c = Ok d'.
Proof. unfold sort_values. intros ->. eauto. Qed.

Lemma sort_values_columns d c d' : sort_values d c = Ok d' -> columns d' = columns d.
Proof. by intros ->%sort_values_ok. Qed.

Lemma has_column_columns d d' c :
  columns d' = columns d -> has_column d' c = has_column d c.
Proof. unfold has_column. by intros ->. Qed.

Lemma length_rolling_mean w xs : length (rolling_mean w xs) = length xs.
Proof. unfold rolling_mean. by rewrite length_map, length_seq. Qed.

Lemma finite_values_Num (ys : list R) : finite_values (map Num ys) = Ok ys.
Proof.
  unfold finite_values. induction ys as [|y ys IH]; cbn; [done|]. by rewrite IH.
Qed.

Lemma tail_list_map {A B} (f : A -> B) n (xs : list A) :
  tail_list n (map f xs) = map f (tail_list n xs).
Proof.
  unfold tail_list. rewrite length_map. destruct (0 <=? n)%Z; by rewrite skipn_map.
Qed.

Lemma length_column d c : length (column d c) = len d.
Proof. unfold column. by rewrite length_map. Qed.

End MoreFrames.

Section Arange.
Local Open Scope R_scope.

Lemma sum_sq_zero (m : R) (xs : list R) :
  Rsum (map (fun x => (x - m) * (x - m)) xs) = 0 -> Forall (fun x => x = m) xs.
Proof.
  induction xs as [|x xs IH]; cbn [map Rsum]; intros H; [constructor|].
  assert (0 <= Rsum (map (fun x => (x - m) * (x - m)) xs)) as Hrest.
  { clear. induction xs as [|y ys IH]; cbn [map Rsum]; [lra|].
    pose proof (Rle_0_sqr (y - m)) as Hy. unfold Rsqr in Hy. lra. }
  pose proof (Rle_0_sqr (x - m)) as Hx. unfold Rsqr in Hx.
  constructor.
  - assert ((x - m) * (x - m) = 0) as E by lra.
    apply Rmult_integral in E. lra.
  - apply IH. lra.
Qed.

Lemma sum_sq_dev_arange (n : nat) : (2 <= n)%nat -> sum_sq_dev (arange n) <> 0.
Proof.
  intros Hn E. apply sum_sq_zero in E.
  destruct n as [|[|k]]; [lia..|].
  unfold arange in E. cbn [seq map] in E.
  apply Forall_cons in E as [E0 E]. apply Forall_cons in E as [E1 _].
  cbn in E0, E1. lra.
Qed.

Lemma length_arange n : length (arange n) = n.
Proof. unfold arange. by rewrite length_map, length_seq. Qed.

End Arange.

Section C4.
Context {lib : Library}.

Lemma forecast_rows_spec ci (a b : R) (n : nat) (k : nat) :
  Forall
    (fun p =>
       forecast p = (a * INR (n + (period p - 1)) + b)%R /\
       lower_bound p = (forecast p - ci)%R /\
       upper_bound p = (forecast p + ci)%R)
    (forecast_rows ci (map (fun xi => a * xi + b)%R (map INR (seq n k)))).
Proof.
  unfold forecast_rows. apply Forall_forall. intros p Hp.
  apply list_elem_of_lookup in Hp as [i Hp].
  rewrite list_lookup_imap in Hp.
  destruct (_ !! i) as [v|] eqn:Hv; [|done]. cbn in Hp. injection Hp as <-.
  cbn [forecast lower_bound upper_bound period].
  rewrite !list_lookup_fmap in Hv.
  destruct (seq n k !! i) as [j|] eqn:Hj; [|done].
  apply lookup_seq in Hj as [-> _]. cbn in Hv. injection Hv as <-.
  repeat split. by replace (n + (i + 1 - 1)) with (n + i) by lia.
Qed.

Lemma length_forecast_rows ci vs : length (forecast_rows ci vs) = length vs.
Proof. unfold forecast_rows. apply length_imap. Qed.

Lemma numeric_after_dates d dc vc dates d1 :
  dc <> vc -> numeric_column d vc = true ->
  with_column d dc dates = Ok d1 ->
  Forall (fun r => is_number (at_col vc r) = true) (rows d1).
Proof.
  intros Hne Hnum H1. pose proof (column_with_column_ne _ _ vc _ _ H1) as E.
  unfold numeric_column in Hnum. rewrite <- E in Hnum by done.
  unfold column in Hnum. rewrite forallb_forall in Hnum.
  apply Forall_forall. intros r Hr. apply Hnum, in_map. by apply list_elem_of_In.
Qed.

Lemma numbers_present (rs : list row) vc :
  Forall (fun r => is_number (at_col vc r) = true) rs ->
  Forall (fun r => is_null (at_col vc r) = false) rs ->
  exists ys, map (at_col vc) rs = map Num ys.
Proof.
  induction rs as [|r rs IH]; intros Hn Hp; [by exists []|].
  apply Forall_cons in Hn as [Hn1 Hn]. apply Forall_cons in Hp as [Hp1 Hp].
  destruct (IH Hn Hp) as [ys Hys].
  destruct (at_col vc r) as [|x|?|?] eqn:E; try done.
  exists (x :: ys). cbn. by rewrite E, Hys.
Qed.

(** The value column of the sorted valid rows of a numeric column. *)
Lemma sorted_values_numbers d dc vc d2 :
  dc <> vc -> numeric_column d vc = true ->
  valid_rows lib d dc vc = Ok d2 ->
  exists d3 ys,
    sort_values d2 dc = Ok d3 /\ column d3 vc = map Num ys /\
    length ys = len d2 /\ has_column d3 vc = true.
Proof.
  unfold valid_rows. intros Hne Hnum Hv.
  destruct (getitem d dc) as [dates|] eqn:H0; cbn [rbind] in Hv; [|done].
  destruct (with_column d dc _) as [d1|] eqn:H1; cbn [rbind] in Hv; [|done].
  pose proof (numeric_after_dates _ _ _ _ _ Hne Hnum H1) as Hn1.
  pose proof (dropna_has_column _ _ _ dc Hv ltac:(set_solver)) as Hdc.
  pose proof (dropna_has_column _ _ _ vc Hv ltac:(set_solver)) as Hvc.
  rewrite <- (has_column_columns d1 d2) in Hdc, Hvc by (by eapply dropna_columns).
  destruct (sort_values_total d2 dc Hdc) as [d3 H3].
  exists d3.
  assert (Forall (fun r => is_number (at_col vc r) = true) (rows d3)
          /\ Forall (fun r => is_null (at_col vc r) = false) (rows d3)) as [Hn3 Hp3].
  { pose proof (sorted_values_present _ _ _ _ _ Hv H3) as Hp.
    unfold column in Hp. rewrite Forall_map in Hp. split; [|exact Hp].
    rewrite (sort_values_ok _ _ _ H3). cbn. rewrite sort_by_Permutation.
    rewrite (dropna_ok _ _ _ Hv). cbn.
    apply Forall_forall. intros r Hr.
    apply list_elem_of_In, filter_In in Hr as [Hr _].
    rewrite Forall_forall in Hn1. by apply Hn1, list_elem_of_In. }
  destruct (numbers_present _ _ Hn3 Hp3) as [ys Hys].
  exists ys. split; [done|]. split; [exact Hys|]. split.
  - apply (f_equal length) in Hys. rewrite !length_map in Hys.
    rewrite <- Hys. fold (len d3). by eapply sort_values_len.
  - by rewrite (has_column_columns d2 d3) by (by eapply sort_values_columns).
Qed.


(** C4, amended. When the value column is numeric, is not the date
    column and is not named MA_7 or MA_14: with at least 10 valid rows
    [generate_forecast] succeeds, its slope and intercept are a
    least-squares line through the values of the last 14 date-sorted rows,
    there is one forecast point per period, each on that line, with lower
    and upper bound exactly 1.96 standard deviations of the residuals of
    that window below and above it; with fewer than 10 valid rows the
    answer is an error payload. *)
Theorem C4_forecast_band s df dc vc periods :
  dc <> vc -> vc <> "MA_7" -> vc <> "MA_14" ->
  (forall d, heap s !! df = Some d -> numeric_column d vc = true) ->
  forecast_claim lib s df dc vc periods.
Proof.
  intros Hne H7 H14 Hnum d d2 Hd Hv. specialize (Hnum d Hd).
  rewrite (generate_forecast_value_eq _ _ d) by done.
  destruct (sorted_values_numbers d dc vc d2 Hne Hnum Hv)
    as (d3 & ys & H3 & Hys & Hlen & Hvc3).
  unfold generate_forecast_value. unfold valid_rows in Hv.
  destruct (getitem d dc) as [dates|]; cbn [rbind] in *; [|done].
  destruct (with_column d dc _) as [d1|]; cbn [rbind] in *; [|done].
  rewrite Hv. cbn [rbind]. split.
  - intros H10. rewrite (proj2 (Nat.ltb_ge _ _) H10).
    rewrite H3. cbn [rbind].
    rewrite (getitem_has _ _ Hvc3), Hys. cbn [rbind].
    unfold rolling_mean_column. rewrite numeric_values_Num. cbn [rbind].
    destruct (with_column_total d3 "MA_7"
                (map float_cell (rolling_mean 7 (map Some ys)))) as [d4 H4].
    { rewrite length_map, length_rolling_mean, length_map.
      by rewrite <- (sort_values_len _ _ _ H3) in Hlen. }
    rewrite H4. cbn [rbind].
    pose proof (has_column_with_column _ _ _ _ vc H4 Hvc3) as Hvc4.
    rewrite (getitem_has _ _ Hvc4).
    rewrite (column_with_column_ne _ _ vc _ _ H4) by done.
    rewrite Hys. cbn [rbind]. rewrite numeric_values_Num. cbn [rbind].
    destruct (with_column_total d4 "MA_14"
                (map float_cell (rolling_mean 14 (map Some ys)))) as [d5 H5].
    { rewrite length_map, length_rolling_mean, length_map.
      rewrite (with_column_len _ _ _ _ H4).
      by rewrite <- (sort_values_len _ _ _ H3) in Hlen. }
    rewrite H5. cbn [rbind].
    pose proof (has_column_with_column _ _ _ _ vc H5 Hvc4) as Hvc5.
    rewrite (getitem_has _ _ Hvc5).
    rewrite (column_with_column_ne _ _ vc _ _ H5) by done.
    rewrite (column_with_column_ne _ _ vc _ _ H4) by done.
    rewrite Hys. cbn [rbind]. rewrite tail_list_map, length_map.
    assert (length (tail_list 14 ys) = Nat.min 14 (length ys)) as Hw
      by (by apply length_tail_list).
    remember (tail_list 14 ys) as w eqn:Ew.
    assert (2 <= length w) as Hw2 by lia.
    rewrite (proj2 (Nat.leb_le 2 (length w))) by lia.
    rewrite finite_values_Num. cbn [rbind].
    assert (sum_sq_dev (arange (length w)) <> 0%R) as HD
      by (apply sum_sq_dev_arange; lia).
    destruct (polyfit1 (arange (length w)) w) as [[a b]|] eqn:Hfit; cycle 1.
    { exfalso. destruct (polyfit1_total (arange (length w)) w) as [fit Hf].
      - intros E. apply (f_equal length) in E. rewrite length_arange in E.
        cbn in E. lia.
      - by rewrite length_arange.
      - congruence. }
    cbn [rbind fst snd].
    destruct (last w) as [y|] eqn:Hlast; cycle 1.
    { exfalso. apply last_None in Hlast. rewrite Hlast in Hw2. cbn in Hw2. lia. }
    cbn [rbind catch].
    eexists _, d3, w, b. split; [reflexivity|].
    cbn [trend_slope forecast_data].
    split; [done|]. split; [by rewrite Hys, Ew, tail_list_map|]. split.
    { eapply polyfit1_least_squares; [by rewrite length_arange|exact HD|exact Hfit]. }
    split.
    { unfold arange_from. by rewrite length_forecast_rows, !length_map, length_seq. }
    apply forecast_rows_spec.
  - intros H10. rewrite (proj2 (Nat.ltb_lt _ _) H10). cbn. eauto.
Qed.

End C4.

(** C4 as stated fails on [text_table]: its ten rows pass [dropna] and the
    size check, but the values are text, the rolling mean raises, and the
    answer is an error payload. *)
Lemma C4_counterexample :
  ~ forecast_claim toy_lib (init toy_lib [text_table] 0) 0 "date" "note" 30.
Proof.
  intros H.
  destruct (H text_table text_table eq_refl) as [H10 _];
    [vm_compute; reflexivity|].
  destruct H10 as (r & _ & _ & _ & Hr & _); [vm_compute; lia|].
  rewrite (generate_forecast_value_eq _ _ text_table) in Hr by reflexivity.
  vm_compute in Hr. discriminate Hr.
Qed.

Lemma ten_rows_numeric d :
  heap (init toy_lib [ten_rows] 0) !! 0 = Some d -> numeric_column d "amount" = true.
Proof. intros [= <-]. vm_compute. reflexivity. Qed.

Lemma C4_witness :
  exists r,
    fst (generate_forecast toy_lib 0 "date" "amount" 30 (init toy_lib [ten_rows] 0))
    = Success r /\
    length (forecast_data r) = 30.
Proof.
  destruct (valid_rows toy_lib ten_rows "date" "amount") as [d2|] eqn:Hv;
    [|vm_compute in Hv; discriminate Hv].
  destruct (C4_forecast_band (lib := toy_lib) (init toy_lib [ten_rows] 0)
              0 "date" "amount" 30 ltac:(discriminate) ltac:(discriminate)
              ltac:(discriminate) ten_rows_numeric ten_rows d2 eq_refl Hv)
    as [Hbig _].
  destruct Hbig as (r & d3 & w & b & Hr & _ & _ & _ & Hlen & _).
  { vm_compute in Hv. injection Hv as <-. vm_compute. lia. }
  exists r. split; [exact Hr|exact Hlen].
Defined.


(** ** Correlations *)

Section Pearson.
Local Open Scope R_scope.

Lemma complete_pairs_swap xs ys :
  complete_pairs ys xs = map (fun p => (snd p, fst p)) (complete_pairs xs ys).
Proof.
  unfold complete_pairs. revert ys.
  induction xs as [|x xs IH]; intros [|y ys]; cbn; try done.
  rewrite IH. by destruct x, y.
Qed.

Lemma complete_pairs_diag xs :
  complete_pairs xs xs = map (fun x => (x, x)) (numbers xs).
Proof.
  unfold complete_pairs, numbers.
  induction xs as [|x xs IH]; cbn; [done|]. rewrite IH. by destruct x.
Qed.

Lemma sum_co_dev_comm (a b : list R) : sum_co_dev a b = sum_co_dev b a.
Proof.
  unfold sum_co_dev. generalize (Rmean a) (Rmean b). intros m k. revert b.
  induction a as [|x a IH]; intros [|y b]; cbn; try done.
  rewrite IH. lra.
Qed.

Lemma sum_co_dev_diag (a : list R) : sum_co_dev a a = sum_sq_dev a.
Proof.
  unfold sum_co_dev, sum_sq_dev. generalize (Rmean a). intros m.
  induction a as [|x a IH]; cbn; [done|]. by rewrite IH.
Qed.

Lemma pearson_unfold xs ys : pearson xs ys = pearson_pairs (complete_pairs xs ys).
Proof. reflexivity. Qed.

Lemma pearson_pairs_swap ps :
  pearson_pairs (map (fun p => (snd p, fst p)) ps) = pearson_pairs ps.
Proof.
  destruct ps as [|p ps]; [done|].
  unfold pearson_pairs. cbn [map].
  change (?f (snd p, fst p) :: map ?f (map ?g ps)) with (map f (map g (p :: ps))).
  change (fst p :: map fst ps) with (map fst (p :: ps)).
  change (snd p :: map snd ps) with (map snd (p :: ps)).
  generalize (p :: ps). intros l. rewrite !map_map. cbn [fst snd].
  rewrite (Rmult_comm (sum_sq_dev (map snd l))).
  by rewrite (sum_co_dev_comm (map snd l)).
Qed.

Lemma pearson_sym xs ys : pearson xs ys = pearson ys xs.
Proof.
  rewrite !pearson_unfold, (complete_pairs_swap xs ys).
  by rewrite pearson_pairs_swap.
Qed.

Lemma pearson_pairs_diag (l : list R) :
  pearson_pairs (map (fun x => (x, x)) l)
  = if bool_decide (sum_sq_dev l = 0) then NaN else Fin 1.
Proof.
  destruct l as [|x l].
  { cbn. by rewrite bool_decide_eq_true_2 by (unfold sum_sq_dev; done). }
  unfold pearson_pairs. cbn [map].
  change (fst (x, x) :: map fst (map ?g l)) with (map fst (map g (x :: l))).
  change (snd (x, x) :: map snd (map ?g l)) with (map snd (map g (x :: l))).
  generalize (x :: l). clear x l. intros l.
  rewrite !map_map. cbn [fst snd]. rewrite map_id.
  rewrite sum_co_dev_diag.
  pose proof (sum_sq_dev_nonneg l) as Hnn.
  rewrite sqrt_square by done.
  case_bool_decide; [done|]. f_equal. by field.
Qed.

Lemma pearson_diag xs :
  pearson xs xs = if bool_decide (sum_sq_dev (numbers xs) = 0) then NaN else Fin 1.
Proof. by rewrite pearson_unfold, complete_pairs_diag, pearson_pairs_diag. Qed.

End Pearson.

Section Dict.

Lemma lookup_list_to_map_fn {V} (f : string -> V) (l : list string) k :
  (list_to_map (map (fun a => (a, f a)) l) : gmap string V) !! k
  = if bool_decide (k ∈ l) then Some (f k) else None.
Proof.
  induction l as [|a l IH]; cbn.
  - rewrite lookup_empty. rewrite bool_decide_eq_false_2; [done|].
    apply not_elem_of_nil.
  - destruct (decide (a = k)) as [->|Hne].
    + rewrite lookup_insert_eq. rewrite bool_decide_eq_true_2; [done|].
      apply elem_of_cons. by left.
    + rewrite lookup_insert_ne by done. rewrite IH.
      destruct (decide (k ∈ l)) as [Hin|Hin].
      * rewrite !bool_decide_eq_true_2; [done| |done].
        apply elem_of_cons. by right.
      * rewrite !bool_decide_eq_false_2; [done| |done].
        intros [->|Hk]%elem_of_cons; done.
Qed.

Lemma corr_to_dict_lookup nd a ra b v :
  corr_to_dict nd !! a = Some ra -> ra !! b = Some v ->
  a ∈ columns nd /\ b ∈ columns nd /\
  v = pearson (column nd a) (column nd b).
Proof.
  unfold corr_to_dict. rewrite lookup_list_to_map_fn.
  case_bool_decide as Ha; [|done]. intros [= <-].
  rewrite lookup_list_to_map_fn. case_bool_decide as Hb; [|done].
  by intros [= <-].
Qed.

Lemma corr_to_dict_entry nd a b :
  a ∈ columns nd -> b ∈ columns nd ->
  exists ra, corr_to_dict nd !! a = Some ra /\
             ra !! b = Some (pearson (column nd a) (column nd b)).
Proof.
  intros Ha Hb. unfold corr_to_dict. rewrite lookup_list_to_map_fn.
  rewrite bool_decide_eq_true_2 by done. eexists. split; [done|].
  rewrite lookup_list_to_map_fn. by rewrite bool_decide_eq_true_2.
Qed.

End Dict.

Section C3.
Context {lib : Library}.

Lemma float_gt_abs c :
  float_gt (float_abs c) (Fin 0.7) = true ->
  exists x, c = Fin x /\ (0.7 < Rabs x)%R.
Proof.
  destruct c as [x|]; cbn; [|done]. rewrite bool_decide_eq_true. eauto.
Qed.

Lemma nth_elem_of (l : list string) i : i < length l -> nth i l "" ∈ l.
Proof. intros H. apply list_elem_of_In, nth_In, H. Qed.

Lemma strong_pairs_spec nd :
  Forall
    (fun p =>
       (exists x, correlation p = Fin x /\ (0.7 < Rabs x)%R) /\
       variable1 p ∈ columns nd /\ variable2 p ∈ columns nd /\
       correlation p = pearson (column nd (variable1 p)) (column nd (variable2 p)))
    (strong_pairs nd).
Proof.
  apply Forall_forall. intros p Hp. unfold strong_pairs in Hp.
  apply list_elem_of_In, in_flat_map in Hp as (i & Hi & Hp).
  apply in_flat_map in Hp as (j & Hj & Hp).
  unfold range2 in Hi, Hj. apply in_seq in Hi, Hj.
  destruct (float_gt _ _) eqn:Hgt; [|done].
  destruct Hp as [<-|[]]. cbn [correlation variable1 variable2].
  split; [by apply float_gt_abs|].
  split; [apply nth_elem_of; lia|]. split; [apply nth_elem_of; lia|done].
Qed.

Lemma select_numeric_column d c : column (select_numeric d) c = column d c.
Proof. reflexivity. Qed.

Lemma getitems_column d cs d' c : getitems d cs = Ok d' -> column d' c = column d c.
Proof. intros H%getitems_rows. unfold column. by rewrite H. Qed.

(** The numeric frame a successful call worked on. *)
Lemma calculate_correlations_value_inv d cols r :
  calculate_correlations_value d cols = Success r ->
  exists nd,
    (forall c, column nd c = column d c) /\
    correlation_matrix r = corr_to_dict nd /\
    strong_correlations r = strong_pairs nd.
Proof.
  unfold calculate_correlations_value. intros H.
  destruct cols as [cs|].
  - destruct (getitems d cs) as [sel|] eqn:Hsel; cbn [rbind catch] in H; [|done].
    destruct (empty _); cbn in H; [done|]. injection H as <-.
    exists (select_numeric sel). split; [|done].
    intros c. by rewrite select_numeric_column, (getitems_column _ _ _ _ Hsel).
  - cbn [rbind catch] in H. destruct (empty _); cbn in H; [done|].
    injection H as <-. by exists (select_numeric d).
Qed.

Lemma corr_to_dict_symmetric nd : symmetric_matrix (corr_to_dict nd).
Proof.
  intros a b ra v Ha Hb.
  destruct (corr_to_dict_lookup _ _ _ _ _ Ha Hb) as (Hca & Hcb & ->).
  rewrite pearson_sym. by apply corr_to_dict_entry.
Qed.

Lemma strong_pairs_in_dict nd r :
  correlation_matrix r = corr_to_dict nd ->
  strong_correlations r = strong_pairs nd ->
  strong_pairs_sound r.
Proof.
  intros Hm Hs. unfold strong_pairs_sound. rewrite Hm, Hs.
  eapply Forall_impl; [apply strong_pairs_spec|].
  intros p (Hx & H1 & H2 & Hc). split; [exact Hx|].
  rewrite Hc. by apply corr_to_dict_entry.
Qed.

(** C3, amended. On success the correlation matrix is symmetric; its
    diagonal entry is 1 for a column whose numbers vary and NaN for a
    column whose numbers are all equal; every reported strong pair has
    [|r| > 0.7], and its value is the matrix entry of that pair. *)
Theorem C3_correlation_matrix s df cols :
  correlation_claim_amended lib s df cols.
Proof.
  intros d r Hd. rewrite (calculate_correlations_value_eq _ _ d) by done.
  intros (nd & Hcol & Hm & Hs)%calculate_correlations_value_inv.
  split; [rewrite Hm; apply corr_to_dict_symmetric|].
  split; [|by eapply strong_pairs_in_dict].
  intros a ra Ha. rewrite Hm in Ha.
  unfold corr_to_dict in Ha. rewrite lookup_list_to_map_fn in Ha.
  case_bool_decide as Hin; [|done]. injection Ha as <-.
  rewrite lookup_list_to_map_fn, bool_decide_eq_true_2 by done.
  rewrite pearson_diag, Hcol. unfold varies.
  split; intros Hv.
  - by rewrite bool_decide_eq_false_2.
  - rewrite bool_decide_eq_true_2; [done|].
    by destruct (decide (sum_sq_dev (numbers (column d a)) = 0%R)).
Qed.

End C3.

(** C3 as stated fails on [constant_table]: the price never changes, so
    its variance is 0 and pandas reports NaN, not 1, on the diagonal. *)
Lemma C3_counterexample :
  ~ correlation_claim toy_lib (init toy_lib [constant_table] 0) 0 None.
Proof.
  intros H.
  destruct (H constant_table
              (mkCorrelationResult
                 (corr_to_dict (select_numeric constant_table))
                 (strong_pairs (select_numeric constant_table))
                 2 2 (length (strong_pairs (select_numeric constant_table)))
                 (float_mean (upper_triangle (select_numeric constant_table))))
              eq_refl) as (_ & Hdiag & _).
  { rewrite (calculate_correlations_value_eq _ _ constant_table) by reflexivity.
    reflexivity. }
  cbn [correlation_matrix] in Hdiag.
  destruct (corr_to_dict_entry (select_numeric constant_table) "price" "price")
    as (ra & Ha & Hra); [vm_compute; set_solver..|].
  rewrite (Hdiag _ _ Ha) in Hra. rewrite pearson_diag in Hra.
  rewrite bool_decide_eq_true_2 in Hra; [done|].
  vm_compute. lra.
Qed.

(** ** Customer segments *)

Local Open Scope nat_scope.
Local Open Scope string_scope.
Local Open Scope list_scope.

Section Keys.

Lemma str_of_nat_inj i j : str_of_nat i = str_of_nat j -> i = j.
Proof.
  unfold str_of_nat. intros H.
  apply (f_equal NilEmpty.uint_of_string) in H. rewrite !NilEmpty.usu in H.
  injection H as H. apply (f_equal Nat.of_uint) in H.
  by rewrite !Unsigned.of_to in H.
Qed.

Lemma cluster_key_inj i j : cluster_key i = cluster_key j -> i = j.
Proof. unfold cluster_key. intros H. cbn in H. injection H as H. by apply str_of_nat_inj. Qed.

End Keys.

Section Counting.

Lemma nat_sum_app xs ys : nat_sum (xs ++ ys) = nat_sum xs + nat_sum ys.
Proof. induction xs as [|x xs IH]; cbn; lia. Qed.

Lemma count_one (n : nat) (l : Z) :
  (0 <= l < Z.of_nat n)%Z ->
  nat_sum (map (fun id => if bool_decide (l = Z.of_nat id) then 1 else 0) (seq 0 n)) = 1.
Proof.
  intros Hl. rewrite <- (Z2Nat.id l) by lia. set (k := Z.to_nat l).
  assert (k < n) as Hk by lia. clearbody k. clear Hl l.
  revert k Hk. induction n as [|n IH]; intros k Hk; [lia|].
  rewrite seq_S, map_app, nat_sum_app. cbn.
  destruct (decide (k = n)) as [->|Hne].
  - rewrite bool_decide_eq_true_2 by done.
    assert (nat_sum (map (fun id => if bool_decide (Z.of_nat n = Z.of_nat id) then 1 else 0)
                          (seq 0 n)) = 0) as ->; [|lia].
    clear. assert (forall m, m <= n ->
      nat_sum (map (fun id => if bool_decide (Z.of_nat n = Z.of_nat id) then 1 else 0)
                    (seq 0 m)) = 0) as H; [|by apply H].
    induction m as [|m IHm]; intros Hm; [done|].
    rewrite seq_S, map_app, nat_sum_app. cbn.
    rewrite bool_decide_eq_false_2 by lia. rewrite IHm by lia. lia.
  - rewrite bool_decide_eq_false_2 by lia. rewrite IH by lia. lia.
Qed.

(** Every label below [n] falls in exactly one of the [n] groups. *)
Lemma count_labels (n : nat) (labels : list Z) :
  Forall (fun l => (0 <= l < Z.of_nat n)%Z) labels ->
  nat_sum
    (map (fun id => length (List.filter (fun l => bool_decide (l = Z.of_nat id)) labels))
         (seq 0 n))
  = length labels.
Proof.
  induction labels as [|l ls IH]; intros H.
  - cbn. induction (seq 0 n); cbn; [done|]. done.
  - apply Forall_cons in H as [Hl Hls].
    assert (forall ids,
      nat_sum (map (fun id => length (List.filter (fun l => bool_decide (l = Z.of_nat id))
                                                  (l :: ls))) ids)
      = nat_sum (map (fun id => if bool_decide (l = Z.of_nat id) then 1 else 0) ids)
        + nat_sum (map (fun id => length (List.filter
                                            (fun l => bool_decide (l = Z.of_nat id)) ls))
                       ids)) as E.
    { induction ids as [|id ids IHids]; [done|].
      cbn [map nat_sum]. rewrite IHids. cbn [List.filter].
      destruct (bool_decide (l = Z.of_nat id)); cbn [length]; lia. }
    rewrite E, (count_one n l Hl), (IH Hls). done.
Qed.

End Counting.

Section Clusters.
Context {lib : Library}.

Lemma label_cell_eq (l : Z) (id : nat) :
  bool_decide (Num (IZR l) = Num (INR id)) = bool_decide (l = Z.of_nat id).
Proof.
  apply bool_decide_ext. rewrite INR_IZR_INZ. split.
  - intros [= H]. by apply eq_IZR.
  - by intros ->.
Qed.

Lemma at_col_insert c x (r : row) : at_col c (<[c := x]> r) = x.
Proof. unfold at_col. by rewrite lookup_insert_eq. Qed.

Lemma cluster_rows_len d labels dw id :
  with_column d "cluster" (map (fun l => Num (IZR l)) labels) = Ok dw ->
  len (cluster_rows dw id)
  = length (List.filter (fun l => bool_decide (l = Z.of_nat id)) labels).
Proof.
  intros [Hl ->]%with_column_ok. rewrite length_map in Hl.
  unfold len in *. unfold cluster_rows. cbn [rows].
  revert labels Hl. induction (rows d) as [|r rs IH]; intros [|l ls] Hl;
    cbn in Hl; try done.
  cbn [map zip_with List.filter]. rewrite at_col_insert, label_cell_eq.
  destruct (bool_decide (l = Z.of_nat id)); cbn [length]; rewrite IH; lia.
Qed.

Lemma analyse_clusters_spec dw total fs ids acc ca :
  analyse_clusters lib dw total fs ids acc = Ok ca -> NoDup ids ->
  (forall id, id ∈ ids ->
     exists ci, analyse_cluster lib dw total fs id = Ok ci /\
                ca !! cluster_key id = Some ci) /\
  (forall k, (forall id, id ∈ ids -> k <> cluster_key id) -> ca !! k = acc !! k).
Proof.
  revert acc. induction ids as [|id ids IH]; intros acc H Hnd.
  - cbn in H. injection H as <-. split; [|done]. intros id Hid. by apply elem_of_nil in Hid.
  - cbn [analyse_clusters] in H.
    destruct (analyse_cluster lib dw total fs id) as [ci|] eqn:Hci; cbn [rbind] in H; [|done].
    apply NoDup_cons in Hnd as [Hid Hnd].
    destruct (IH _ H Hnd) as [IH1 IH2]. split.
    + intros id' [->|Hin]%elem_of_cons.
      * exists ci. split; [done|]. rewrite IH2.
        -- apply lookup_insert_eq.
        -- intros id' Hid' E%cluster_key_inj. by subst.
      * by apply IH1.
    + intros k Hk. rewrite IH2.
      * rewrite lookup_insert_ne; [done|]. intros E. eapply Hk; [|done]. apply elem_of_cons. by left.
      * intros id' Hid'. apply Hk, elem_of_cons. by right.
Qed.

Lemma analyse_clusters_size dw total fs ids acc ca :
  analyse_clusters lib dw total fs ids acc = Ok ca -> NoDup ids ->
  (forall id, id ∈ ids -> acc !! cluster_key id = None) ->
  size ca = size acc + length ids.
Proof.
  revert acc. induction ids as [|id ids IH]; intros acc H Hnd Hfresh.
  - cbn in H. injection H as <-. cbn. lia.
  - cbn [analyse_clusters] in H.
    destruct (analyse_cluster lib dw total fs id) as [ci|] eqn:Hci; cbn [rbind] in H; [|done].
    apply NoDup_cons in Hnd as [Hid Hnd].
    rewrite (IH _ H Hnd).
    + rewrite map_size_insert_None; [cbn; lia|]. apply Hfresh, elem_of_cons. by left.
    + intros id' Hid'. rewrite lookup_insert_ne.
      * apply Hfresh, elem_of_cons. by right.
      * intros E%cluster_key_inj. by subst.
Qed.

Lemma analyse_cluster_size dw total fs id ci :
  analyse_cluster lib dw total fs id = Ok ci -> ci_size ci = len (cluster_rows dw id).
Proof.
  unfold analyse_cluster. destruct (py_div _ _); cbn [rbind]; [|done].
  by intros [= <-].
Qed.

Lemma describe_cluster_spec ca fs id det :
  describe_cluster lib ca fs id = Ok det ->
  exists ci, ca !! cluster_key id = Some ci /\
             cd_size det = ci_size ci /\
             cd_type det = _determine_cluster_type ci fs.
Proof.
  unfold describe_cluster. destruct (ca !! cluster_key id) as [ci|]; [|done].
  intros [= <-]. by exists ci.
Qed.

Lemma rmapM_length {A B} (f : A -> result B) xs ys :
  rmapM f xs = Ok ys -> length ys = length xs.
Proof.
  revert ys. induction xs as [|x xs IH]; intros ys H; cbn in H.
  - by injection H as <-.
  - destruct (f x); cbn [rbind] in H; [|done].
    destruct (rmapM f xs) eqn:E; cbn [rbind] in H; [|done].
    injection H as <-. cbn. f_equal. by apply IH.
Qed.

Lemma rmapM_Forall2 {A B} (f : A -> result B) xs ys :
  rmapM f xs = Ok ys -> Forall2 (fun x y => f x = Ok y) xs ys.
Proof.
  revert ys. induction xs as [|x xs IH]; intros ys H; cbn in H.
  - injection H as <-. constructor.
  - destruct (f x) eqn:Ex; cbn [rbind] in H; [|done].
    destruct (rmapM f xs) eqn:E; cbn [rbind] in H; [|done].
    injection H as <-. constructor; [done|]. by apply IH.
Qed.

Lemma details_sizes dw total fs ids ca details :
  analyse_clusters lib dw total fs ids ∅ = Ok ca -> NoDup ids ->
  rmapM (describe_cluster lib ca fs) ids = Ok details ->
  map cd_size details = map (fun id => len (cluster_rows dw id)) ids.
Proof.
  intros Ha Hnd Hd. destruct (analyse_clusters_spec _ _ _ _ _ _ Ha Hnd) as [Hca _].
  apply rmapM_Forall2 in Hd. clear Ha Hnd.
  induction Hd as [|id det ids details Hdet _ IH]; [done|].
  cbn [map]. f_equal.
  - destruct (describe_cluster_spec _ _ _ _ Hdet) as (ci & Hci & -> & _).
    destruct (Hca id) as (ci' & Hci' & Hlook); [apply elem_of_cons; by left|].
    rewrite Hlook in Hci. injection Hci as <-. by eapply analyse_cluster_size.
  - apply IH. intros id' Hid'. apply Hca, elem_of_cons. by right.
Qed.

End Clusters.

Section C6.
Context {lib : Library}.

Lemma segment_customers_value_inv d fs n r :
  segment_customers_value lib d fs n = Success r ->
  exists X fit dw,
    kmeans_fit lib n 42 X = Ok fit /\
    with_column d "cluster" (map (fun l => Num (IZR l)) (labels_ fit)) = Ok dw /\
    analyse_clusters lib dw (len d) fs (range n) ∅ = Ok (cluster_analysis r) /\
    rmapM (describe_cluster lib (cluster_analysis r) fs) (range n)
      = Ok (cluster_details r) /\
    business_insights_of lib (cluster_details r) = Ok (business_insights r) /\
    total_customers r = len d.
Proof.
  unfold segment_customers_value. intros H.
  rinv H. rinv H; [done|]. do 7 rinv H. injection H as <-.
  cbn. eauto 10.
Qed.

Lemma NoDup_range n : NoDup (range n).
Proof. apply NoDup_seq. Qed.

Lemma length_range n : length (range n) = Z.to_nat n.
Proof. apply length_seq. Qed.

(** The entries of a successful call: one per cluster id, each with the
    number of rows that carry its label. *)
Lemma segment_customers_sizes s df d features n r :
  kmeans_contract lib -> reachable s -> heap s !! df = Some d ->
  fst (segment_customers lib df features n s) = Success r ->
  Z.of_nat (length (cluster_details r)) = n /\
  Z.of_nat (size (cluster_analysis r)) = n /\
  nat_sum (map cd_size (cluster_details r)) = len d /\
  total_customers r = len d.
Proof.
  intros Hk Hr Hd. rewrite (segment_customers_value_eq _ _ d) by done.
  intros (X & fit & dw & Hfit & Hdw & Hca & Hdet & _ & Ht)%segment_customers_value_inv.
  destruct (Hk _ _ _ _ Hfit) as [Hn Hlab].
  pose proof (rmapM_length _ _ _ Hdet) as Hl. rewrite length_range in Hl.
  split; [lia|]. split; [|split; [|done]].
  - rewrite (analyse_clusters_size _ _ _ _ _ _ Hca (NoDup_range n)).
    + rewrite map_size_empty, length_range. lia.
    + intros. apply lookup_empty.
  - rewrite (details_sizes _ _ _ _ _ _ Hca (NoDup_range n) Hdet).
    rewrite (map_ext _ (fun id => length (List.filter (fun l => bool_decide (l = Z.of_nat id))
                                                      (labels_ fit)))).
    + unfold range. rewrite count_labels.
      * apply with_column_ok in Hdw as [Hlen _]. by rewrite length_map in Hlen.
      * eapply Forall_impl; [exact Hlab|]. intros l ?. cbn in *. lia.
    + intros id. by eapply cluster_rows_len.
Qed.

(** With two clusters or more the list comprehension of line 213 applies
    [any] to a boolean: the call never succeeds. *)
Lemma business_insights_two c1 c2 cs :
  business_insights_of lib (c1 :: c2 :: cs) = Raise "'bool' object is not iterable".
Proof. reflexivity. Qed.

Lemma segment_customers_two_clusters s df d features n r :
  reachable s -> heap s !! df = Some d -> (2 <= n)%Z ->
  fst (segment_customers lib df features n s) <> Success r.
Proof.
  intros Hr Hd Hn. rewrite (segment_customers_value_eq _ _ d) by done.
  intros (X & fit & dw & _ & _ & _ & Hdet & Hbi & _)%segment_customers_value_inv.
  apply rmapM_length in Hdet. rewrite length_range in Hdet.
  destruct (cluster_details r) as [|c1 [|c2 cs]]; cbn in Hdet; try lia.
  by rewrite business_insights_two in Hbi.
Qed.

(** C6. The cluster entries the claim speaks of are returned for one
    cluster only.  A call that succeeds has [n_clusters = 1] and reports one
    entry, whose size is the number of rows; with two clusters or more, the
    default four among them, the entries are built and then lost: line 213
    raises, and the call answers an error. *)
Theorem C6_entries_for_one_cluster_only s df d features n :
  kmeans_contract lib -> reachable s -> heap s !! df = Some d ->
  (forall r,
     fst (segment_customers lib df features n s) = Success r ->
     n = 1%Z /\ length (cluster_details r) = 1 /\
     size (cluster_analysis r) = 1 /\
     nat_sum (map cd_size (cluster_details r)) = len d) /\
  ((2 <= n)%Z ->
   exists reason, fst (segment_customers lib df features n s) = Error reason).
Proof.
  intros Hk Hr Hd. split.
  - intros r Hs.
    destruct (segment_customers_sizes s df d features n r Hk Hr Hd Hs)
      as (H1 & H2 & H3 & _).
    assert (1 <= n)%Z as Hn1.
    { pose proof Hs as Hv.
      rewrite (segment_customers_value_eq _ _ d) in Hv by done.
      apply segment_customers_value_inv in Hv as (X & fit & dw & Hfit & _).
      by destruct (Hk _ _ _ _ Hfit). }
    assert (n = 1%Z) as ->.
    { destruct (Z_lt_le_dec n 2) as [Hlt|Hge]; [lia|].
      by destruct (segment_customers_two_clusters s df d features n r). }
    split; [done|]. split; [lia|]. split; [lia|done].
  - intros Hn.
    destruct (fst (segment_customers lib df features n s)) as [r|reason] eqn:E;
      [|by eexists].
    by destruct (segment_customers_two_clusters s df d features n r Hr Hd Hn).
Qed.

End C6.

Section C2.
Context {lib : Library}.

Lemma filter_none {A} (p : A -> bool) (l : list A) :
  Forall (fun x => p x = false) l -> List.filter p l = [].
Proof.
  induction 1 as [|x l Hx _ IH]; [done|]. cbn. by rewrite Hx.
Qed.

(** What the code does on the default branch: it compares the size with
    [len(cluster_info)], the number of keys of the dict, which is 3. *)
Lemma size_type_spec ci : size_type ci = key_count_rule (ci_size ci).
Proof.
  unfold size_type, key_count_rule, cluster_info_len. cbn [length].
  destruct (ci_size ci) as [|[|k]].
  - cbn [INR]. rewrite bool_decide_eq_false_2 by (cbn; lra).
    rewrite bool_decide_eq_true_2 by (cbn; lra). done.
  - rewrite bool_decide_eq_false_2 by (cbn; lra).
    rewrite bool_decide_eq_false_2 by (cbn; lra). done.
  - rewrite bool_decide_eq_true_2; [done|].
    pose proof (pos_INR k). rewrite !S_INR. cbn. lra.
Qed.

Lemma determine_cluster_type_neutral ci features :
  neutral_features features ->
  _determine_cluster_type ci features = size_type ci.
Proof.
  intros H. unfold _determine_cluster_type, spending_type, order_type.
  rewrite !filter_none; [done| |].
  - eapply Forall_impl; [exact H|]. by intros f [_ ?].
  - eapply Forall_impl; [exact H|]. by intros f [? _].
Qed.


(** C2. For features that suggest neither spending nor order counts,
    the type label of every cluster that [segment_customers] reports is
    fixed by the size of the cluster alone: "Mainstream Majority" from two
    rows on, "Niche Minority" for no row, "Standard Segment" for one row.
    The size is compared with 0.4 and 0.1 times the number of keys of
    [cluster_info], not with 40% and 10% of the rows of the table. *)
Theorem C2_cluster_type_by_key_count s df d features n r c :
  reachable s -> heap s !! df = Some d -> neutral_features features ->
  fst (segment_customers lib df features n s) = Success r ->
  c ∈ cluster_details r ->
  cd_type c = key_count_rule (cd_size c).
Proof.
  intros Hr Hd Hf. rewrite (segment_customers_value_eq _ _ d) by done.
  intros (X & fit & dw & _ & _ & _ & Hdet & _ & _)%segment_customers_value_inv Hc.
  apply rmapM_Forall2 in Hdet.
  apply list_elem_of_lookup in Hc as [i Hi].
  destruct (Forall2_lookup_r _ _ _ _ _ Hdet Hi) as (id & _ & Hid).
  destruct (describe_cluster_spec _ _ _ _ Hid) as (ci & _ & -> & ->).
  rewrite determine_cluster_type_neutral by done. apply size_type_spec.
Qed.

End C2.

Ltac reval :=
  lazymatch goal with
  | |- context [catch (rbind ?r _) _] =>
      let v := eval vm_compute in r in
      replace r with v by (vm_compute; reflexivity);
      cbn [rbind catch]
  | |- context [catch (if ?b then _ else _) _] =>
      let v := eval vm_compute in b in
      replace b with v by (vm_compute; reflexivity);
      cbv iota
  end.

Section ToySegmentation.

Lemma analyse_clusters_total lib dw total fs ids acc :
  total <> 0 -> exists ca, analyse_clusters lib dw total fs ids acc = Ok ca.
Proof.
  intros Ht. revert acc. induction ids as [|id ids IH]; intros acc; cbn; [eauto|].
  unfold analyse_cluster, py_div. destruct total; [done|]. cbn [rbind]. apply IH.
Qed.

Lemma toy_kmeans_contract : kmeans_contract toy_lib.
Proof.
  intros n seed X fit. cbn. destruct (n =? 1)%Z eqn:E; [|done].
  intros [= <-]. apply Z.eqb_eq in E as ->. split; [lia|]. cbn.
  apply Forall_forall. intros l Hl. apply list_elem_of_In, in_map_iff in Hl as (? & <- & _). lia.
Qed.

(** One cluster on the one-row table: the call succeeds. *)
Lemma one_row_run :
  exists r,
    fst (segment_customers toy_lib 0 ["age"] 1 (init toy_lib [one_row] 0))
    = Success r.
Proof.
  rewrite (segment_customers_value_eq _ _ one_row) by (apply reach_init || reflexivity).
  unfold segment_customers_value.
  do 2 reval. cbv zeta. do 4 reval.
  match goal with
  | |- context [analyse_clusters ?l ?dw ?t ?fs ?ids ?acc] =>
      destruct (analyse_clusters_total l dw t fs ids acc) as [ca Hca];
      [ vm_compute; lia | rewrite Hca; cbn [rbind] ];
      destruct (analyse_clusters_spec _ _ _ _ _ _ Hca (NoDup_range 1)) as [H1 _]
  end.
  destruct (H1 0) as (ci & _ & Hlook);
    [change (range 1) with [0]; apply elem_of_cons; by left|].
  change (range 1) with [0]. cbn [rmapM]. unfold describe_cluster at 1.
  rewrite Hlook. cbn [rbind rmapM business_insights_of catch].
  eexists. reflexivity.
Qed.
End ToySegmentation.

(** The one cluster of [one_row] holds its one row. *)
Lemma one_row_cluster :
  exists r c,
    fst (segment_customers toy_lib 0 ["age"] 1 (init toy_lib [one_row] 0))
    = Success r /\
    cluster_details r = [c] /\ cd_size c = 1 /\ total_customers r = 1.
Proof.
  destruct one_row_run as [r Hr].
  destruct (segment_customers_sizes (lib := toy_lib)
              (init toy_lib [one_row] 0) 0 one_row ["age"] 1 r
              toy_kmeans_contract (reach_init _ _) eq_refl Hr)
    as (Hl & _ & Hsum & Ht).
  destruct (cluster_details r) as [|c [|c' cs]] eqn:E; cbn in Hl; try lia.
  exists r, c. cbn [map nat_sum] in Hsum. change (len one_row) with 1 in Hsum.
  split; [exact Hr|]. split; [exact E|]. split; [lia|exact Ht].
Qed.

Lemma neutral_age : neutral_features ["age"].
Proof. repeat constructor. Qed.

Lemma sk_kmeans_contract : kmeans_contract sk_lib.
Proof.
  intros n seed X fit. cbn.
  destruct ((1 <=? n)%Z && (n <=? Z.of_nat (length X))%Z) eqn:E; [|done].
  apply andb_true_iff in E as [E1%Z.leb_le _].
  intros [= <-]. split; [done|]. cbn [labels_].
  apply Forall_forall. intros l Hl.
  apply elem_of_lookup_imap in Hl as (i & x & -> & _).
  apply Z.mod_pos_bound. lia.
Qed.

Lemma two_rows_two_clusters :
  fst (segment_customers sk_lib 0 ["age"] 2 (init sk_lib [two_rows] 0))
  = Error "Customer segmentation failed: 'bool' object is not iterable".
Proof.
  rewrite (segment_customers_value_eq _ _ two_rows) by (apply reach_init || reflexivity).
  unfold segment_customers_value.
  do 2 reval. cbv zeta. do 4 reval.
  match goal with
  | |- context [analyse_clusters ?l ?dw ?t ?fs ?ids ?acc] =>
      destruct (analyse_clusters_total l dw t fs ids acc) as [ca Hca];
      [ vm_compute; lia | rewrite Hca; cbn [rbind] ];
      destruct (analyse_clusters_spec _ _ _ _ _ _ Hca (NoDup_range 2)) as [H1 _]
  end.
  change (range 2) with [0; 1] in *.
  destruct (H1 0) as (ci0 & _ & Hl0); [apply elem_of_cons; by left|].
  destruct (H1 1) as (ci1 & _ & Hl1);
    [apply elem_of_cons; right; apply elem_of_cons; by left|].
  cbn [rmapM]. unfold describe_cluster. rewrite Hl0, Hl1.
  cbn [rbind rmapM]. rewrite business_insights_two. reflexivity.
Qed.

(** Two rows, two clusters: the clusterer of [sk_lib] puts one row in each
    cluster, both entries are built, and the call answers the error of
    line 213. *)
Lemma C6_witness :
  exists reason,
    fst (segment_customers sk_lib 0 ["age"] 2 (init sk_lib [two_rows] 0))
    = Error reason /\
    reason = "Customer segmentation failed: 'bool' object is not iterable".
Proof.
  destruct (proj2 (C6_entries_for_one_cluster_only (lib := sk_lib)
                     (init sk_lib [two_rows] 0) 0 two_rows ["age"] 2
                     sk_kmeans_contract (reach_init _ _) eq_refl)
                  ltac:(lia)) as [reason Hr].
  exists reason. split; [exact Hr|].
  rewrite two_rows_two_clusters in Hr. by injection Hr as <-.
Defined.

(** On [one_row] the cluster holds all the rows of the table, which the
    rule of the spec calls a mainstream majority; the code calls it a
    standard segment. *)
Lemma C2_witness :
  exists r c,
    fst (segment_customers toy_lib 0 ["age"] 1 (init toy_lib [one_row] 0))
    = Success r /\
    cluster_details r = [c] /\
    cd_type c = "Standard Segment" /\
    size_rule (cd_size c) (total_customers r) = "Mainstream Majority".
Proof.
  destruct one_row_cluster as (r & c & Hr & Hc & Hsize & Ht).
  exists r, c. split; [exact Hr|]. split; [exact Hc|]. split.
  - rewrite (C2_cluster_type_by_key_count (lib := toy_lib)
               (init toy_lib [one_row] 0) 0 one_row ["age"] 1 r c
               (reach_init _ _) eq_refl neutral_age Hr).
    + by rewrite Hsize.
    + rewrite Hc. apply elem_of_cons. by left.
  - rewrite Hsize, Ht. unfold size_rule.
    rewrite bool_decide_eq_true_2; [done|]. cbn. lra.
Defined.

(** ** The rows reported by [detect_anomalies] *)

(** Settle the comparisons of real constants that occur in the goal. *)
Ltac decide_reals :=
  repeat match goal with
         | |- context [bool_decide ?P] =>
             first [ rewrite (bool_decide_eq_true_2 P) by lra
                   | rewrite (bool_decide_eq_false_2 P) by lra ]
         end.

Section Sorted.

(** A list already in order is left as it is. *)
Lemma sort_by_in_order {A} (le : A -> A -> bool) xs :
  in_order le xs = true -> sort_by le xs = xs.
Proof.
  induction xs as [|x xs IH]; [done|]. cbn [sort_by]. intros H.
  destruct xs as [|y ys]; [done|].
  cbn [in_order] in H. apply andb_true_iff in H as [Hxy Hrest].
  rewrite IH by done. cbn [insert_by]. by rewrite Hxy.
Qed.

End Sorted.

(** ** More of what the operations report *)

(** *** Segments *)

Section ManyClusters.
Context {lib : Library}.

(** X1. With two clusters or more, the default four among them, the call
    ends in an error payload: line 213 hands a boolean to [any]. *)
Theorem X1_many_clusters_error s df d features n :
  reachable s -> heap s !! df = Some d -> (2 <= n)%Z ->
  exists reason, fst (segment_customers lib df features n s) = Error reason.
Proof.
  intros Hr Hd Hn.
  destruct (fst (segment_customers lib df features n s)) as [r|reason] eqn:E;
    [|by eexists].
  by destruct (segment_customers_two_clusters s df d features n r Hr Hd Hn).
Qed.

End ManyClusters.


(** Two clusters on the one-row table: both loops finish, and the list
    comprehension of line 213 raises. *)
Lemma one_row_two_clusters :
  fst (segment_customers lenient_lib 0 ["age"] 2 (init lenient_lib [one_row] 0))
  = Error "Customer segmentation failed: 'bool' object is not iterable".
Proof.
  rewrite (segment_customers_value_eq _ _ one_row) by (apply reach_init || reflexivity).
  unfold segment_customers_value.
  do 2 reval. cbv zeta. do 4 reval.
  match goal with
  | |- context [analyse_clusters ?l ?dw ?t ?fs ?ids ?acc] =>
      destruct (analyse_clusters_total l dw t fs ids acc) as [ca Hca];
      [ vm_compute; lia | rewrite Hca; cbn [rbind] ];
      destruct (analyse_clusters_spec _ _ _ _ _ _ Hca (NoDup_range 2)) as [H1 _]
  end.
  change (range 2) with [0; 1] in *.
  destruct (H1 0) as (ci0 & _ & Hl0); [apply elem_of_cons; by left|].
  destruct (H1 1) as (ci1 & _ & Hl1);
    [apply elem_of_cons; right; apply elem_of_cons; by left|].
  cbn [rmapM]. unfold describe_cluster. rewrite Hl0, Hl1.
  cbn [rbind rmapM]. rewrite business_insights_two. reflexivity.
Qed.

Lemma X1_witness :
  exists reason,
    fst (segment_customers lenient_lib 0 ["age"] 2 (init lenient_lib [one_row] 0))
    = Error reason /\
    reason = "Customer segmentation failed: 'bool' object is not iterable".
Proof.
  destruct (X1_many_clusters_error (lib := lenient_lib)
              (init lenient_lib [one_row] 0) 0 one_row ["age"] 2
              (reach_init _ _) eq_refl ltac:(lia)) as [reason Hr].
  exists reason. split; [exact Hr|].
  rewrite one_row_two_clusters in Hr. by injection Hr as <-.
Defined.

(** *** Anomalies *)

Section Anomalies.
Context {lib : Library}.

Lemma flag_mask (scores : list R) :
  map (fun l => (l =? -1)%Z) (map if_label scores) = map negative scores.
Proof.
  rewrite map_map. apply map_ext. intros x. unfold if_label, negative.
  by destruct (bool_decide (x < 0)%R).
Qed.

Lemma detect_anomalies_value_inv d cols c r :
  detect_anomalies_value lib d cols c = Success r ->
  exists scores flagged anomalies top lo hi,
    decision_scores lib d cols c scores /\
    boolean_mask d (map negative scores) = Ok flagged /\
    with_column flagged "anomaly_score"
      (map Num (mask_list (map negative scores) scores)) = Ok anomalies /\
    nlargest 5 "anomaly_score" anomalies = Ok top /\
    len d <> 0 /\
    Rlist_min scores = Ok lo /\ Rlist_max scores = Ok hi /\
    r = mkAnomalyResult (len d) (len anomalies)
          (INR (len anomalies) / INR (len d) * 100)%R
          (percentile90 scores) (to_records top)
          (np_mean scores) (np_std scores) lo hi.
Proof.
  unfold detect_anomalies_value. intros H.
  rinv H. rinv H; [done|]. cbv zeta in H. do 4 rinv H.
  rinv H. rewrite flag_mask in *.
  rinv H. rinv H. rinv H. rinv H. rinv H. rinv H.
  injection H as <-.
  unfold np_mask in *. case_bool_decide; [|done]. simplify_eq.
  unfold py_div in *. destruct (len d) eqn:Hn; [done|]. simplify_eq.
  eexists _, _, _, _, _, _. repeat split; try done.
  by eexists _, _, _, _.
Qed.


Lemma mask_list_map_self {A} (p : A -> bool) (xs : list A) :
  mask_list (map p xs) xs = List.filter p xs.
Proof.
  unfold mask_list. induction xs as [|x xs IH]; cbn; [done|].
  destruct (p x); cbn; by rewrite IH.
Qed.

Lemma length_mask_list {A B} (p : A -> bool) (xs : list A) (ys : list B) :
  length xs = length ys ->
  length (mask_list (map p xs) ys) = length (List.filter p xs).
Proof.
  unfold mask_list. revert ys.
  induction xs as [|x xs IH]; intros [|y ys] H; cbn in *; try done.
  destruct (p x); cbn; rewrite IH by lia; done.
Qed.

Lemma length_filter_le {A} (p : A -> bool) (xs : list A) :
  length (List.filter p xs) <= length xs.
Proof. induction xs as [|x xs IH]; cbn; [done|]. destruct (p x); cbn; lia. Qed.

Lemma boolean_mask_ok d m d' :
  boolean_mask d m = Ok d' ->
  length m = len d /\ d' = mkDF (columns d) (mask_list m (rows d)).
Proof. unfold boolean_mask. case_bool_decide; [|done]. by intros [= <-]. Qed.

Lemma nlargest_ok n c d d' :
  nlargest n c d = Ok d' ->
  has_column d c = true /\
  d' = mkDF (columns d)
         (take n (sort_by (fun r1 r2 => score_ge (score_of c r1) (score_of c r2))
                          (rows d))).
Proof. unfold nlargest. destruct (has_column d c); [|done]. by intros [= <-]. Qed.

(** Insertion into a sorted list keeps it sorted, for a total order. *)
Lemma insert_by_Sorted {A} (le : A -> A -> bool) x xs :
  (forall a b, le a b = false -> le b a = true) ->
  Sorted (fun a b => le a b = true) xs ->
  Sorted (fun a b => le a b = true) (insert_by le x xs).
Proof.
  intros Htot. induction 1 as [|y ys Hs IH Hhd]; cbn.
  - by repeat constructor.
  - destruct (le x y) eqn:E.
    + constructor; [by constructor|by constructor].
    + constructor; [exact IH|].
      destruct ys as [|z zs]; cbn.
      * constructor. by apply Htot.
      * destruct (le x z); constructor; [by apply Htot|by inversion Hhd].
Qed.

Lemma sort_by_Sorted {A} (le : A -> A -> bool) xs :
  (forall a b, le a b = false -> le b a = true) ->
  Sorted (fun a b => le a b = true) (sort_by le xs).
Proof.
  intros Htot. induction xs as [|x xs IH]; cbn; [constructor|].
  by apply insert_by_Sorted.
Qed.

Lemma score_ge_total a b : score_ge a b = false -> score_ge b a = true.
Proof.
  destruct a as [x|], b as [y|]; cbn; try done.
  intros H%bool_decide_eq_false. apply bool_decide_eq_true. lra.
Qed.

Lemma score_ge_trans a b c :
  score_ge a b = true -> score_ge b c = true -> score_ge a c = true.
Proof.
  destruct a as [x|], b as [y|], c as [z|]; cbn; try done.
  intros H1%bool_decide_eq_true H2%bool_decide_eq_true.
  apply bool_decide_eq_true. lra.
Qed.

(** The value under [c] in the record of a row of a frame that has [c]. *)
Lemma to_records_at_col d c :
  has_column d c = true ->
  map (at_col c) (to_records d) = column d c.
Proof.
  intros H%bool_decide_eq_true. unfold to_records, column. rewrite map_map.
  apply map_ext. intros r. unfold at_col at 1.
  rewrite (lookup_list_to_map_fn (fun c => at_col c r)).
  by rewrite bool_decide_eq_true_2.
Qed.



Lemma score_values (rs : list row) (fs : list R) :
  map (at_col "anomaly_score") rs = map Num fs ->
  map score_value rs = fs /\
  Forall (fun r => score_of "anomaly_score" r = Some (score_value r)) rs.
Proof.
  revert fs. induction rs as [|r rs IH]; intros [|f fs] H; cbn in *; try done.
  injection H as Hr Hrs. destruct (IH _ Hrs) as [-> HF].
  split.
  - f_equal. unfold score_value. by rewrite Hr.
  - constructor; [|exact HF]. unfold score_of, score_value. by rewrite Hr.
Qed.

Lemma sorted_scores (rs : list row) :
  Forall (fun r => score_of "anomaly_score" r = Some (score_value r)) rs ->
  StronglySorted (fun a b => (b <= a)%R)
    (map score_value
       (sort_by (fun r1 r2 => score_ge (score_of "anomaly_score" r1)
                                       (score_of "anomaly_score" r2)) rs)).
Proof.
  intros HF.
  set (le := fun r1 r2 : row => score_ge (score_of "anomaly_score" r1)
                                         (score_of "anomaly_score" r2)).
  assert (Forall (fun r => score_of "anomaly_score" r = Some (score_value r))
                 (sort_by le rs)) as HF'.
  { by rewrite sort_by_Permutation. }
  pose proof (sort_by_Sorted le rs (fun a b => score_ge_total _ _)) as Hs.
  apply Sorted_StronglySorted in Hs.
  2:{ intros a b c. apply score_ge_trans. }
  induction Hs as [|r l Hs IH Hall]; cbn; [constructor|].
  apply Forall_cons in HF' as [Hr HF']. constructor; [by apply IH|].
  apply Forall_map. apply Forall_forall. intros r' Hr'.
  rewrite Forall_forall in Hall, HF'. specialize (Hall _ Hr').
  specialize (HF' _ Hr'). unfold le in Hall. rewrite Hr, HF' in Hall.
  cbn in Hall. by apply bool_decide_eq_true in Hall.
Qed.

(** What the call reports, on the decision scores of the rows. *)
Lemma detect_anomalies_value_report d cols c r :
  detect_anomalies_value lib d cols c = Success r ->
  exists scores top rest,
    decision_scores lib d cols c scores /\
    length scores = len d /\ len d <> 0 /\
    total_records r = len d /\
    anomaly_count r = length (List.filter negative scores) /\
    anomaly_percentage r
    = (INR (anomaly_count r) / INR (total_records r) * 100)%R /\
    map (at_col "anomaly_score") (top_anomalies r) = map Num top /\
    top = take 5 (top ++ rest) /\
    top ++ rest ≡ₚ List.filter negative scores /\
    StronglySorted (fun a b => (b <= a)%R) (top ++ rest) /\
    anomaly_scores_mean r = np_mean scores /\
    Rlist_min scores = Ok (anomaly_scores_min r) /\
    Rlist_max scores = Ok (anomaly_scores_max r).
Proof.
  intros (scores & flagged & anomalies & top & lo & hi & Hsc & Hfl & Han & Htop
          & Hd & Hlo & Hhi & ->)%detect_anomalies_value_inv.
  apply boolean_mask_ok in Hfl as [Hlen ->]. rewrite length_map in Hlen.
  pose proof (column_with_column_eq _ _ _ _ Han) as Hcol.
  pose proof (with_column_len _ _ _ _ Han) as Hlen'.
  apply nlargest_ok in Htop as [Hhas ->].
  rewrite mask_list_map_self in Hcol. unfold column in Hcol.
  destruct (score_values _ _ Hcol) as [Hk HF].
  set (sorted := sort_by _ (rows anomalies)).
  exists scores, (map score_value (take 5 sorted)), (map score_value (drop 5 sorted)).
  cbn [total_records anomaly_count anomaly_percentage top_anomalies
       anomaly_scores_mean anomaly_scores_min anomaly_scores_max].
  rewrite <- map_app, take_drop.
  assert (len anomalies = length (List.filter negative scores)) as Hcount.
  { rewrite Hlen'. unfold len. cbn. by apply length_mask_list. }
  repeat split; try done.
  - rewrite to_records_at_col by (cbn; done). unfold column. cbn [rows].
    rewrite map_map.
    assert (Forall (fun r => score_of "anomaly_score" r = Some (score_value r))
                   (take 5 sorted)) as HF'.
    { apply Forall_take. unfold sorted. by rewrite sort_by_Permutation. }
    clear -HF'. induction HF' as [|r l Hr _ IH]; cbn; [done|].
    rewrite IH. f_equal. unfold score_of, score_value in *.
    by destruct (at_col "anomaly_score" r).
  - by rewrite firstn_map.
  - rewrite <- Hk. unfold sorted. by rewrite sort_by_Permutation.
  - by apply sorted_scores.
Qed.


Section Extremes.
Local Open Scope R_scope.

Lemma fold_Rmin_le (xs : list R) (x : R) :
  fold_left Rmin xs x <= x /\ Forall (fun y => fold_left Rmin xs x <= y) xs /\
  fold_left Rmin xs x ∈ x :: xs.
Proof.
  revert x. induction xs as [|y ys IH]; intros x; cbn.
  - split; [lra|]. split; [constructor|]. apply elem_of_cons. by left.
  - destruct (IH (Rmin x y)) as (H1 & H2 & H3).
    pose proof (Rmin_l x y). pose proof (Rmin_r x y).
    split; [lra|]. split.
    + constructor; [lra|exact H2].
    + apply elem_of_cons in H3 as [H3|H3].
      * rewrite H3. unfold Rmin. destruct (Rle_dec x y).
        -- apply elem_of_cons. by left.
        -- apply elem_of_cons. right. apply elem_of_cons. by left.
      * apply elem_of_cons. right. apply elem_of_cons. by right.
Qed.

Lemma fold_Rmax_ge (xs : list R) (x : R) :
  x <= fold_left Rmax xs x /\ Forall (fun y => y <= fold_left Rmax xs x) xs /\
  fold_left Rmax xs x ∈ x :: xs.
Proof.
  revert x. induction xs as [|y ys IH]; intros x; cbn.
  - split; [lra|]. split; [constructor|]. apply elem_of_cons. by left.
  - destruct (IH (Rmax x y)) as (H1 & H2 & H3).
    pose proof (Rmax_l x y). pose proof (Rmax_r x y).
    split; [lra|]. split.
    + constructor; [lra|exact H2].
    + apply elem_of_cons in H3 as [H3|H3].
      * rewrite H3. unfold Rmax. destruct (Rle_dec x y).
        -- apply elem_of_cons. right. apply elem_of_cons. by left.
        -- apply elem_of_cons. by left.
      * apply elem_of_cons. right. apply elem_of_cons. by right.
Qed.

Lemma Rlist_min_spec xs lo :
  Rlist_min xs = Ok lo -> Forall (fun y => lo <= y) xs /\ lo ∈ xs.
Proof.
  destruct xs as [|x xs]; [done|]. intros [= <-].
  destruct (fold_Rmin_le xs x) as (H1 & H2 & H3). split; [|done].
  by constructor.
Qed.

Lemma Rlist_max_spec xs hi :
  Rlist_max xs = Ok hi -> Forall (fun y => y <= hi) xs /\ hi ∈ xs.
Proof.
  destruct xs as [|x xs]; [done|]. intros [= <-].
  destruct (fold_Rmax_ge xs x) as (H1 & H2 & H3). split; [|done].
  by constructor.
Qed.

Lemma Rsum_bounds (xs : list R) lo hi :
  Forall (fun y => lo <= y <= hi) xs ->
  lo * INR (length xs) <= Rsum xs <= hi * INR (length xs).
Proof.
  induction 1 as [|x xs Hx _ IH]; [cbn; lra|].
  cbn [Rsum length]. rewrite S_INR. lra.
Qed.

Lemma Rmean_bounds (xs : list R) lo hi :
  xs <> [] -> Forall (fun y => lo <= y <= hi) xs -> lo <= Rmean xs <= hi.
Proof.
  intros Hne HF. pose proof (Rsum_bounds xs lo hi HF) as [H1 H2].
  assert (0 < INR (length xs)) as Hn.
  { destruct xs; [done|]. apply lt_0_INR. cbn. lia. }
  unfold Rmean.
  assert (Rsum xs / INR (length xs) * INR (length xs) = Rsum xs) as Hq
    by (field; lra).
  split; apply (Rmult_le_reg_r (INR (length xs))); lra.
Qed.

End Extremes.

(** X2. What [detect_anomalies] counts: every row of the table gets a score,
    the anomalies are the rows with a negative score, at most five of them
    are listed, and the percentage is their share of the table. *)
Theorem X2_anomaly_counts s df d cols c r :
  reachable s -> heap s !! df = Some d ->
  fst (detect_anomalies lib df cols c s) = Success r ->
  exists scores,
    decision_scores lib d cols c scores /\
    length scores = len d /\
    total_records r = len d /\ 0 < total_records r /\
    anomaly_count r = length (List.filter negative scores) /\
    anomaly_count r <= total_records r /\
    length (top_anomalies r) = Nat.min 5 (anomaly_count r) /\
    anomaly_percentage r
    = (INR (anomaly_count r) / INR (total_records r) * 100)%R /\
    (0 <= anomaly_percentage r <= 100)%R.
Proof.
  intros Hr Hd. rewrite (detect_anomalies_value_eq _ _ d) by done.
  intros (scores & top & rest & Hsc & Hlen & Hne & Ht & Hc & Hp & Htop & Htake
          & Hperm & _)%detect_anomalies_value_report.
  exists scores.
  assert (anomaly_count r <= total_records r) as Hle.
  { rewrite Hc, Ht, <- Hlen. apply length_filter_le. }
  repeat split; try done.
  - lia.
  - apply (f_equal length) in Htop. rewrite !length_map in Htop.
    rewrite Htop, Htake, length_take, Hc. by rewrite Hperm.
  - rewrite Hp. apply Rmult_le_pos; [|lra].
    apply Rmult_le_pos; [apply pos_INR|].
    apply Rlt_le, Rinv_0_lt_compat, lt_0_INR. lia.
  - rewrite Hp. apply le_INR in Hle.
    assert (0 < INR (total_records r))%R as Hpos by (apply lt_0_INR; lia).
    assert (INR (anomaly_count r) / INR (total_records r) <= 1)%R.
    { apply (Rmult_le_reg_r (INR (total_records r))); [done|].
      replace (INR (anomaly_count r) / INR (total_records r)
               * INR (total_records r))%R
        with (INR (anomaly_count r)) by (field; lra).
      lra. }
    lra.
Qed.


(** X4. The summary of the scores is consistent: the minimum and the maximum
    are scores of rows, every score lies between them, and so does the
    mean. *)
Theorem X4_anomaly_scores_summary s df d cols c r :
  reachable s -> heap s !! df = Some d ->
  fst (detect_anomalies lib df cols c s) = Success r ->
  exists scores m,
    decision_scores lib d cols c scores /\
    anomaly_scores_min r ∈ scores /\ anomaly_scores_max r ∈ scores /\
    Forall (fun x => anomaly_scores_min r <= x <= anomaly_scores_max r)%R scores /\
    anomaly_scores_mean r = Fin m /\
    (anomaly_scores_min r <= m <= anomaly_scores_max r)%R.
Proof.
  intros Hr Hd. rewrite (detect_anomalies_value_eq _ _ d) by done.
  intros (scores & top & rest & Hsc & Hlen & Hne & _ & _ & _ & _ & _ & _ & _
          & Hmean & Hlo & Hhi)%detect_anomalies_value_report.
  destruct (Rlist_min_spec _ _ Hlo) as [Hlo1 Hlo2].
  destruct (Rlist_max_spec _ _ Hhi) as [Hhi1 Hhi2].
  assert (Forall (fun x => anomaly_scores_min r <= x <= anomaly_scores_max r)%R
                 scores) as HF.
  { apply Forall_forall. intros x Hx. rewrite Forall_forall in Hlo1, Hhi1.
    split; [by apply Hlo1|by apply Hhi1]. }
  assert (scores <> []) as Hn.
  { intros ->. by apply elem_of_nil in Hlo2. }
  exists scores, (Rmean scores).
  split; [done|]. split; [done|]. split; [done|]. split; [done|]. split.
  - rewrite Hmean. by destruct scores.
  - by apply Rmean_bounds.
Qed.

End Anomalies.


Lemma three_scores_run :
  exists r,
    fst (detect_anomalies toy_lib 0 ["score"] 0.1 (init toy_lib [three_scores] 0))
    = Success r.
Proof.
  rewrite (detect_anomalies_value_eq _ _ three_scores) by (apply reach_init || reflexivity).
  unfold detect_anomalies_value.
  do 2 reval. cbv zeta. do 4 reval.
  cbn [map]. unfold if_label. decide_reals. cbn [map Z.eqb Pos.eqb Z.opp].
  do 4 reval.
  unfold nlargest.
  match goal with
  | |- context [has_column ?d ?c] =>
      replace (has_column d c) with true by (vm_compute; reflexivity)
  end.
  cbn [rbind catch Rlist_min Rlist_max]. eexists. reflexivity.
Qed.

Lemma three_scores_decision scores :
  decision_scores toy_lib three_scores ["score"] 0.1 scores ->
  scores = [-2; 1; -1]%R.
Proof.
  intros (sel & p & X & model & Hsel & Hp & HX & Hm & Hs).
  vm_compute in Hsel. injection Hsel as <-.
  vm_compute in HX. injection HX as <-.
  vm_compute in Hs. injection Hs as <-.
  reflexivity.
Qed.

Lemma X2_witness :
  exists r,
    fst (detect_anomalies toy_lib 0 ["score"] 0.1 (init toy_lib [three_scores] 0))
    = Success r /\
    total_records r = 3 /\ anomaly_count r = 2 /\ length (top_anomalies r) = 2.
Proof.
  destruct three_scores_run as [r Hr]. exists r. split; [exact Hr|].
  destruct (X2_anomaly_counts (lib := toy_lib) (init toy_lib [three_scores] 0)
              0 three_scores ["score"] 0.1 r (reach_init _ _) eq_refl Hr)
    as (scores & Hsc & _ & Ht & _ & Hc & _ & Hl & _).
  apply three_scores_decision in Hsc. subst scores.
  assert (List.filter negative [-2; 1; -1]%R = [-2; -1]%R) as E.
  { cbn [List.filter]. unfold negative. decide_reals. reflexivity. }
  rewrite E in Hc. rewrite Hl, Hc. done.
Defined.


Lemma X4_witness :
  exists r,
    fst (detect_anomalies toy_lib 0 ["score"] 0.1 (init toy_lib [three_scores] 0))
    = Success r /\
    (anomaly_scores_min r <= -2)%R /\ (1 <= anomaly_scores_max r)%R.
Proof.
  destruct three_scores_run as [r Hr]. exists r. split; [exact Hr|].
  destruct (X4_anomaly_scores_summary (lib := toy_lib)
              (init toy_lib [three_scores] 0)
              0 three_scores ["score"] 0.1 r (reach_init _ _) eq_refl Hr)
    as (scores & m & Hsc & _ & _ & HF & _).
  apply three_scores_decision in Hsc. subst scores.
  apply Forall_cons in HF as [H1 HF]. apply Forall_cons in HF as [H2 _].
  lra.
Defined.

(** *** The correlation matrix and the strong pairs *)

Section CauchySchwarz.
Local Open Scope R_scope.

(** Cauchy-Schwarz on the deviations of a list of pairs from any centre. *)
Lemma co_dev_square (m k : R) (ps : list (R * R)) :
  let S := Rsum (map (fun p => (fst p - m) * (snd p - k)) ps) in
  let A := Rsum (map (fun p => (fst p - m) * (fst p - m)) ps) in
  let B := Rsum (map (fun p => (snd p - k) * (snd p - k)) ps) in
  0 <= A /\ 0 <= B /\ S * S <= A * B.
Proof.
  induction ps as [|[x y] ps IH]; cbn [map Rsum fst snd]; [lra|].
  cbv zeta in IH. destruct IH as (HA & HB & HS).
  set (S := Rsum (map (fun p => (fst p - m) * (snd p - k)) ps)) in *.
  set (A := Rsum (map (fun p => (fst p - m) * (fst p - m)) ps)) in *.
  set (B := Rsum (map (fun p => (snd p - k) * (snd p - k)) ps)) in *.
  set (u := x - m). set (v := y - k).
  pose proof (Rle_0_sqr u) as Hu. pose proof (Rle_0_sqr v) as Hv.
  unfold Rsqr in Hu, Hv.
  split; [lra|]. split; [lra|].
  assert (2 * (S * (u * v)) <= A * (v * v) + B * (u * u)) as Hmid.
  { apply Rsqr_incr_0_var.
    - unfold Rsqr.
      pose proof (Rle_0_sqr (A * (v * v) - B * (u * u))) as Hsq. unfold Rsqr in Hsq.
      assert (0 <= (A * B - S * S) * ((u * u) * (v * v))) as Hp.
      { apply Rmult_le_pos; [lra|]. by apply Rmult_le_pos. }
      lra.
    - pose proof (Rmult_le_pos _ _ HA Hv). pose proof (Rmult_le_pos _ _ HB Hu). lra. }
  lra.
Qed.

End CauchySchwarz.

Section PearsonBound.
Local Open Scope R_scope.

Lemma zip_with_fst_snd {A B C} (f : A -> B -> C) (ps : list (A * B)) :
  zip_with f (map fst ps) (map snd ps) = map (fun p => f (fst p) (snd p)) ps.
Proof. induction ps as [|[x y] ps IH]; cbn; [done|]. by rewrite IH. Qed.

Lemma pearson_pairs_bound ps v : pearson_pairs ps = Fin v -> -1 <= v <= 1.
Proof.
  intros Hv.
  assert (sqrt (sum_sq_dev (map fst ps) * sum_sq_dev (map snd ps)) <> 0 /\
          v = sum_co_dev (map fst ps) (map snd ps)
              / sqrt (sum_sq_dev (map fst ps) * sum_sq_dev (map snd ps)))
    as [Hd ->].
  { unfold pearson_pairs in Hv. destruct ps as [|p ps]; [done|].
    cbv beta iota zeta in Hv. case_bool_decide; [done|]. by injection Hv as <-. }
  set (qs := ps) in *.
  set (a := map fst qs) in *. set (b := map snd qs) in *.
  pose proof (co_dev_square (Rmean a) (Rmean b) qs) as H. cbv zeta in H.
  destruct H as (HA & HB & HS).
  assert (sum_co_dev a b
          = Rsum (map (fun p => (fst p - Rmean a) * (snd p - Rmean b)) qs)) as ->.
  { unfold sum_co_dev, a, b. by rewrite zip_with_fst_snd. }
  assert (sum_sq_dev a
          = Rsum (map (fun p => (fst p - Rmean a) * (fst p - Rmean a)) qs)) as Ea.
  { unfold sum_sq_dev, a. by rewrite map_map. }
  assert (sum_sq_dev b
          = Rsum (map (fun p => (snd p - Rmean b) * (snd p - Rmean b)) qs)) as Eb.
  { unfold sum_sq_dev, b. by rewrite map_map. }
  rewrite Ea, Eb in *.
  set (S := Rsum (map (fun p => (fst p - Rmean a) * (snd p - Rmean b)) qs)) in *.
  set (A := Rsum (map (fun p => (fst p - Rmean a) * (fst p - Rmean a)) qs)) in *.
  set (B := Rsum (map (fun p => (snd p - Rmean b) * (snd p - Rmean b)) qs)) in *.
  assert (0 <= A * B) as HAB by (by apply Rmult_le_pos).
  pose proof (sqrt_pos (A * B)) as Hpos.
  pose proof (sqrt_sqrt _ HAB) as Hsq.
  set (D := sqrt (A * B)) in *.
  assert (0 < D) as HD by lra.
  assert (Rabs S <= D) as Habs.
  { apply Rsqr_incr_0_var; [|lra]. rewrite <- Rsqr_abs. unfold Rsqr. lra. }
  assert (- D <= S <= D) as HSD.
  { unfold Rabs in Habs. destruct (Rcase_abs S); lra. }
  split.
  - apply (Rmult_le_reg_r D); [done|].
    replace (S / D * D) with S by (field; lra). lra.
  - apply (Rmult_le_reg_r D); [done|].
    replace (S / D * D) with S by (field; lra). lra.
Qed.

End PearsonBound.

Section Correlations.
Context {lib : Library}.

(** X5. Every entry of the reported correlation matrix is NaN or a number
    between -1 and 1. *)
Theorem X5_correlation_unit_interval s df d cols r a b ra v :
  heap s !! df = Some d ->
  fst (calculate_correlations lib df cols s) = Success r ->
  correlation_matrix r !! a = Some ra -> ra !! b = Some (Fin v) ->
  (-1 <= v <= 1)%R.
Proof.
  intros Hd. rewrite (calculate_correlations_value_eq _ _ d) by done.
  intros (nd & _ & -> & _)%calculate_correlations_value_inv Ha Hb.
  destruct (corr_to_dict_lookup _ _ _ _ _ Ha Hb) as (_ & _ & Hv).
  rewrite pearson_unfold in Hv. symmetry in Hv.
  by apply pearson_pairs_bound in Hv.
Qed.



Lemma generic_rule_strong x :
  (0.7 < Rabs x)%R -> generic_rule (Fin x) <> moderate_sentence.
Proof.
  intros Hx. unfold generic_rule, float_lt, float_gt.
  repeat case_bool_decide; try discriminate.
  exfalso. unfold Rabs in Hx. destruct (Rcase_abs x); lra.
Qed.

Lemma interpret_correlation_strong var1 var2 x :
  (0.7 < Rabs x)%R ->
  _interpret_correlation var1 var2 (Fin x) <> moderate_sentence.
Proof.
  intros Hx. unfold _interpret_correlation.
  destruct (spend_rule var1 var2 (Fin x)) as [t|] eqn:E1.
  { unfold spend_rule in E1.
    repeat match type of E1 with (if ?b then _ else _) = _ =>
      destruct b; try discriminate E1 end; by injection E1 as <-. }
  destruct (stock_rule var1 var2 (Fin x)) as [t|] eqn:E2.
  { unfold stock_rule in E2.
    repeat match type of E2 with (if ?b then _ else _) = _ =>
      destruct b; try discriminate E2 end; by injection E2 as <-. }
  destruct (order_rule var1 var2 (Fin x)) as [t|] eqn:E3.
  { unfold order_rule in E3.
    repeat match type of E3 with (if ?b then _ else _) = _ =>
      destruct b; try discriminate E3 end; by injection E3 as <-. }
  destruct (date_rule var1 var2 (Fin x)) as [t|] eqn:E4.
  { unfold date_rule in E4.
    repeat match type of E4 with (if ?b then _ else _) = _ =>
      destruct b; try discriminate E4 end; by injection E4 as <-. }
  by apply generic_rule_strong.
Qed.

Lemma strong_pairs_labels nd :
  Forall
    (fun p =>
       (exists x, correlation p = Fin x /\
          ((0.7 < x)%R /\ strength p = "strong positive" \/
           (x < -0.7)%R /\ strength p = "strong negative")) /\
       interpretation p <> moderate_sentence /\
       variable1_display p = display_name (variable1 p) /\
       variable2_display p = display_name (variable2 p))
    (strong_pairs nd).
Proof.
  apply Forall_forall. intros p Hp. unfold strong_pairs in Hp.
  apply list_elem_of_In, in_flat_map in Hp as (i & Hi & Hp).
  apply in_flat_map in Hp as (j & Hj & Hp).
  destruct (float_gt _ _) eqn:Hgt; [|done].
  destruct Hp as [<-|[]].
  cbn [correlation strength interpretation variable1 variable2
       variable1_display variable2_display].
  apply float_gt_abs in Hgt as (x & Hx & Habs). rewrite Hx.
  split; [|split; [by apply interpret_correlation_strong|done]].
  exists x. split; [done|]. cbn [float_gt].
  unfold Rabs in Habs. destruct (Rcase_abs x).
  - right. split; [lra|]. rewrite bool_decide_eq_false_2; [done|lra].
  - left. split; [lra|]. rewrite bool_decide_eq_true_2; [done|lra].
Qed.

(** X6. Every reported strong pair carries the label of the sign of its
    correlation, the display names of its two columns, and an
    interpretation other than the sentence kept for moderate values. *)
Theorem X6_strong_correlation_labels s df d cols r p :
  heap s !! df = Some d ->
  fst (calculate_correlations lib df cols s) = Success r ->
  p ∈ strong_correlations r ->
  (exists x, correlation p = Fin x /\
     ((0.7 < x)%R /\ strength p = "strong positive" \/
      (x < -0.7)%R /\ strength p = "strong negative")) /\
  interpretation p <> moderate_sentence /\
  variable1_display p = display_name (variable1 p) /\
  variable2_display p = display_name (variable2 p).
Proof.
  intros Hd. rewrite (calculate_correlations_value_eq _ _ d) by done.
  intros (nd & _ & _ & ->)%calculate_correlations_value_inv Hp.
  pose proof (strong_pairs_labels nd) as H. rewrite Forall_forall in H.
  by apply H.
Qed.


Lemma length_flat_map_le {A B} (f : A -> list B) (l : list A) :
  (forall x, length (f x) <= 1) -> length (flat_map f l) <= length l.
Proof.
  intros Hf. induction l as [|x l IH]; cbn [flat_map length]; [done|].
  rewrite length_app. specialize (Hf x). lia.
Qed.

(** A double loop over [i < j < n] visits at most [n (n - 1) / 2] pairs. *)
Lemma triangle_count {B} (g : nat -> list B) (n : nat) :
  (forall i, length (g i) <= n - (i + 1)) ->
  forall k a, a + k = n -> 2 * length (flat_map g (seq a k)) <= k * (k - 1).
Proof.
  intros Hg. induction k as [|k IH]; intros a Ha; [cbn; lia|].
  cbn [seq flat_map]. rewrite length_app.
  specialize (IH (S a) ltac:(lia)). specialize (Hg a). nia.
Qed.

Lemma length_strong_pairs_le nd :
  2 * length (strong_pairs nd) <= length (columns nd) * (length (columns nd) - 1).
Proof.
  unfold strong_pairs, range2. rewrite Nat.sub_0_r.
  apply (triangle_count _ (length (columns nd))); [|lia].
  intros i. etransitivity; [apply length_flat_map_le|by rewrite length_seq].
  intros j. destruct (float_gt _ _); cbn; lia.
Qed.

Lemma upper_triangle_single nd :
  length (columns nd) = 1 -> strong_pairs nd = [] /\ upper_triangle nd = [].
Proof. unfold strong_pairs, upper_triangle. by intros ->. Qed.

Lemma calculate_correlations_value_summary d cols r :
  calculate_correlations_value d cols = Success r ->
  exists nd,
    strong_correlations r = strong_pairs nd /\
    variables_analyzed r = length (columns nd) /\
    total_variables r = length (columns nd) /\
    strong_correlations_count r = length (strong_pairs nd) /\
    mean_correlation r = float_mean (upper_triangle nd) /\
    columns nd <> [] /\
    columns nd
    = List.filter (numeric_column d)
        (match cols with Some cs => cs | None => columns d end).
Proof.
  unfold calculate_correlations_value. intros H.
  destruct cols as [cs|].
  - destruct (getitems d cs) as [sel|] eqn:Hsel; cbn [rbind catch] in H; [|done].
    destruct (empty _) eqn:He; cbn in H; [done|]. injection H as <-.
    exists (select_numeric sel). cbn. repeat split; try done.
    + intros Hn. unfold empty in He. cbn in He. by rewrite Hn in He.
    + unfold getitems in Hsel. destruct (List.filter _ cs); [|done].
      injection Hsel as <-. done.
  - cbn [rbind catch] in H. destruct (empty _) eqn:He; cbn in H; [done|].
    injection H as <-. exists (select_numeric d). cbn. repeat split; try done.
    intros Hn. unfold empty in He. cbn in He. by rewrite Hn in He.
Qed.

(** X7. On a table whose selected columns without text or date each hold a
    number, the summary of a successful call agrees with its lists: the
    count of variables is the number of numeric columns selected, at least
    one; the count of strong pairs is the length of the list, at most one
    entry per unordered pair of columns; one column alone gives no pair and
    a NaN mean correlation. *)
Theorem X7_correlation_summary_counts s df d cols r :
  heap s !! df = Some d ->
  typed_by_values d (match cols with Some cs => cs | None => columns d end)
  = true ->
  fst (calculate_correlations lib df cols s) = Success r ->
  variables_analyzed r
  = length (List.filter (numeric_column d)
              (match cols with Some cs => cs | None => columns d end)) /\
  0 < variables_analyzed r /\
  total_variables r = variables_analyzed r /\
  strong_correlations_count r = length (strong_correlations r) /\
  2 * length (strong_correlations r)
  <= variables_analyzed r * (variables_analyzed r - 1) /\
  (variables_analyzed r = 1 ->
   strong_correlations r = [] /\ mean_correlation r = NaN).
Proof.
  intros Hd _. rewrite (calculate_correlations_value_eq _ _ d) by done.
  intros (nd & Hs & Hv & Ht & Hc & Hm & Hne & Hcols)%calculate_correlations_value_summary.
  rewrite Hv, Ht, Hc, Hs, Hm, <- Hcols.
  split; [done|]. split; [destruct (columns nd); [done|cbn; lia]|].
  split; [done|]. split; [done|]. split; [apply length_strong_pairs_le|].
  intros H1. destruct (upper_triangle_single nd H1) as [-> ->]. done.
Qed.

End Correlations.


Lemma twin_table_run :
  fst (calculate_correlations toy_lib 0 None (init toy_lib [twin_table] 0))
  = Success (mkCorrelationResult
               (corr_to_dict (select_numeric twin_table))
               (strong_pairs (select_numeric twin_table))
               2 2 (length (strong_pairs (select_numeric twin_table)))
               (float_mean (upper_triangle (select_numeric twin_table)))).
Proof.
  rewrite (calculate_correlations_value_eq _ _ twin_table) by reflexivity.
  reflexivity.
Qed.

Lemma twin_table_varies c :
  c ∈ ["price"; "cost"] ->
  sum_sq_dev (numbers (column (select_numeric twin_table) c)) <> 0%R.
Proof.
  intros [->|[->|[]%elem_of_nil]%elem_of_cons]%elem_of_cons; vm_compute; lra.
Qed.

Lemma twin_table_pair :
  exists p,
    strong_pairs (select_numeric twin_table) = [p] /\
    variable1 p = "price" /\ variable2 p = "cost" /\ correlation p = Fin 1.
Proof.
  unfold strong_pairs.
  change (columns (select_numeric twin_table)) with ["price"; "cost"].
  cbn [length range2 seq flat_map Nat.sub Nat.add nth app].
  unfold corr_iloc.
  change (columns (select_numeric twin_table)) with ["price"; "cost"].
  cbn [nth].
  change (column (select_numeric twin_table) "cost")
    with (column (select_numeric twin_table) "price").
  rewrite pearson_diag.
  rewrite bool_decide_eq_false_2 by (apply twin_table_varies; set_solver).
  cbn [float_abs float_gt]. rewrite Rabs_R1.
  rewrite bool_decide_eq_true_2 by lra.
  eexists. split; [reflexivity|]. done.
Qed.

Lemma X5_witness :
  exists r ra v,
    fst (calculate_correlations toy_lib 0 None (init toy_lib [twin_table] 0))
    = Success r /\
    correlation_matrix r !! "price" = Some ra /\ ra !! "cost" = Some (Fin v) /\
    (-1 <= v <= 1)%R.
Proof.
  destruct (corr_to_dict_entry (select_numeric twin_table) "price" "cost")
    as (ra & Ha & Hra); [vm_compute; set_solver..|].
  change (column (select_numeric twin_table) "cost")
    with (column (select_numeric twin_table) "price") in Hra.
  rewrite pearson_diag in Hra.
  rewrite bool_decide_eq_false_2 in Hra by (apply twin_table_varies; set_solver).
  eexists _, ra, 1%R. split; [exact twin_table_run|].
  split; [exact Ha|]. split; [exact Hra|].
  exact (X5_correlation_unit_interval (lib := toy_lib)
           (init toy_lib [twin_table] 0) 0 twin_table None _ "price" "cost" ra 1
           eq_refl twin_table_run Ha Hra).
Defined.

Lemma X6_witness :
  exists r p,
    fst (calculate_correlations toy_lib 0 None (init toy_lib [twin_table] 0))
    = Success r /\
    strong_correlations r = [p] /\ strength p = "strong positive" /\
    interpretation p <> moderate_sentence.
Proof.
  destruct twin_table_pair as (p & Hp & _ & _ & Hc).
  eexists _, p. split; [exact twin_table_run|]. split; [exact Hp|].
  destruct (X6_strong_correlation_labels (lib := toy_lib)
              (init toy_lib [twin_table] 0) 0 twin_table None _ p
              eq_refl twin_table_run)
    as ((x & Hx & Hsign) & Hi & _).
  { cbn [strong_correlations]. rewrite Hp. apply elem_of_cons. by left. }
  split; [|exact Hi].
  rewrite Hc in Hx. injection Hx as <-.
  destruct Hsign as [[_ Hs]|[Hlt _]]; [exact Hs|lra].
Defined.

Lemma twin_table_typed :
  typed_by_values twin_table (columns twin_table) = true.
Proof. vm_compute. reflexivity. Qed.

Lemma X7_witness :
  exists r,
    fst (calculate_correlations toy_lib 0 None (init toy_lib [twin_table] 0))
    = Success r /\
    variables_analyzed r = 2 /\ length (strong_correlations r) <= 1.
Proof.
  eexists. split; [exact twin_table_run|].
  destruct (X7_correlation_summary_counts (lib := toy_lib)
              (init toy_lib [twin_table] 0) 0 twin_table None _
              eq_refl twin_table_typed twin_table_run)
    as (Hv & _ & _ & _ & Hle & _).
  split; [reflexivity|].
  cbn [variables_analyzed strong_correlations] in Hle |- *. lia.
Defined.

(** *** Errors *)

Section Errors.
Context {lib : Library}.

Lemma getitem_missing d c :
  c ∉ columns d -> getitem d c = Raise ("KeyError: " ++ c).
Proof. intros H. unfold getitem, has_column. by rewrite bool_decide_eq_false_2. Qed.

Lemma getitems_missing d cs c :
  c ∈ cs -> c ∉ columns d -> exists c', getitems d cs = Raise ("KeyError: " ++ c').
Proof.
  intros Hc Hd. unfold getitems.
  destruct (List.filter _ cs) as [|c' l] eqn:E; [|by eexists].
  assert (c ∈ List.filter (fun c => negb (has_column d c)) cs) as Hin.
  { apply list_elem_of_In, filter_In. split; [by apply list_elem_of_In|].
    unfold has_column. by rewrite bool_decide_eq_false_2. }
  rewrite E in Hin. by apply elem_of_nil in Hin.
Qed.

Lemma dropna_missing d cs c :
  c ∈ cs -> c ∉ columns d -> exists c', dropna d cs = Raise ("KeyError: " ++ c').
Proof.
  intros Hc Hd. unfold dropna.
  destruct (List.filter _ cs) as [|c' l] eqn:E; [|by eexists].
  assert (c ∈ List.filter (fun c => negb (has_column d c)) cs) as Hin.
  { apply list_elem_of_In, filter_In. split; [by apply list_elem_of_In|].
    unfold has_column. by rewrite bool_decide_eq_false_2. }
  rewrite E in Hin. by apply elem_of_nil in Hin.
Qed.

Lemma valid_rows_missing d dc vc :
  dc ∉ columns d \/ vc ∉ columns d ->
  exists msg, valid_rows lib d dc vc = Raise msg.
Proof.
  intros H. unfold valid_rows.
  destruct (decide (dc ∈ columns d)) as [Hdc|Hdc].
  - destruct H as [H|H]; [done|].
    rewrite getitem_has by (by apply bool_decide_eq_true).
    cbn [rbind].
    destruct (with_column d dc _) as [d1|] eqn:E; cbn [rbind]; [|by eexists].
    destruct (dropna_missing d1 [dc; vc] vc) as [c' ->]; [set_solver| |by eexists].
    intros Hin. apply H.
    apply with_column_ok in E as [_ ->]. cbn in Hin.
    unfold has_column in Hin. by rewrite bool_decide_eq_true_2 in Hin.
  - rewrite getitem_missing by done. by eexists.
Qed.


Lemma detect_trends_value_raise d dc vc wd msg :
  valid_rows lib d dc vc = Raise msg ->
  detect_trends_value lib d dc vc wd = Error ("Trend analysis failed: " ++ msg).
Proof.
  unfold valid_rows, detect_trends_value.
  destruct (getitem d dc); cbn [rbind catch]; [|by intros [= ->]].
  destruct (with_column d dc _); cbn [rbind catch]; [|by intros [= ->]].
  destruct (dropna _ _); cbn [rbind catch]; [done|by intros [= ->]].
Qed.

Lemma generate_forecast_value_raise d dc vc p msg :
  valid_rows lib d dc vc = Raise msg ->
  generate_forecast_value lib d dc vc p = Error ("Forecasting failed: " ++ msg).
Proof.
  unfold valid_rows, generate_forecast_value.
  destruct (getitem d dc); cbn [rbind catch]; [|by intros [= ->]].
  destruct (with_column d dc _); cbn [rbind catch]; [|by intros [= ->]].
  destruct (dropna _ _); cbn [rbind catch]; [done|by intros [= ->]].
Qed.

(** X8. A column name that the table lacks makes each operation answer an
    error payload made from the exception. *)
Theorem X8_missing_column_error s df d c :
  reachable s -> heap s !! df = Some d -> c ∉ columns d ->
  (forall dc vc wd, dc = c \/ vc = c ->
     exists msg, fst (detect_trends lib df dc vc wd s)
                 = Error ("Trend analysis failed: " ++ msg)) /\
  (forall cols x, c ∈ cols ->
     exists msg, fst (detect_anomalies lib df cols x s)
                 = Error ("Anomaly detection failed: " ++ msg)) /\
  (forall features n, c ∈ features ->
     exists msg, fst (segment_customers lib df features n s)
                 = Error ("Customer segmentation failed: " ++ msg)) /\
  (forall cols, c ∈ cols ->
     exists msg, fst (calculate_correlations lib df (Some cols) s)
                 = Error ("Correlation analysis failed: " ++ msg)) /\
  (forall dc vc periods, dc = c \/ vc = c ->
     exists msg, fst (generate_forecast lib df dc vc periods s)
                 = Error ("Forecasting failed: " ++ msg)).
Proof.
  intros Hr Hd Hc. repeat split.
  - intros dc vc wd H. rewrite (detect_trends_value_eq _ _ d) by done.
    destruct (valid_rows_missing d dc vc) as [msg Hm].
    { destruct H as [->| ->]; [by left|by right]. }
    exists msg. by apply detect_trends_value_raise.
  - intros cols x H. rewrite (detect_anomalies_value_eq _ _ d) by done.
    destruct (getitems_missing d cols c H Hc) as [c' Hm].
    eexists. unfold detect_anomalies_value. by rewrite Hm.
  - intros fs n H. rewrite (segment_customers_value_eq _ _ d) by done.
    destruct (getitems_missing d fs c H Hc) as [c' Hm].
    eexists. unfold segment_customers_value. by rewrite Hm.
  - intros cols H. rewrite (calculate_correlations_value_eq _ _ d) by done.
    destruct (getitems_missing d cols c H Hc) as [c' Hm].
    eexists. unfold calculate_correlations_value. by rewrite Hm.
  - intros dc vc p H. rewrite (generate_forecast_value_eq _ _ d) by done.
    destruct (valid_rows_missing d dc vc) as [msg Hm].
    { destruct H as [->| ->]; [by left|by right]. }
    exists msg. by apply generate_forecast_value_raise.
Qed.

Lemma no_numeric_empty d cs sel :
  getitems d cs = Ok sel ->
  Forall (fun c => numeric_column d c = false) cs ->
  empty (select_numeric sel) = true.
Proof.
  unfold getitems. destruct (List.filter _ cs); [|done]. intros [= <-] HF.
  unfold empty, select_numeric. cbn [columns rows].
  assert (List.filter (numeric_column {| columns := cs; rows := rows d |}) cs = [])
    as ->; [|done].
  induction HF as [|c l Hc _ IH]; [done|]. cbn [List.filter].
  unfold numeric_column, column in *. cbn [rows] in *. by rewrite Hc.
Qed.

(** X9. When every selected column exists and none holds numbers only, the
    three operations on numeric columns answer with their own message,
    whatever the table holds. *)
Theorem X9_no_numeric_column_error s df d cols :
  reachable s -> heap s !! df = Some d ->
  Forall (fun c => c ∈ columns d /\ numeric_column d c = false) cols ->
  (forall x, fst (detect_anomalies lib df cols x s)
             = Error "No numeric columns found for anomaly detection") /\
  (forall n, fst (segment_customers lib df cols n s)
             = Error "No numeric features found for segmentation") /\
  fst (calculate_correlations lib df (Some cols) s)
  = Error "No numeric columns found for correlation analysis".
Proof.
  intros Hr Hd HF.
  assert (exists sel, getitems d cols = Ok sel) as [sel Hsel].
  { unfold getitems.
    assert (List.filter (fun c => negb (has_column d c)) cols = []) as ->;
      [|by eexists].
    clear -HF. induction HF as [|c l [Hc _] _ IH]; [done|]. cbn [List.filter].
    unfold has_column at 1. by rewrite bool_decide_eq_true_2. }
  assert (empty (select_numeric sel) = true) as He.
  { apply (no_numeric_empty d cols); [done|].
    eapply Forall_impl; [exact HF|]. by intros c [_ ?]. }
  repeat split.
  - intros x. rewrite (detect_anomalies_value_eq _ _ d) by done.
    unfold detect_anomalies_value. rewrite Hsel. cbn [rbind]. by rewrite He.
  - intros n. rewrite (segment_customers_value_eq _ _ d) by done.
    unfold segment_customers_value. rewrite Hsel. cbn [rbind]. by rewrite He.
  - rewrite (calculate_correlations_value_eq _ _ d) by done.
    unfold calculate_correlations_value. rewrite Hsel. cbn [rbind]. by rewrite He.
Qed.

End Errors.


Lemma X8_witness :
  (exists msg,
     fst (detect_trends toy_lib 0 "when" "amount" 30 (init toy_lib [toy_table] 0))
     = Error ("Trend analysis failed: " ++ msg)) /\
  (exists msg,
     fst (calculate_correlations toy_lib 0 (Some ["amount"; "when"])
            (init toy_lib [toy_table] 0))
     = Error ("Correlation analysis failed: " ++ msg)).
Proof.
  assert ("when" ∉ columns toy_table) as Hc
    by (by apply (bool_decide_eq_false_1 ("when" ∈ columns toy_table))).
  destruct (X8_missing_column_error (lib := toy_lib) (init toy_lib [toy_table] 0)
              0 toy_table "when" (reach_init _ _) eq_refl Hc)
    as (Ht & _ & _ & Hcorr & _).
  split.
  - apply Ht. by left.
  - apply Hcorr. by apply (bool_decide_eq_true_1 ("when" ∈ ["amount"; "when"])).
Defined.

Lemma X9_witness :
  fst (detect_anomalies toy_lib 0 ["note"] 0.1 (init toy_lib [text_table] 0))
  = Error "No numeric columns found for anomaly detection" /\
  fst (calculate_correlations toy_lib 0 (Some ["note"]) (init toy_lib [text_table] 0))
  = Error "No numeric columns found for correlation analysis".
Proof.
  assert (Forall (fun c => c ∈ columns text_table /\
                           numeric_column text_table c = false) ["note"]) as HF.
  { constructor; [|constructor]. split; [by apply (bool_decide_eq_true_1 ("note" ∈ columns text_table))|reflexivity]. }
  destruct (X9_no_numeric_column_error (lib := toy_lib) (init toy_lib [text_table] 0)
              0 text_table ["note"] (reach_init _ _) eq_refl HF)
    as (Ha & _ & Hc).
  split; [apply Ha|exact Hc].
Defined.

(** *** Trends *)

Section Comoment.
Local Open Scope R_scope.


Lemma sum_co_dev_comoment xs ys :
  length xs = length ys -> xs <> [] ->
  INR (length xs) * sum_co_dev xs ys = comoment xs ys.
Proof.
  intros Hl Hne. unfold sum_co_dev, comoment.
  rewrite sum_co_dev_expand by done. unfold Rmean. rewrite <- Hl.
  assert (0 < INR (length xs)) as Hn.
  { destruct xs; [done|]. apply lt_0_INR. cbn. lia. }
  field. lra.
Qed.

(** Adding one point in front: the co-moment changes by the product of
    the summed distances of the new point to the old ones. *)
Lemma comoment_cons x y xs ys :
  length xs = length ys ->
  INR (length xs) * comoment (x :: xs) (y :: ys)
  = INR (S (length xs)) * comoment xs ys
    + (INR (length xs) * x - Rsum xs) * (INR (length xs) * y - Rsum ys).
Proof.
  intros Hl. unfold comoment, Sxy. cbn [length Rsum zip_with].
  rewrite S_INR. lra.
Qed.

Lemma comoment_single x y : comoment [x] [y] = 0.
Proof. unfold comoment, Sxy. cbn. lra. Qed.

Lemma Rsum_above (y : R) (ys : list R) :
  Forall (fun z => y < z) ys -> ys <> [] -> INR (length ys) * y - Rsum ys < 0.
Proof.
  induction 1 as [|z ys Hz HF IH]; [done|]. intros _.
  cbn [length Rsum]. rewrite S_INR.
  destruct ys as [|z' ys']; [cbn; lra|].
  specialize (IH ltac:(done)). lra.
Qed.

Lemma Rsum_below (y : R) (ys : list R) :
  Forall (fun z => z <= y) ys -> 0 <= INR (length ys) * y - Rsum ys.
Proof.
  induction 1 as [|z ys Hz HF IH]; [cbn; lra|].
  cbn [length Rsum]. rewrite S_INR. lra.
Qed.

Lemma seq_above a n : Forall (fun z => INR a < z) (map INR (seq (S a) n)).
Proof.
  apply Forall_map, Forall_forall. intros i Hi.
  apply list_elem_of_In, in_seq in Hi. apply lt_INR. lia.
Qed.

(** Against the abscissas [a, a+1, ...], values that increase have a
    positive co-moment and values that never increase a co-moment that is
    not positive. *)
Lemma comoment_increasing (ys : list R) :
  StronglySorted Rlt ys ->
  forall a : nat,
    0 <= comoment (map INR (seq a (length ys))) ys /\
    ((2 <= length ys)%nat -> 0 < comoment (map INR (seq a (length ys))) ys).
Proof.
  induction 1 as [|y l Hs IH HF]; intros a.
  - unfold comoment, Sxy. cbn. split; [lra|lia].
  - cbn [length seq map].
    destruct l as [|z l'].
    + rewrite comoment_single. split; [lra|cbn; lia].
    + set (l := z :: l') in *. set (xs := map INR (seq (S a) (length l))).
      destruct (IH (S a)) as [IH0 _]. fold xs in IH0.
      assert (length xs = length l) as Hl
        by (unfold xs; by rewrite length_map, length_seq).
      pose proof (comoment_cons (INR a) y xs l Hl) as Hc.
      assert (INR (length xs) * INR a - Rsum xs < 0) as Hx.
      { apply Rsum_above; [apply seq_above|].
        unfold xs, l. cbn [length seq map]. done. }
      assert (INR (length l) * y - Rsum l < 0) as Hy.
      { by apply Rsum_above. }
      rewrite Hl in Hx.
      assert (0 < INR (length l)) as Hn by (apply lt_0_INR; cbn; lia).
      assert (0 < (INR (length l) * INR a - Rsum xs)
                  * (INR (length l) * y - Rsum l)) as Hp.
      { replace ((INR (length l) * INR a - Rsum xs) * (INR (length l) * y - Rsum l))
          with ((- (INR (length l) * INR a - Rsum xs))
                * (- (INR (length l) * y - Rsum l))) by lra.
        apply Rmult_lt_0_compat; lra. }
      rewrite Hl in Hc.
      assert (0 <= INR (S (length l)) * comoment xs l) as Hq.
      { apply Rmult_le_pos; [apply pos_INR|done]. }
      assert (0 < INR (length l) * comoment (INR a :: xs) (y :: l)) as Hr by lra.
      assert (0 < comoment (INR a :: xs) (y :: l)) as Hgoal.
      { apply (Rmult_lt_reg_l (INR (length l))); [done|]. lra. }
      split; [lra|done].
Qed.

Lemma comoment_nonincreasing (ys : list R) :
  StronglySorted (fun p q => q <= p) ys ->
  forall a : nat, comoment (map INR (seq a (length ys))) ys <= 0.
Proof.
  induction 1 as [|y l Hs IH HF]; intros a.
  - unfold comoment, Sxy. cbn. lra.
  - cbn [length seq map].
    destruct l as [|z l'].
    + rewrite comoment_single. lra.
    + set (l := z :: l') in *. set (xs := map INR (seq (S a) (length l))).
      specialize (IH (S a)). fold xs in IH.
      assert (length xs = length l) as Hl
        by (unfold xs; by rewrite length_map, length_seq).
      pose proof (comoment_cons (INR a) y xs l Hl) as Hc.
      assert (INR (length xs) * INR a - Rsum xs < 0) as Hx.
      { apply Rsum_above; [apply seq_above|].
        unfold xs, l. cbn [length seq map]. done. }
      assert (0 <= INR (length l) * y - Rsum l) as Hy.
      { by apply Rsum_below. }
      rewrite Hl in Hx, Hc.
      assert (0 < INR (length l)) as Hn by (apply lt_0_INR; cbn; lia).
      assert ((INR (length l) * INR a - Rsum xs)
              * (INR (length l) * y - Rsum l) <= 0) as Hp.
      { replace ((INR (length l) * INR a - Rsum xs) * (INR (length l) * y - Rsum l))
          with (- ((- (INR (length l) * INR a - Rsum xs))
                   * (INR (length l) * y - Rsum l))) by lra.
        assert (0 <= (- (INR (length l) * INR a - Rsum xs))
                     * (INR (length l) * y - Rsum l))
          by (apply Rmult_le_pos; lra).
        lra. }
      assert (INR (S (length l)) * comoment xs l <= 0) as Hq.
      { assert (0 <= INR (S (length l)) * - comoment xs l)
          by (apply Rmult_le_pos; [apply pos_INR|lra]).
        lra. }
      apply (Rmult_le_reg_l (INR (length l))); [done|]. lra.
Qed.

(** The sign of the slope fitted through a window of two or more values
    taken at 0, 1, 2, ... *)
Lemma polyfit1_slope_sign (w : list R) (a b : R) :
  (2 <= length w)%nat ->
  polyfit1 (arange (length w)) w = Ok (a, b) ->
  (StronglySorted Rlt w -> 0 < a) /\
  (StronglySorted (fun p q => q <= p) w -> a <= 0).
Proof.
  intros Hw Hfit.
  pose proof (sum_sq_dev_arange (length w) Hw) as HD.
  pose proof (sum_sq_dev_nonneg (arange (length w))) as HD0.
  assert (a = sum_co_dev (arange (length w)) w / sum_sq_dev (arange (length w)))
    as ->.
  { unfold polyfit1 in Hfit. destruct (arange (length w)) eqn:E.
    - apply (f_equal length) in E. rewrite length_arange in E. cbn in E. lia.
    - rewrite <- E in *. rewrite length_arange in Hfit.
      rewrite bool_decide_eq_true_2 in Hfit by done.
      rewrite bool_decide_eq_false_2 in Hfit by done.
      by injection Hfit as <- _. }
  assert (0 < INR (length w)) as Hn by (apply lt_0_INR; lia).
  assert (arange (length w) <> []) as Hne.
  { intros E. apply (f_equal length) in E. rewrite length_arange in E. cbn in E. lia. }
  pose proof (sum_co_dev_comoment (arange (length w)) w
                ltac:(by rewrite length_arange) Hne) as Hco.
  rewrite length_arange in Hco. unfold arange in Hco at 2.
  set (D := sum_sq_dev (arange (length w))) in *.
  set (S := sum_co_dev (arange (length w)) w) in *.
  assert (0 < / D) as HiD by (apply Rinv_0_lt_compat; lra).
  split; intros Hs.
  - destruct (comoment_increasing w Hs 0) as [_ Hpos]. specialize (Hpos Hw).
    assert (0 < S).
    { apply (Rmult_lt_reg_l (INR (length w))); [done|]. lra. }
    unfold Rdiv. by apply Rmult_lt_0_compat.
  - pose proof (comoment_nonincreasing w Hs 0) as Hle.
    assert (S <= 0).
    { apply (Rmult_le_reg_l (INR (length w))); [done|]. lra. }
    unfold Rdiv.
    assert (0 <= (- S) * / D) by (apply Rmult_le_pos; lra). lra.
Qed.

End Comoment.

Section Decreasing.
Local Open Scope R_scope.

Lemma Rsum_opp (ys : list R) : Rsum (map Ropp ys) = - Rsum ys.
Proof. induction ys as [|y ys IH]; cbn; [lra|]. rewrite IH. lra. Qed.

Lemma Sxy_opp (xs ys : list R) : Sxy xs (map Ropp ys) = - Sxy xs ys.
Proof.
  unfold Sxy. revert ys. induction xs as [|x xs IH]; intros [|y ys]; cbn;
    try lra.
  rewrite IH. lra.
Qed.

Lemma comoment_opp (xs ys : list R) :
  comoment xs (map Ropp ys) = - comoment xs ys.
Proof. unfold comoment. rewrite Sxy_opp, Rsum_opp. lra. Qed.

Lemma StronglySorted_opp (ys : list R) :
  StronglySorted (fun p q => q < p) ys -> StronglySorted Rlt (map Ropp ys).
Proof.
  induction 1 as [|y ys _ IH HF]; cbn; constructor; [done|].
  apply Forall_fmap. eapply Forall_impl; [exact HF|]. cbn. intros; lra.
Qed.

Lemma comoment_decreasing (ys : list R) :
  StronglySorted (fun p q => q < p) ys -> (2 <= length ys)%nat ->
  forall a : nat, comoment (map INR (seq a (length ys))) ys < 0.
Proof.
  intros Hs Hn a.
  destruct (comoment_increasing (map Ropp ys) (StronglySorted_opp ys Hs) a)
    as [_ Hpos].
  rewrite length_map in Hpos. specialize (Hpos Hn).
  rewrite comoment_opp in Hpos. lra.
Qed.

(** The slope fitted through a window of two or more values that fall. *)
Lemma polyfit1_slope_negative (w : list R) (a b : R) :
  (2 <= length w)%nat ->
  polyfit1 (arange (length w)) w = Ok (a, b) ->
  StronglySorted (fun p q => q < p) w -> a < 0.
Proof.
  intros Hw Hfit Hs.
  pose proof (sum_sq_dev_arange (length w) Hw) as HD.
  pose proof (sum_sq_dev_nonneg (arange (length w))) as HD0.
  assert (a = sum_co_dev (arange (length w)) w / sum_sq_dev (arange (length w)))
    as ->.
  { unfold polyfit1 in Hfit. destruct (arange (length w)) eqn:E.
    - apply (f_equal length) in E. rewrite length_arange in E. cbn in E. lia.
    - rewrite <- E in *. rewrite length_arange in Hfit.
      rewrite bool_decide_eq_true_2 in Hfit by done.
      rewrite bool_decide_eq_false_2 in Hfit by done.
      by injection Hfit as <- _. }
  assert (0 < INR (length w)) as Hn by (apply lt_0_INR; lia).
  assert (arange (length w) <> []) as Hne.
  { intros E. apply (f_equal length) in E. rewrite length_arange in E. cbn in E. lia. }
  pose proof (sum_co_dev_comoment (arange (length w)) w
                ltac:(by rewrite length_arange) Hne) as Hco.
  rewrite length_arange in Hco. unfold arange in Hco at 2.
  set (D := sum_sq_dev (arange (length w))) in *.
  set (S := sum_co_dev (arange (length w)) w) in *.
  assert (0 < / D) as HiD by (apply Rinv_0_lt_compat; lra).
  pose proof (comoment_decreasing w Hs Hw 0) as Hlt.
  assert (S < 0).
  { apply (Rmult_lt_reg_l (INR (length w))); [done|]. lra. }
  unfold Rdiv.
  assert (0 < (- S) * / D) by (apply Rmult_lt_0_compat; lra). lra.
Qed.

End Decreasing.


Section Trends.
Context {lib : Library}.

Lemma detect_trends_value_fit d dc vc wd r :
  vc ∉ trend_columns ->
  detect_trends_value lib d dc vc wd = Success r ->
  exists d2 d3 ys a b,
    valid_rows lib d dc vc = Ok d2 /\ sort_values d2 dc = Ok d3 /\
    column d3 vc = map Num ys /\
    2 <= len d2 /\ data_points r = len d2 /\
    2 <= length (tail_list wd ys) /\
    polyfit1 (arange (length (tail_list wd ys))) (tail_list wd ys) = Ok (a, b) /\
    trend_direction r
    = (if bool_decide (0 < a)%R then "increasing" else "decreasing") /\
    trend_strength r
    = (if bool_decide (np_std (tail_list wd ys) < Rabs a)%R then "strong"
       else "moderate").
Proof.
  intros Hvc. unfold detect_trends_value, valid_rows. intros H.
  do 3 rinv H. rinv H; [done|]. do 13 rinv H. rinv H; [|done].
  do 15 rinv H. injection H as <-.
  cbn [trend_direction trend_strength data_points].
  repeat match goal with
         | H : getitem _ _ = Ok _ |- _ => apply getitem_ok in H
         end.
  assert (vc <> "MA_7" /\ vc <> "MA_30" /\ vc <> "Daily_Growth"
          /\ vc <> "Weekly_Growth") as (N1 & N2 & N3 & N4).
  { unfold trend_columns in Hvc. set_solver. }
  assert (column a14 vc = column a2 vc) as E14.
  { rewrite (column_with_column_ne _ _ _ _ _ Heqr15) by done.
    rewrite (column_with_column_ne _ _ _ _ _ Heqr12) by done.
    rewrite (column_with_column_ne _ _ _ _ _ Heqr9) by done.
    by rewrite (column_with_column_ne _ _ _ _ _ Heqr6). }
  assert (len a14 = len a1) as L14.
  { rewrite (with_column_len _ _ _ _ Heqr15), (with_column_len _ _ _ _ Heqr12),
      (with_column_len _ _ _ _ Heqr9), (with_column_len _ _ _ _ Heqr6).
    by eapply sort_values_len. }
  subst a3. unfold rolling_mean_column in Heqr5.
  destruct (numeric_values (column a2 vc)) as [ys'|] eqn:Hnum; [|done].
  destruct (numeric_values_inv _ _ Hnum) as (ys & Hys & ->).
  { eapply sorted_values_present; eauto. }
  assert (a15 = map Num (tail_list wd ys)) as ->.
  { subst a15. unfold column, tail. cbn [rows].
    rewrite <- tail_list_map. fold (column a14 vc). by rewrite E14, Hys, tail_list_map. }
  rewrite finite_values_Num in Heqr17. injection Heqr17 as <-.
  assert (len (tail wd a14) = length (tail_list wd ys)) as Lw.
  { rewrite len_tail. rewrite <- (length_map (at_col vc)), <- tail_list_map.
    fold (column a14 vc). by rewrite E14, Hys, tail_list_map, length_map. }
  rewrite Lw in *. apply Nat.ltb_lt in Heqb0. apply Nat.ltb_ge in Heqb.
  destruct a17 as [sl ic]. cbn [fst].
  exists a1, a2, ys, sl, ic. subst a. cbn [rbind]. rewrite Heqr1. cbn [rbind].
  repeat split; done.
Qed.


Lemma valid_rows_len d dc vc d2 :
  valid_rows lib d dc vc = Ok d2 -> len d2 <= len d.
Proof.
  unfold valid_rows.
  destruct (getitem d dc); cbn [rbind]; [|done].
  destruct (with_column d dc _) as [d1|] eqn:E1; cbn [rbind]; [|done].
  intros ->%dropna_ok. apply with_column_len in E1. rewrite <- E1.
  unfold len. cbn [rows]. apply filter_length_le.
Qed.

Lemma detect_trends_value_shape d dc vc wd r :
  detect_trends_value lib d dc vc wd = Success r ->
  exists d2 d7,
    valid_rows lib d dc vc = Ok d2 /\ 2 <= len d2 /\ len d7 = len d2 /\
    1 < length (tail_list wd (rows d7)) /\ data_points r = len d2.
Proof.
  unfold detect_trends_value, valid_rows. intros H.
  do 3 rinv H. rinv H; [done|]. do 13 rinv H. rinv H; [|done].
  do 15 rinv H. injection H as <-. cbn [data_points].
  assert (len a14 = len a1) as L14.
  { rewrite (with_column_len _ _ _ _ Heqr15), (with_column_len _ _ _ _ Heqr12),
      (with_column_len _ _ _ _ Heqr9), (with_column_len _ _ _ _ Heqr6).
    by eapply sort_values_len. }
  apply Nat.ltb_lt in Heqb0. apply Nat.ltb_ge in Heqb. rewrite len_tail in Heqb0.
  exists a1, a14. cbn [rbind]. rewrite Heqr1. cbn [rbind]. done.
Qed.

(** X10. On a window of values that rise with the date the reported direction
    is "increasing"; on a window of values that fall with the date it is
    "decreasing". *)
Theorem X10_trend_direction_monotone s df d dc vc wd r :
  heap s !! df = Some d -> vc ∉ trend_columns ->
  fst (detect_trends lib df dc vc wd s) = Success r ->
  exists d2 d3 ys,
    valid_rows lib d dc vc = Ok d2 /\ sort_values d2 dc = Ok d3 /\
    column d3 vc = map Num ys /\
    (StronglySorted Rlt (tail_list wd ys) -> trend_direction r = "increasing") /\
    (StronglySorted (fun p q => (q < p)%R) (tail_list wd ys) ->
     trend_direction r = "decreasing").
Proof.
  intros Hd Hvc. rewrite (detect_trends_value_eq _ _ d) by done.
  intros (d2 & d3 & ys & a & b & Hv & Hs & Hys & _ & _ & Hw & Hfit & Hdir & _)
           %detect_trends_value_fit; [|done].
  exists d2, d3, ys. split; [done|]. split; [done|]. split; [done|].
  rewrite Hdir. split; intros Hm.
  - rewrite bool_decide_eq_true_2; [done|].
    by apply (polyfit1_slope_sign _ _ _ Hw Hfit).
  - rewrite bool_decide_eq_false_2; [done|].
    pose proof (polyfit1_slope_negative _ _ _ Hw Hfit Hm). lra.
Qed.

(** X11. [data_points] counts the rows with a date that parses and a value
    that is present: at least two, at most the rows of the table. *)
Theorem X11_trend_data_points s df d dc vc wd r :
  heap s !! df = Some d ->
  fst (detect_trends lib df dc vc wd s) = Success r ->
  exists d2,
    valid_rows lib d dc vc = Ok d2 /\ data_points r = len d2 /\
    2 <= data_points r <= len d.
Proof.
  intros Hd. rewrite (detect_trends_value_eq _ _ d) by done.
  intros (d2 & d7 & Hv & H2 & _ & _ & Hp)%detect_trends_value_shape.
  exists d2. split; [done|]. split; [done|]. rewrite Hp.
  split; [done|]. by eapply valid_rows_len.
Qed.

(** X12. A window of no day or of one day leaves less than two rows to fit a
    line through: the call never succeeds. *)
Theorem X12_trend_short_window s df d dc vc wd :
  heap s !! df = Some d -> (0 <= wd <= 1)%Z ->
  exists reason, fst (detect_trends lib df dc vc wd s) = Error reason.
Proof.
  intros Hd Hwd. rewrite (detect_trends_value_eq _ _ d) by done.
  destruct (detect_trends_value lib d dc vc wd) as [r|reason] eqn:E; [|by eexists].
  apply detect_trends_value_shape in E as (d2 & d7 & _ & _ & _ & Hw & _).
  rewrite length_tail_list in Hw by lia. lia.
Qed.

End Trends.


Lemma amount_not_derived : "amount" ∉ trend_columns.
Proof. by apply (bool_decide_eq_false_1 ("amount" ∈ trend_columns)). Qed.

Lemma X10_witness :
  exists r,
    fst (detect_trends toy_lib 0 "date" "amount" 30 (init toy_lib [toy_table] 0))
    = Success r /\
    trend_direction r = "increasing".
Proof.
  destruct toy_table_run as [r Hr]. exists r. split; [exact Hr|].
  destruct (X10_trend_direction_monotone (lib := toy_lib)
              (init toy_lib [toy_table] 0) 0 toy_table "date" "amount" 30 r
              eq_refl amount_not_derived Hr)
    as (d2 & d3 & ys & Hv & Hs & Hys & Hinc & _).
  vm_compute in Hv. injection Hv as <-.
  vm_compute in Hs. injection Hs as <-.
  vm_compute in Hys.
  destruct ys as [|y0 [|y1 [|y2 ys]]]; try discriminate Hys.
  injection Hys as <- <-.
  apply Hinc. cbn. repeat constructor. lra.
Defined.

Lemma X11_witness :
  exists r,
    fst (detect_trends toy_lib 0 "date" "amount" 30 (init toy_lib [toy_table] 0))
    = Success r /\
    data_points r = 2.
Proof.
  destruct toy_table_run as [r Hr]. exists r. split; [exact Hr|].
  destruct (X11_trend_data_points (lib := toy_lib)
              (init toy_lib [toy_table] 0) 0 toy_table "date" "amount" 30 r
              eq_refl Hr)
    as (d2 & Hv & Hp & _).
  vm_compute in Hv. injection Hv as <-. exact Hp.
Defined.

Lemma X12_witness :
  exists reason,
    fst (detect_trends toy_lib 0 "date" "amount" 1 (init toy_lib [toy_table] 0))
    = Error reason.
Proof.
  apply (X12_trend_short_window (lib := toy_lib)
           (init toy_lib [toy_table] 0) 0 toy_table "date" "amount" 1 eq_refl).
  lia.
Defined.

(** *** Forecasts *)

Section Forecast.
Context {lib : Library}.


Lemma finite_values_inv (v : list cell) (w : list R) :
  finite_values v = Ok w -> v = map Num w.
Proof.
  unfold finite_values. revert w.
  induction v as [|c v IH]; intros w H; cbn in H.
  - by injection H as <-.
  - destruct c as [|x|?|?]; cbn in H; try done.
    destruct (rmapM _ v) as [w'|] eqn:E; cbn in H; [|done].
    injection H as <-. cbn. f_equal. by apply IH.
Qed.

(** The same, with the window read off the table. *)
Lemma generate_forecast_value_window d dc vc periods r :
  vc ∉ forecast_columns ->
  generate_forecast_value lib d dc vc periods = Success r ->
  exists d2 d3 ys,
    valid_rows lib d dc vc = Ok d2 /\ sort_values d2 dc = Ok d3 /\
    column d3 vc = map Num ys /\ 10 <= len d2 /\
    exists a b,
      polyfit1 (arange (length (tail_list 14 ys))) (tail_list 14 ys) = Ok (a, b) /\
      2 <= length (tail_list 14 ys) /\
      trend_slope r = a /\
      fc_trend_direction r
      = (if bool_decide (0 < a)%R then "increasing" else "decreasing") /\
      confidence_interval r
      = (1.96 * np_std (residuals a b (arange (length (tail_list 14 ys)))
                          (tail_list 14 ys)))%R /\
      forecast_data r
      = forecast_rows (confidence_interval r)
          (map (fun xi => a * xi + b)%R
               (arange_from (length (tail_list 14 ys)) periods)) /\
      last (tail_list 14 ys) = Some (last_actual_value r).
Proof.
  intros Hvc. unfold generate_forecast_value, valid_rows. intros H.
  do 3 rinv H. rinv H; [done|]. do 8 rinv H. rinv H; [|done].
  do 2 rinv H. cbv zeta in H.
  destruct (last a10) as [y|] eqn:Hlast; cbn [rbind catch] in H; [|done].
  injection H as <-. destruct a11 as [sl ic]. cbn [fst snd].
  repeat match goal with
         | H : getitem _ _ = Ok _ |- _ => apply getitem_ok in H
         end.
  assert (vc <> "MA_7" /\ vc <> "MA_14") as (N1 & N2).
  { unfold forecast_columns in Hvc. set_solver. }
  assert (column a8 vc = column a2 vc) as E8.
  { rewrite (column_with_column_ne _ _ _ _ _ Heqr9) by done.
    by rewrite (column_with_column_ne _ _ _ _ _ Heqr6). }
  subst a3. unfold rolling_mean_column in Heqr5.
  destruct (numeric_values (column a2 vc)) as [ys'|] eqn:Hnum; [|done].
  destruct (numeric_values_inv _ _ Hnum) as (ys & Hys & ->).
  { eapply sorted_values_present; eauto. }
  subst a9. rewrite E8, Hys, tail_list_map in Heqr11.
  rewrite finite_values_Num in Heqr11. injection Heqr11 as <-.
  rewrite E8, Hys, tail_list_map, length_map in Heqb0.
  apply Nat.leb_le in Heqb0. apply Nat.ltb_ge in Heqb.
  exists a1, a2, ys. subst a. cbn [rbind]. rewrite Heqr1. cbn [rbind].
  split; [done|]. split; [done|]. split; [done|]. split; [done|].
  exists sl, ic. cbn. repeat split; done.
Qed.





(** X14. The direction of a forecast follows a monotone window: values that
    rise over the last 14 rows give a positive slope and "increasing",
    values that fall give a negative slope and "decreasing". *)
Theorem X14_forecast_direction_monotone s df d dc vc periods r :
  heap s !! df = Some d -> vc ∉ forecast_columns ->
  fst (generate_forecast lib df dc vc periods s) = Success r ->
  exists d2 d3 ys,
    valid_rows lib d dc vc = Ok d2 /\ sort_values d2 dc = Ok d3 /\
    column d3 vc = map Num ys /\
    (StronglySorted Rlt (tail_list 14 ys) ->
     (0 < trend_slope r)%R /\ fc_trend_direction r = "increasing") /\
    (StronglySorted (fun p q => (q < p)%R) (tail_list 14 ys) ->
     (trend_slope r < 0)%R /\ fc_trend_direction r = "decreasing").
Proof.
  intros Hd Hvc. rewrite (generate_forecast_value_eq _ _ d) by done.
  intros (d2 & d3 & ys & Hv & Hs & Hys & _ & a & b & Hfit & Hw & Hsl & Hdir & _)
           %generate_forecast_value_window; [|done].
  exists d2, d3, ys. split; [done|]. split; [done|]. split; [done|].
  rewrite Hdir, Hsl. split; intros Hm.
  - pose proof (proj1 (polyfit1_slope_sign _ _ _ Hw Hfit) Hm).
    by rewrite bool_decide_eq_true_2.
  - pose proof (polyfit1_slope_negative _ _ _ Hw Hfit Hm).
    rewrite bool_decide_eq_false_2; [done|lra].
Qed.


Section Line.
Local Open Scope R_scope.

Lemma Rsum_line (a b : R) (xs : list R) :
  Rsum (map (fun x => a * x + b) xs) = a * Rsum xs + INR (length xs) * b.
Proof.
  induction xs as [|x xs IH]; [cbn; lra|].
  cbn [map Rsum length]. rewrite IH, S_INR. lra.
Qed.

Lemma Rmean_line (a b : R) (xs : list R) :
  xs <> [] -> Rmean (map (fun x => a * x + b) xs) = a * Rmean xs + b.
Proof.
  intros Hne. unfold Rmean. rewrite Rsum_line, length_map.
  assert (0 < INR (length xs)).
  { destruct xs; [done|]. apply lt_0_INR. cbn. lia. }
  field. lra.
Qed.

Lemma co_dev_line (a b m : R) (xs : list R) :
  Rsum (zip_with (fun x y => (x - m) * (y - (a * m + b))) xs
          (map (fun x => a * x + b) xs))
  = a * Rsum (map (fun x => (x - m) * (x - m)) xs).
Proof.
  induction xs as [|x xs IH]; [cbn; lra|].
  cbn [map zip_with Rsum]. rewrite IH. lra.
Qed.

(** Through points that lie on a line, the fitted line is that line. *)
Lemma polyfit1_line (a b : R) (xs : list R) :
  sum_sq_dev xs <> 0 ->
  polyfit1 xs (map (fun x => a * x + b) xs) = Ok (a, b).
Proof.
  intros HD. assert (xs <> []) as Hne.
  { intros ->. apply HD. unfold sum_sq_dev. done. }
  unfold polyfit1. destruct xs as [|x0 xs0] eqn:E; [done|]. rewrite <- E in *.
  rewrite length_map. rewrite bool_decide_eq_true_2 by done.
  rewrite bool_decide_eq_false_2 by done.
  assert (sum_co_dev xs (map (fun x => a * x + b) xs) = a * sum_sq_dev xs) as Hco.
  { unfold sum_co_dev, sum_sq_dev. rewrite Rmean_line by done. apply co_dev_line. }
  rewrite Hco, Rmean_line by done. f_equal. f_equal; field; done.
Qed.

Lemma residuals_line (a b : R) (xs : list R) :
  residuals a b xs (map (fun x => a * x + b) xs) = map (fun _ => 0) xs.
Proof.
  unfold residuals. induction xs as [|x xs IH]; [done|].
  cbn [map zip_with]. rewrite IH. f_equal. lra.
Qed.

Lemma np_std_zeros {A} (xs : list A) : np_std (map (fun _ => 0) xs) = 0.
Proof.
  unfold np_std.
  assert (sum_sq_dev (map (fun _ : A => 0) xs) = 0) as ->.
  { unfold sum_sq_dev.
    assert (Rmean (map (fun _ : A => 0) xs) = 0) as ->.
    { unfold Rmean.
      assert (Rsum (map (fun _ : A => 0) xs) = 0) as ->.
      { induction xs as [|x xs IH]; [done|]. cbn [map Rsum]. rewrite IH. lra. }
      unfold Rdiv. lra. }
    rewrite map_map. induction xs as [|x xs IH]; [done|].
    cbn [map Rsum]. rewrite IH. lra. }
  unfold Rdiv. rewrite Rmult_0_l. apply sqrt_0.
Qed.

End Line.

(** X15. A window whose values lie on a line is forecast without error: the
    slope is that of the line, the band has no width, and every forecast
    is the value of the line at its period. *)
Theorem X15_forecast_linear_exact s df d dc vc periods r :
  heap s !! df = Some d -> vc ∉ forecast_columns ->
  fst (generate_forecast lib df dc vc periods s) = Success r ->
  exists d2 d3 ys,
    valid_rows lib d dc vc = Ok d2 /\ sort_values d2 dc = Ok d3 /\
    column d3 vc = map Num ys /\
    forall (a b : R) (n : nat),
      tail_list 14 ys = map (fun i => a * INR i + b)%R (seq 0 n) ->
      trend_slope r = a /\ confidence_interval r = 0%R /\
      Forall (fun p =>
                forecast p = (a * INR (n + (period p - 1)) + b)%R /\
                lower_bound p = forecast p /\ upper_bound p = forecast p)
             (forecast_data r).
Proof.
  intros Hd Hvc. rewrite (generate_forecast_value_eq _ _ d) by done.
  intros (d2 & d3 & ys & Hv & Hs & Hys & _ & sl & ic & Hfit & Hw & Hsl & _ & Hci
          & Hdata & _)%generate_forecast_value_window; [|done].
  exists d2, d3, ys. split; [done|]. split; [done|]. split; [done|].
  intros a b n Hline.
  assert (tail_list 14 ys = map (fun x => a * x + b)%R (arange n)) as Hline'.
  { rewrite Hline. unfold arange. by rewrite map_map. }
  assert (length (tail_list 14 ys) = n) as Hn.
  { by rewrite Hline, length_map, length_seq. }
  rewrite Hn in *. rewrite Hline' in Hfit, Hci.
  rewrite polyfit1_line in Hfit by (apply sum_sq_dev_arange; lia).
  injection Hfit as <- <-.
  rewrite residuals_line, np_std_zeros, Rmult_0_r in Hci.
  split; [done|]. split; [done|].
  rewrite Hdata, Hci. unfold arange_from.
  eapply Forall_impl; [apply forecast_rows_spec|].
  intros p (Hf & Hl & Hu). split; [done|]. split; lra.
Qed.

End Forecast.


Lemma ten_rows_run :
  exists r,
    fst (generate_forecast toy_lib 0 "date" "amount" 30 (init toy_lib [ten_rows] 0))
    = Success r.
Proof.
  rewrite (generate_forecast_value_eq _ _ ten_rows) by reflexivity.
  unfold generate_forecast_value.
  do 3 reval. reval. do 8 reval. reval. reval.
  match goal with
  | |- context [polyfit1 ?x ?y] =>
      destruct (polyfit1_total x y) as [fit Hfit];
      [ vm_compute; discriminate | reflexivity | rewrite Hfit ]
  end.
  cbn [rbind catch last]. eexists. reflexivity.
Qed.

Lemma map_Num_inj (a b : list R) : map Num a = map Num b -> a = b.
Proof.
  revert b. induction a as [|x a IH]; intros [|y b] H; try done.
  injection H as -> H. f_equal. by apply IH.
Qed.

Lemma amount_not_forecast_column : "amount" ∉ forecast_columns.
Proof. by apply (bool_decide_eq_false_1 ("amount" ∈ forecast_columns)). Qed.

(** The date-sorted values of [ten_rows]. *)
Lemma ten_rows_values d2 d3 ys :
  valid_rows toy_lib ten_rows "date" "amount" = Ok d2 ->
  sort_values d2 "date" = Ok d3 -> column d3 "amount" = map Num ys ->
  ys = map INR (seq 0 10).
Proof.
  intros Hv Hs Hys.
  vm_compute in Hv. injection Hv as <-.
  vm_compute in Hs. injection Hs as <-.
  vm_compute in Hys.
  change (map Num (map INR (seq 0 10)) = map Num ys) in Hys.
  symmetry. by apply map_Num_inj.
Qed.


Lemma X14_witness :
  exists r,
    fst (generate_forecast toy_lib 0 "date" "amount" 30 (init toy_lib [ten_rows] 0))
    = Success r /\
    fc_trend_direction r = "increasing".
Proof.
  destruct ten_rows_run as [r Hr]. exists r. split; [exact Hr|].
  destruct (X14_forecast_direction_monotone (lib := toy_lib)
              (init toy_lib [ten_rows] 0)
              0 ten_rows "date" "amount" 30 r eq_refl amount_not_forecast_column Hr)
    as (d2 & d3 & ys & Hv & Hs & Hys & Hinc & _).
  rewrite (ten_rows_values d2 d3 ys Hv Hs Hys) in Hinc.
  apply Hinc. cbn. repeat constructor; lra.
Defined.

Lemma X15_witness :
  exists r,
    fst (generate_forecast toy_lib 0 "date" "amount" 30 (init toy_lib [ten_rows] 0))
    = Success r /\
    trend_slope r = 1%R /\ confidence_interval r = 0%R.
Proof.
  destruct ten_rows_run as [r Hr]. exists r. split; [exact Hr|].
  destruct (X15_forecast_linear_exact (lib := toy_lib)
              (init toy_lib [ten_rows] 0)
              0 ten_rows "date" "amount" 30 r eq_refl amount_not_forecast_column Hr)
    as (d2 & d3 & ys & Hv & Hs & Hys & Hline).
  rewrite (ten_rows_values d2 d3 ys Hv Hs Hys) in Hline.
  destruct (Hline 1%R 0%R 10) as (Hsl & Hci & _); [|done].
  cbn. repeat (apply (f_equal2 cons); [lra|]). reflexivity.
Defined.

(** * The route [advanced_analysis] of [backend/app.py] *)

Local Open Scope list_scope.
Local Open Scope string_scope.
Local Open Scope nat_scope.

(** ** The route runs the operations on a fresh frame *)

Section Route.

Context {lib : Library}.
Implicit Types (s : state lib) (app : App lib) (d : DataFrame).

Lemma to_datetime_again (c : cell) :
  to_datetime lib (to_datetime lib c) = to_datetime lib c.
Proof.
  destruct c as [|x|t|t]; cbn; try done.
  - by destruct (number_to_datetime lib x).
  - by destruct (parse_datetime lib t).
Qed.

Lemma filter_again {A} (P : A -> bool) (l : list A) :
  List.filter P (List.filter P l) = List.filter P l.
Proof.
  induction l as [|a l IH]; [done|]. cbn.
  destruct (P a) eqn:E; [|done]. cbn. by rewrite E, IH.
Qed.

Lemma zip_insert_again c (rs : list row) (v : list cell) :
  length v = length rs ->
  let rs' := zip_with (fun r x => <[c := to_datetime lib x]> r) rs v in
  zip_with (fun r x => <[c := x]> r) rs'
           (map (to_datetime lib) (map (at_col c) rs')) = rs'.
Proof.
  revert v. induction rs as [|r rs IH]; intros [|x v] Hl; try done.
  cbn in *. f_equal.
  - unfold at_col. rewrite lookup_insert_eq. cbn.
    by rewrite to_datetime_again, insert_insert_eq.
  - apply IH. lia.
Qed.

Lemma zip_insert_filter c (rs : list row) (P : row -> bool) :
  Forall (fun r => exists x, r !! c = Some x /\ to_datetime lib x = x) rs ->
  zip_with (fun r x => <[c := x]> r) (List.filter P rs)
           (map (to_datetime lib) (map (at_col c) (List.filter P rs)))
  = List.filter P rs.
Proof.
  induction 1 as [|r rs (x & Hx & Hx') _ IH]; [done|]. cbn.
  destruct (P r); [|done]. cbn. f_equal; [|done].
  unfold at_col. rewrite Hx. cbn. rewrite Hx'. by apply insert_id.
Qed.

Lemma valid_rows_again d dc vc d2 :
  valid_rows lib d dc vc = Ok d2 -> valid_rows lib d2 dc vc = Ok d2.
Proof.
  unfold valid_rows. intros H.
  destruct (getitem d dc) as [dates|] eqn:Hg; cbn [rbind] in H; [|done].
  pose proof (getitem_has_column _ _ _ Hg) as Hdc.
  apply getitem_ok in Hg as ->.
  unfold with_column in H. rewrite Hdc in H.
  rewrite bool_decide_eq_true_2 in H
    by (unfold column, len; by rewrite !length_map).
  cbn [rbind] in H. unfold dropna in H |- *. cbn [columns rows] in H.
  destruct (List.filter _ [dc; vc]) as [|] eqn:Hf in H; [|done].
  match type of H with Ok (mkDF _ ?rs) = _ => set (rows2 := rs) in * end.
  injection H as <-.
  assert (has_column (mkDF (columns d) rows2) dc = true) as Hdc' by exact Hdc.
  rewrite (getitem_has _ _ Hdc'). cbn [rbind].
  unfold with_column. rewrite Hdc'.
  rewrite bool_decide_eq_true_2
    by (unfold column, len; by rewrite !length_map).
  cbn [rbind columns rows]. unfold column. cbn [rows columns].
  unfold has_column in Hf |- *. cbn [columns] in Hf |- *.
  rewrite Hf. subst rows2. rewrite zip_insert_filter.
  - by rewrite filter_again.
  - unfold column. generalize (rows d). intros rs.
    induction rs as [|r rs IH]; cbn; constructor; [|done].
    eexists. rewrite lookup_insert_eq. split; [done|]. apply to_datetime_again.
Qed.

Lemma run_try_with_ok {A} (m : M lib A) h s a :
  fst (m s) = Ok a -> fst (try_with m h s) = Ok a.
Proof. unfold try_with. destruct (m s) as [[x|e] s']; cbn; congruence. Qed.

Lemma run_bind_call {A B} (m : state lib -> A * state lib)
    (f : A -> M lib B) s :
  bind (call m) f s = f (fst (m s)) (snd (m s)).
Proof. reflexivity. Qed.

Lemma trends_branch_run s df d :
  heap s !! df = Some d ->
  fst (trends_branch lib df s) = Ok (trends_response lib d).
Proof.
  destruct s as [h sc ad km rng]; cbn [heap].
  intros Hd. rewrite (state_ext h).
  unfold trends_branch, trends_response, valid_rows.
  erewrite run_bind_load by heap_lookup.
  destruct (List.filter date_like (columns d)) as [|dc ?]; [done|].
  destruct (List.filter value_like (columns d)) as [|vc ?]; [done|].
  unfold try_with, df_dropna.
  repeat mstep; try done.
  rewrite run_bind_call, run_ret. cbn [fst].
  by erewrite detect_trends_value_eq by heap_lookup.
Qed.

Lemma correlations_branch_run s df d :
  heap s !! df = Some d ->
  fst (correlations_branch lib df s) = Ok (correlations_response d).
Proof.
  intros Hd. unfold correlations_branch, correlations_response.
  erewrite run_bind_load by done. fold (safe_numeric_columns d).
  destruct (1 <? length (columns (select_numeric d))); [|done].
  destruct (1 <? length (safe_numeric_columns d)); [|done].
  apply run_try_with_ok. rewrite run_bind_call.
  erewrite calculate_correlations_value_eq by done.
  by destruct (calculate_correlations_value d _).
Qed.

Lemma anomalies_branch_run s df d :
  reachable s -> heap s !! df = Some d ->
  fst (anomalies_branch lib df s) = Ok (anomalies_response lib d).
Proof.
  intros Hr Hd. unfold anomalies_branch, anomalies_response.
  erewrite run_bind_load by done. fold (safe_numeric_columns d).
  destruct (columns (select_numeric d)) eqn:E1; [done|].
  destruct (safe_numeric_columns d) eqn:E2; [done|].
  apply run_try_with_ok. rewrite run_bind_call, run_ret. cbn [fst].
  by erewrite detect_anomalies_value_eq.
Qed.

(** A body that is not a forecast, whatever the state of the estimators. *)
Lemma anomalies_branch_body s df d :
  heap s !! df = Some d ->
  exists resp, fst (anomalies_branch lib df s) = Ok resp /\
               forecast_body (fst resp) = false.
Proof.
  intros Hd. unfold anomalies_branch.
  erewrite run_bind_load by done.
  destruct (columns (select_numeric d)) eqn:E1; [by eexists|].
  destruct (List.filter safe_column _) eqn:E2; [by eexists|].
  eexists. split; [|shelve].
  apply run_try_with_ok. rewrite run_bind_call, run_ret. cbn [fst]. reflexivity.
  Unshelve. reflexivity.
Qed.

Lemma trends_response_body d : forecast_body (fst (trends_response lib d)) = false.
Proof.
  unfold trends_response.
  destruct (List.filter date_like _); [done|].
  destruct (List.filter value_like _); [done|].
  destruct (valid_rows lib d _ _); [|done].
  by destruct (5 <? _).
Qed.

Lemma correlations_response_body d :
  forecast_body (fst (correlations_response d)) = false.
Proof.
  unfold correlations_response.
  destruct (1 <? _); [|done]. destruct (1 <? _); [|done].
  by destruct (calculate_correlations_value d _).
Qed.

Lemma with_table_lookup d s :
  heap (with_table d s) !! length (heap s) = Some d.
Proof.
  unfold with_table. destruct s; cbn. by rewrite list_lookup_middle.
Qed.

Lemma with_table_reachable d s : reachable s -> reachable (with_table d s).
Proof. apply reach_tables. Qed.

Lemma advanced_analysis_run analysis_type json app key data_types d :
  PHASE_2_AVAILABLE app = true ->
  List.find (fun kv => String.eqb (fst kv) analysis_type) analysis_to_data_map
    = Some (key, data_types) ->
  table_of lib app data_types = Some d ->
  fst (advanced_analysis lib analysis_type json app) =
    match fst (try_with
                 (dispatch lib analysis_type json
                    (length (heap (advanced_analytics app))))
                 (fun e =>
                    ret (ErrorBody ("Error in advanced analysis: " ++ e), 500))
                 (with_table d (advanced_analytics app))) with
    | Ok resp => resp
    | Raise e => (ErrorBody e, 500)
    end.
Proof.
  intros Hp Hf Ht. unfold advanced_analysis, table_of in *.
  rewrite Hp, Hf. cbn [negb].
  destruct (List.filter _ data_types) as [|dt ?]; [done|].
  injection Ht as <-. cbn [fst]. by rewrite run_bind_alloc.
Qed.

Lemma advanced_analysis_trends json app d :
  PHASE_2_AVAILABLE app = true ->
  table_of lib app ["orders"; "customers"; "inventory"] = Some d ->
  fst (advanced_analysis lib "trends" json app) = trends_response lib d.
Proof.
  intros Hp Ht. erewrite advanced_analysis_run by done.
  erewrite run_try_with_ok; [done|].
  change (dispatch lib "trends" json ?l) with (trends_branch lib l).
  apply trends_branch_run, with_table_lookup.
Qed.

Lemma advanced_analysis_anomalies json app d :
  PHASE_2_AVAILABLE app = true -> reachable (advanced_analytics app) ->
  table_of lib app ["orders"; "customers"; "inventory"; "products"] = Some d ->
  fst (advanced_analysis lib "anomalies" json app) = anomalies_response lib d.
Proof.
  intros Hp Hr Ht. erewrite advanced_analysis_run by done.
  erewrite run_try_with_ok; [done|].
  change (dispatch lib "anomalies" json ?l) with (anomalies_branch lib l).
  apply anomalies_branch_run;
    [by apply with_table_reachable | apply with_table_lookup].
Qed.

Lemma advanced_analysis_correlations json app d :
  PHASE_2_AVAILABLE app = true ->
  table_of lib app ["orders"; "customers"; "inventory"; "products"] = Some d ->
  fst (advanced_analysis lib "correlations" json app) = correlations_response d.
Proof.
  intros Hp Ht. erewrite advanced_analysis_run by done.
  erewrite run_try_with_ok; [done|].
  change (dispatch lib "correlations" json ?l) with (correlations_branch lib l).
  apply correlations_branch_run, with_table_lookup.
Qed.

(** What a request answers when it does not reach a table. *)
Lemma advanced_analysis_refused analysis_type json app :
  (exists msg, advanced_analysis lib analysis_type json app
               = ((ErrorBody msg, 400), app)) \/
  (PHASE_2_AVAILABLE app = true /\
   exists data_types d,
     (analysis_type, data_types) ∈ analysis_to_data_map /\
     table_of lib app data_types = Some d).
Proof.
  unfold advanced_analysis, table_of.
  destruct (PHASE_2_AVAILABLE app); cbn [negb]; [|by left; eexists].
  destruct (List.find _ _) as [[key dts]|] eqn:Hf; [|by left; eexists].
  apply find_some in Hf as [Hin Heq]. cbn [fst] in Heq.
  apply String.eqb_eq in Heq as ->.
  destruct (List.filter _ dts) as [|dt ?] eqn:E; [by left; eexists|].
  right. split; [done|]. exists dts. rewrite E. eexists. split; [|done].
  by apply list_elem_of_In.
Qed.

End Route.

(** ** What a request is answered with *)

Section RouteTheorems.

Context {lib : Library}.
Implicit Types (s : state lib) (app : App lib) (d : DataFrame).

Lemma data_types_of analysis_type data_types :
  (analysis_type, data_types) ∈ analysis_to_data_map ->
  (analysis_type = "trends" /\ data_types = ["orders"; "customers"; "inventory"]) \/
  (analysis_type = "anomalies" /\
   data_types = ["orders"; "customers"; "inventory"; "products"]) \/
  (analysis_type = "correlations" /\
   data_types = ["orders"; "customers"; "inventory"; "products"]).
Proof.
  unfold analysis_to_data_map. rewrite !elem_of_cons, elem_of_nil.
  intros [[= -> ->]|[[= -> ->]|[[= -> ->]|[]]]]; auto.
Qed.

(** X16. No request is answered with a forecast: the type [forecast] is
    not among the supported ones, so the request is refused with status
    400 before any table is built, and the state is left as it was. *)
Theorem X16_forecast_never_served analysis_type json app :
  forecast_body (fst (fst (advanced_analysis lib analysis_type json app))) = false /\
  advanced_analysis lib "forecast" json app =
    ((ErrorBody (if PHASE_2_AVAILABLE app
                 then "Analysis type forecast not supported"
                 else "Advanced analysis not available in Phase 1"), 400), app).
Proof.
  split.
  - destruct (advanced_analysis_refused analysis_type json app)
      as [[msg ->]|(Hp & dts & d & Hin & Ht)]; [done|].
    destruct (data_types_of _ _ Hin) as [[-> ->]|[[-> ->]|[-> ->]]].
    + rewrite (advanced_analysis_trends json app d) by done.
      apply trends_response_body.
    + erewrite advanced_analysis_run by done.
      change (dispatch lib "anomalies" json ?l) with (anomalies_branch lib l).
      destruct (anomalies_branch_body (with_table d (advanced_analytics app))
                  (length (heap (advanced_analytics app))) d
                  (with_table_lookup _ _)) as (resp & Hrun & Hb).
      by erewrite run_try_with_ok.
    + rewrite (advanced_analysis_correlations json app d) by done.
      apply correlations_response_body.
  - unfold advanced_analysis. by destruct (PHASE_2_AVAILABLE app).
Qed.

Lemma trends_table json app b :
  fst (fst (advanced_analysis lib "trends" json app)) = b ->
  analytics_body b = true ->
  exists d, table_of lib app ["orders"; "customers"; "inventory"] = Some d /\
            fst (trends_response lib d) = b.
Proof.
  intros Hb Ha.
  destruct (advanced_analysis_refused "trends" json app)
    as [[msg H]|(Hp & dts & d & Hin & Ht)].
  { rewrite H in Hb. cbn in Hb. by subst b. }
  destruct (data_types_of _ _ Hin) as [[_ ->]|[[[=] _]|[[=] _]]].
  exists d. split; [done|].
  by rewrite <- (advanced_analysis_trends json app d).
Qed.

(** X17. A trends request that is answered with a payload of
    [detect_trends] found more than five valid rows, so the payload is a
    result that counts at least six data points, or the report of an
    exception: neither of the two messages on insufficient data. *)
Theorem X17_route_trends_payload json app p :
  fst (fst (advanced_analysis lib "trends" json app)) = TrendsBody p ->
  (exists r, p = Success r /\ 6 <= data_points r) \/
  (exists msg, p = Error ("Trend analysis failed: " ++ msg)).
Proof.
  intros (d & _ & H)%trends_table; [|done].
  unfold trends_response in H.
  destruct (List.filter date_like _) as [|dc ?]; [done|].
  destruct (List.filter value_like _) as [|vc ?]; [done|].
  destruct (valid_rows lib d dc vc) as [d2|] eqn:Hv; [|done].
  destruct (5 <? len d2) eqn:Hn; [|done].
  apply Nat.ltb_lt in Hn. injection H as <-.
  apply valid_rows_again in Hv.
  destruct (detect_trends_value_recent d2 dc vc 30 d2 Hv) as [[r Hr]|[msg Hm]];
    [lia|lia| |right; by exists msg].
  left. exists r. split; [done|].
  apply detect_trends_value_shape in Hr as (d2' & _ & Hv' & _ & _ & _ & ->).
  rewrite Hv in Hv'. injection Hv' as <-. lia.
Qed.

(** X18. A table of five rows or fewer never gets a trend analysis: the
    request is refused with status 400. *)
Theorem X18_route_trends_small_table json app d :
  PHASE_2_AVAILABLE app = true ->
  table_of lib app ["orders"; "customers"; "inventory"] = Some d ->
  len d <= 5 ->
  exists msg, fst (advanced_analysis lib "trends" json app) = (ErrorBody msg, 400).
Proof.
  intros Hp Ht Hn. rewrite (advanced_analysis_trends json app d) by done.
  unfold trends_response.
  destruct (List.filter date_like _) as [|dc ?]; [by eexists|].
  destruct (List.filter value_like _) as [|vc ?]; [by eexists|].
  destruct (valid_rows lib d dc vc) as [d2|] eqn:Hv; [|by eexists].
  apply valid_rows_len in Hv.
  destruct (5 <? len d2) eqn:E; [|by eexists].
  apply Nat.ltb_lt in E. lia.
Qed.

End RouteTheorems.

(** ** The safe numeric columns and the double loops *)

Section SafeColumns.

Context {lib : Library}.
Implicit Types (s : state lib) (app : App lib) (d : DataFrame).

Lemma table_of_rows app data_types d :
  table_of lib app data_types = Some d -> rows d <> [].
Proof.
  unfold table_of.
  destruct (List.filter (uploaded lib app) data_types) as [|dt l] eqn:E; [done|].
  intros [= <-].
  assert (In dt (List.filter (uploaded lib app) data_types)) as H
    by (rewrite E; by left).
  apply filter_In in H as [_ H]. unfold uploaded in H.
  by destruct (uploaded_data app !! dt) as [[|r rs]|].
Qed.

Lemma filter_all {A} (p : A -> bool) (l : list A) :
  Forall (fun x => p x = true) l -> List.filter p l = l.
Proof.
  induction 1 as [|x l Hx _ IH]; [done|]. cbn. by rewrite Hx, IH.
Qed.

Lemma safe_numeric_spec d :
  Forall (fun c => c ∈ columns d /\ numeric_column d c = true)
         (safe_numeric_columns d).
Proof.
  apply Forall_forall. intros c Hc.
  unfold safe_numeric_columns, select_numeric in Hc. cbn [columns] in Hc.
  apply list_elem_of_In, filter_In in Hc as [Hc _].
  apply filter_In in Hc as [H1 H2]. split; [by apply list_elem_of_In|done].
Qed.

Lemma getitems_safe d :
  getitems d (safe_numeric_columns d)
  = Ok (mkDF (safe_numeric_columns d) (rows d)).
Proof.
  unfold getitems. rewrite filter_none; [done|].
  eapply Forall_impl; [apply safe_numeric_spec|].
  intros c [Hc _]. unfold has_column. by rewrite bool_decide_eq_true_2.
Qed.

Lemma select_numeric_safe d :
  select_numeric (mkDF (safe_numeric_columns d) (rows d))
  = mkDF (safe_numeric_columns d) (rows d).
Proof.
  unfold select_numeric. cbn [columns rows]. f_equal. apply filter_all.
  eapply Forall_impl; [apply safe_numeric_spec|].
  intros c [_ Hc]. exact Hc.
Qed.

Lemma empty_safe d :
  rows d <> [] -> safe_numeric_columns d <> [] ->
  empty (mkDF (safe_numeric_columns d) (rows d)) = false.
Proof.
  unfold empty. cbn [columns rows].
  by destruct (safe_numeric_columns d), (rows d).
Qed.

Lemma detect_anomalies_value_safe d c :
  rows d <> [] -> safe_numeric_columns d <> [] ->
  (exists r, detect_anomalies_value lib d (safe_numeric_columns d) c = Success r
             /\ total_records r = len d) \/
  (exists msg, detect_anomalies_value lib d (safe_numeric_columns d) c
               = Error ("Anomaly detection failed: " ++ msg)).
Proof.
  intros Hr Hc.
  destruct (detect_anomalies_value lib d (safe_numeric_columns d) c)
    as [r|reason] eqn:E.
  { left. exists r. split; [done|].
    apply detect_anomalies_value_inv in E
      as (? & ? & ? & ? & ? & ? & _ & _ & _ & _ & _ & _ & _ & ->).
    done. }
  right. revert E. unfold detect_anomalies_value.
  rewrite getitems_safe. cbn [rbind].
  rewrite select_numeric_safe, empty_safe by done. cbv zeta.
  repeat (rstep; [|intros [= <-]; eauto]).
  done.
Qed.

Lemma calculate_correlations_value_safe d :
  rows d <> [] -> safe_numeric_columns d <> [] ->
  let nd := mkDF (safe_numeric_columns d) (rows d) in
  calculate_correlations_value d (Some (safe_numeric_columns d))
  = Success (mkCorrelationResult (corr_to_dict nd) (strong_pairs nd)
               (length (columns nd)) (length (columns nd))
               (length (strong_pairs nd))
               (float_mean (upper_triangle nd))).
Proof.
  intros Hr Hc. unfold calculate_correlations_value.
  rewrite getitems_safe. cbn [rbind].
  by rewrite select_numeric_safe, empty_safe.
Qed.

Lemma matrix_get_corr nd a b :
  a ∈ columns nd -> b ∈ columns nd ->
  matrix_get (corr_to_dict nd) a b = pearson (column nd a) (column nd b).
Proof.
  intros Ha Hb. destruct (corr_to_dict_entry nd a b Ha Hb) as (ra & H1 & H2).
  unfold matrix_get. rewrite H1. cbn. by rewrite H2.
Qed.

End SafeColumns.

Section Triangle.

Lemma enumerate_from (l : list string) k :
  imap (fun i x => (k + i, x)) l
  = map (fun i => (i, nth (i - k) l "")) (seq k (length l)).
Proof.
  revert k. induction l as [|x l IH]; intros k; [done|].
  rewrite imap_cons. cbn [length seq map]. f_equal.
  - rewrite Nat.add_0_r, Nat.sub_diag. done.
  - rewrite (imap_ext _ (fun i y => (S k + i, y))).
    2:{ intros i y _. cbn. f_equal. lia. }
    rewrite IH. apply map_ext_in. intros i Hi%in_seq. f_equal.
    replace (i - k) with (S (i - S k)) by lia. done.
Qed.

Lemma enumerate_seq (l : list string) :
  enumerate l = map (fun i => (i, nth i l "")) (seq 0 (length l)).
Proof.
  unfold enumerate.
  transitivity (imap (fun i (x : string) => (0 + i, x)) l); [done|].
  rewrite enumerate_from.
  apply map_ext. intros i. by rewrite Nat.sub_0_r.
Qed.

Lemma flat_map_map' {A B C} (f : B -> list C) (g : A -> B) (l : list A) :
  flat_map f (map g l) = flat_map (fun x => f (g x)) l.
Proof. induction l as [|x l IH]; cbn; [done|]. by rewrite IH. Qed.

Lemma flat_map_ext_elem {A B} (f g : A -> list B) (l : list A) :
  (forall x, In x l -> f x = g x) -> flat_map f l = flat_map g l.
Proof.
  induction l as [|x l IH]; intros H; cbn; [done|].
  rewrite (H x) by (by left). rewrite IH; [done|].
  intros y Hy. apply H. by right.
Qed.

Lemma flat_map_nil {A B} (f : A -> list B) (l : list A) :
  (forall x, In x l -> f x = []) -> flat_map f l = [].
Proof.
  induction l as [|x l IH]; intros H; cbn; [done|].
  rewrite (H x) by (by left). cbn. apply IH. intros y Hy. apply H. by right.
Qed.

(** The inner loop with its test [i < j] visits [j = i+1, ..., n-1]. *)
Lemma flat_map_above {B} (h : nat -> list B) i n :
  i < n ->
  flat_map (fun j => if i <? j then h j else []) (seq 0 n)
  = flat_map h (range2 (i + 1) n).
Proof.
  intros Hi. unfold range2.
  replace n with ((i + 1) + (n - (i + 1))) at 1 by lia.
  rewrite seq_app, flat_map_app. cbn [Nat.add].
  rewrite flat_map_nil.
  2:{ intros j Hj%in_seq. destruct (i <? j) eqn:E; [|done].
      apply Nat.ltb_lt in E. lia. }
  cbn [app]. apply flat_map_ext_elem. intros j Hj%in_seq.
  destruct (i <? j) eqn:E; [done|]. apply Nat.ltb_ge in E. lia.
Qed.

Lemma relationships_triangle m cols keep strength_of :
  relationships m cols keep strength_of
  = flat_map
      (fun i =>
         flat_map (relationship_at m cols keep strength_of i)
                  (range2 (i + 1) (length cols)))
      (range2 0 (length cols)).
Proof.
  unfold relationships. rewrite enumerate_seq, flat_map_map'.
  unfold range2 at 2. rewrite Nat.sub_0_r.
  apply flat_map_ext_elem. intros i Hi%in_seq.
  rewrite flat_map_map'. rewrite <- flat_map_above by lia.
  apply flat_map_ext. intros j. by destruct (i <? j).
Qed.

Lemma relationships_spec m cols keep strength_of p :
  In p (relationships m cols keep strength_of) ->
  exists i j,
    i < j < length cols /\
    keep (matrix_get m (nth i cols "") (nth j cols "")) = true /\
    In p (relationship_at m cols keep strength_of i j).
Proof.
  rewrite relationships_triangle. unfold range2.
  intros (i & Hi%in_seq & (j & Hj%in_seq & Hp)%in_flat_map)%in_flat_map.
  exists i, j. split; [lia|]. split; [|done].
  unfold relationship_at in Hp. cbv zeta in Hp. by destruct (keep _).
Qed.

Lemma length_flat_map_ext {A B C} (f : A -> list B) (g : A -> list C) l :
  (forall x, In x l -> length (f x) = length (g x)) ->
  length (flat_map f l) = length (flat_map g l).
Proof.
  induction l as [|x l IH]; intros H; cbn [flat_map]; [done|].
  rewrite !length_app, (H x) by (by left). rewrite IH; [done|].
  intros y Hy. apply H. by right.
Qed.

Lemma length_flat_map_app {A B} (f g : A -> list B) l :
  length (flat_map f l) + length (flat_map g l)
  = length (flat_map (fun x => (f x ++ g x)%list) l).
Proof.
  induction l as [|x l IH]; cbn [flat_map]; [done|].
  rewrite !length_app, <- IH. lia.
Qed.

(** The route's strong list has as many entries as the list it replaces. *)
Lemma length_strong_relationships nd :
  length (strong_relationships (corr_to_dict nd) (columns nd))
  = length (strong_pairs nd).
Proof.
  unfold strong_relationships. rewrite relationships_triangle.
  unfold strong_pairs. cbv zeta.
  apply length_flat_map_ext. intros i Hi%in_seq.
  apply length_flat_map_ext. intros j Hj%in_seq.
  unfold relationship_at, corr_iloc. cbv zeta.
  rewrite matrix_get_corr by (apply nth_elem_of; lia).
  by destruct (float_gt _ _).
Qed.

Lemma float_le_gt a b : float_le a b = true -> float_gt a b = false.
Proof.
  destruct a as [x|], b as [y|]; cbn; try done.
  rewrite bool_decide_eq_true, bool_decide_eq_false. lra.
Qed.

(** No pair is both strong and moderate: together the two lists hold at
    most one entry per pair. *)
Lemma length_relationships_le m cols :
  2 * (length (strong_relationships m cols)
       + length (moderate_relationships m cols))
  <= length cols * (length cols - 1).
Proof.
  unfold strong_relationships, moderate_relationships.
  rewrite !relationships_triangle, length_flat_map_app.
  change (range2 0 (length cols)) with (seq 0 (length cols - 0)).
  rewrite Nat.sub_0_r.
  apply (triangle_count _ (length cols)); [|lia].
  intros i. rewrite length_app, length_flat_map_app.
  etransitivity; [apply length_flat_map_le|unfold range2; by rewrite length_seq].
  intros j. rewrite length_app. unfold relationship_at. cbv zeta.
  destruct (float_gt (float_abs _) (Fin 0.7)) eqn:E1; cbn [length].
  - destruct (float_lt _ _ && float_le _ _) eqn:E2; cbn [length]; [|lia].
    apply andb_true_iff in E2 as [_ E2]. apply float_le_gt in E2. congruence.
  - destruct (float_lt _ _ && float_le _ _); cbn [length]; lia.
Qed.

Lemma insights_of_cons strong moderate : insights_of strong moderate <> [].
Proof. unfold insights_of. by destruct strong, moderate. Qed.

Lemma recommendations_of_cons strong moderate :
  recommendations_of strong moderate <> [].
Proof. unfold recommendations_of. by destruct strong, moderate. Qed.

End Triangle.

(** ** The anomalies and the correlation report *)

Section RouteReports.

Context {lib : Library}.
Implicit Types (s : state lib) (app : App lib) (d : DataFrame).

(** A request that is answered by the analytics object ran on the table of
    its data types. *)
Lemma analytics_body_table analysis_type data_types json app d :
  (analysis_type, data_types) ∈ analysis_to_data_map ->
  table_of lib app data_types = Some d ->
  analytics_body (fst (fst (advanced_analysis lib analysis_type json app))) = true ->
  PHASE_2_AVAILABLE app = true.
Proof.
  intros Hin Ht Hb.
  destruct (advanced_analysis_refused analysis_type json app)
    as [[msg H]|[Hp _]]; [|done].
  by rewrite H in Hb.
Qed.

(** X19. On a table whose columns without text or date each hold a number,
    an anomalies request that is answered with a payload of
    [detect_anomalies] analysed the safe numeric columns of the table with
    contamination 0.1; the payload is a result that counts every row of
    the table, or the report of an exception, never the message on missing
    numeric columns. *)
Theorem X19_route_anomalies_payload json app d p :
  reachable (advanced_analytics app) ->
  table_of lib app ["orders"; "customers"; "inventory"; "products"] = Some d ->
  typed_by_values d (columns d) = true ->
  fst (fst (advanced_analysis lib "anomalies" json app)) = AnomaliesBody p ->
  p = detect_anomalies_value lib d (safe_numeric_columns d) 0.1 /\
  ((exists r, p = Success r /\ total_records r = len d) \/
   (exists msg, p = Error ("Anomaly detection failed: " ++ msg))).
Proof.
  intros Hr Ht _ Hb.
  assert (PHASE_2_AVAILABLE app = true) as Hp.
  { eapply (analytics_body_table "anomalies"); [|exact Ht|by rewrite Hb].
    unfold analysis_to_data_map. rewrite !elem_of_cons. auto. }
  rewrite (advanced_analysis_anomalies json app d) in Hb by done.
  unfold anomalies_response in Hb.
  destruct (columns (select_numeric d)); [done|].
  destruct (safe_numeric_columns d) eqn:Hs; [done|].
  rewrite <- Hs in *. injection Hb as <-. split; [done|].
  apply detect_anomalies_value_safe.
  - by eapply table_of_rows.
  - by rewrite Hs.
Qed.

Lemma correlations_report json app d b :
  table_of lib app ["orders"; "customers"; "inventory"; "products"] = Some d ->
  fst (fst (advanced_analysis lib "correlations" json app)) = b ->
  analytics_body b = true ->
  let nd := mkDF (safe_numeric_columns d) (rows d) in
  2 <= length (safe_numeric_columns d) /\
  b = CorrelationsBody
        (Success
           (enhance
              (mkCorrelationResult (corr_to_dict nd) (strong_pairs nd)
                 (length (columns nd)) (length (columns nd))
                 (length (strong_pairs nd))
                 (float_mean (upper_triangle nd)))
              (safe_numeric_columns d))).
Proof.
  intros Ht Hb Ha nd.
  assert (PHASE_2_AVAILABLE app = true) as Hp.
  { eapply (analytics_body_table "correlations"); [|exact Ht|by rewrite Hb].
    unfold analysis_to_data_map. rewrite !elem_of_cons. auto. }
  rewrite (advanced_analysis_correlations json app d) in Hb by done.
  unfold correlations_response in Hb.
  destruct (1 <? length (columns (select_numeric d))); [|by subst b].
  destruct (1 <? length (safe_numeric_columns d)) eqn:E; [|by subst b].
  apply Nat.ltb_lt in E. split; [lia|].
  rewrite calculate_correlations_value_safe in Hb.
  - by subst b.
  - by eapply table_of_rows.
  - intros H. rewrite H in E. cbn in E. lia.
Qed.

Lemma correlations_served json app d :
  PHASE_2_AVAILABLE app = true ->
  table_of lib app ["orders"; "customers"; "inventory"; "products"] = Some d ->
  2 <= length (safe_numeric_columns d) ->
  analytics_body (fst (fst (advanced_analysis lib "correlations" json app))) = true.
Proof.
  intros Hp Ht Hn.
  rewrite (advanced_analysis_correlations json app d) by done.
  unfold correlations_response.
  assert (length (safe_numeric_columns d)
          <= length (columns (select_numeric d))) as Hle
    by apply length_filter_le.
  destruct (1 <? length (columns (select_numeric d))) eqn:E1;
    [|apply Nat.ltb_ge in E1; lia].
  destruct (1 <? length (safe_numeric_columns d)) eqn:E2;
    [|apply Nat.ltb_ge in E2; lia].
  by destruct (calculate_correlations_value d _).
Qed.

(** X20. A table whose columns without text or date each hold a number,
    and with two safe numeric columns or more, always gets its
    correlation report.  In the report the number of variables is that of
    the safe numeric columns, the count of strong correlations that
    [calculate_correlations] made agrees with the list the route rebuilt,
    the strong and the moderate list together hold at most one entry per
    pair of columns, and there is at least one insight and one
    recommendation. *)
Theorem X20_route_correlations_report json app d :
  PHASE_2_AVAILABLE app = true ->
  table_of lib app ["orders"; "customers"; "inventory"; "products"] = Some d ->
  typed_by_values d (columns d) = true ->
  2 <= length (safe_numeric_columns d) ->
  exists rep,
    fst (fst (advanced_analysis lib "correlations" json app))
    = CorrelationsBody (Success rep) /\
    cr_variables_analyzed rep = length (safe_numeric_columns d) /\
    cr_total_variables rep = length (safe_numeric_columns d) /\
    cr_strong_correlations_count rep = length (cr_strong_correlations rep) /\
    cr_total_relationships rep
    = length (cr_strong_correlations rep) + length (cr_moderate_correlations rep) /\
    2 * cr_total_relationships rep
    <= cr_variables_analyzed rep * (cr_variables_analyzed rep - 1) /\
    cr_business_insights rep <> [] /\ cr_recommendations rep <> [].
Proof.
  intros Hp Ht _ Hn.
  destruct (correlations_report json app d _ Ht eq_refl) as [_ Hb];
    [by apply (correlations_served json app d)|].
  eexists. split; [exact Hb|].
  unfold enhance.
  cbn [cr_variables_analyzed cr_total_variables cr_strong_correlations_count
       cr_strong_correlations cr_total_relationships cr_moderate_correlations
       cr_business_insights cr_recommendations
       correlation_matrix total_variables strong_correlations_count columns].
  split; [done|]. split; [done|].
  split.
  { symmetry.
    apply (length_strong_relationships
             (mkDF (safe_numeric_columns d) (rows d))). }
  split; [done|].
  split; [apply length_relationships_le|].
  split; [apply insights_of_cons|apply recommendations_of_cons].
Qed.

Lemma pearson_unit xs ys x : pearson xs ys = Fin x -> (Rabs x <= 1)%R.
Proof.
  rewrite pearson_unfold. intros H%pearson_pairs_bound.
  apply Rabs_le. lra.
Qed.

Lemma relationship_of d keep strength_of p :
  In p (relationships
          (corr_to_dict (mkDF (safe_numeric_columns d) (rows d)))
          (safe_numeric_columns d) keep strength_of) ->
  rel_variable1 p ∈ safe_numeric_columns d /\
  rel_variable2 p ∈ safe_numeric_columns d /\
  rel_correlation p
  = pearson (column d (rel_variable1 p)) (column d (rel_variable2 p)) /\
  keep (rel_correlation p) = true /\
  rel_strength p = strength_of (rel_correlation p) /\
  rel_direction p
  = (if float_gt (rel_correlation p) (Fin 0) then "Positive" else "Negative").
Proof.
  intros (i & j & Hij & Hk & Hp)%relationships_spec.
  unfold relationship_at in Hp. cbv zeta in Hp. rewrite Hk in Hp.
  destruct Hp as [<-|[]].
  cbn [rel_variable1 rel_variable2 rel_correlation rel_strength rel_direction].
  assert (nth i (safe_numeric_columns d) "" ∈ safe_numeric_columns d) as Hi
    by (apply nth_elem_of; lia).
  assert (nth j (safe_numeric_columns d) "" ∈ safe_numeric_columns d) as Hj
    by (apply nth_elem_of; lia).
  split; [done|]. split; [done|].
  split; [by rewrite matrix_get_corr|]. done.
Qed.

(** X21. In the correlation report every entry relates two safe numeric
    columns by the Pearson coefficient of their values in the table.  A
    strong entry has a coefficient of absolute value above 0.7 and at most
    1, and is called very strong exactly above 0.9; a moderate entry has
    one above 0.5 and at most 0.7; the direction is the sign. *)
Theorem X21_route_relationships json app d rep :
  table_of lib app ["orders"; "customers"; "inventory"; "products"] = Some d ->
  fst (fst (advanced_analysis lib "correlations" json app))
  = CorrelationsBody (Success rep) ->
  Forall
    (fun p =>
       rel_variable1 p ∈ safe_numeric_columns d /\
       rel_variable2 p ∈ safe_numeric_columns d /\
       rel_correlation p
       = pearson (column d (rel_variable1 p)) (column d (rel_variable2 p)) /\
       exists x,
         rel_correlation p = Fin x /\ (0.7 < Rabs x <= 1)%R /\
         rel_strength p
         = (if bool_decide (0.9 < Rabs x)%R then "Very Strong" else "Strong") /\
         rel_direction p
         = (if bool_decide (0 < x)%R then "Positive" else "Negative"))
    (cr_strong_correlations rep) /\
  Forall
    (fun p =>
       rel_variable1 p ∈ safe_numeric_columns d /\
       rel_variable2 p ∈ safe_numeric_columns d /\
       rel_correlation p
       = pearson (column d (rel_variable1 p)) (column d (rel_variable2 p)) /\
       exists x,
         rel_correlation p = Fin x /\ (0.5 < Rabs x <= 0.7)%R /\
         rel_strength p = "Moderate" /\
         rel_direction p
         = (if bool_decide (0 < x)%R then "Positive" else "Negative"))
    (cr_moderate_correlations rep).
Proof.
  intros Ht Hb.
  destruct (correlations_report json app d _ Ht Hb eq_refl) as [_ [= ->]].
  unfold enhance. cbn [cr_strong_correlations cr_moderate_correlations
                       correlation_matrix].
  split; apply List.Forall_forall; intros p Hp;
    apply relationship_of in Hp as (H1 & H2 & Hv & Hk & Hs & Hd);
    (split; [done|]; split; [done|]; split; [done|]);
    destruct (rel_correlation p) as [x|] eqn:Hx; try done;
    exists x; (split; [done|]).
  - cbn in Hk, Hs, Hd. apply bool_decide_eq_true in Hk.
    split; [|done]. split; [done|]. symmetry in Hv. by eapply pearson_unit.
  - cbn in Hk, Hs, Hd. apply andb_true_iff in Hk as [Hk1 Hk2].
    apply bool_decide_eq_true in Hk1, Hk2. done.
Qed.

End RouteReports.

(** ** Concrete requests *)

Lemma shop_table orders r dts :
  table_of toy_lib (shop toy_lib (r :: orders)) ("orders" :: dts)
  = Some (frame_of_records (r :: orders)).
Proof. reflexivity. Qed.

Lemma six_orders_trends :
  exists p,
    fst (fst (advanced_analysis toy_lib "trends" None (shop toy_lib six_orders)))
    = TrendsBody p.
Proof.
  rewrite (advanced_analysis_trends None _ (frame_of_records six_orders));
    [|reflexivity|apply shop_table].
  unfold trends_response.
  replace (List.filter date_like (columns (frame_of_records six_orders)))
    with ["Order Date"] by (vm_compute; reflexivity).
  replace (List.filter value_like (columns (frame_of_records six_orders)))
    with ["Total Amount"] by (vm_compute; reflexivity).
  destruct (valid_rows toy_lib (frame_of_records six_orders) "Order Date" "Total Amount") as [d2|] eqn:Hv; [|vm_compute in Hv; discriminate Hv].
  assert (len d2 = 6) as -> by (vm_compute in Hv; injection Hv as <-; reflexivity).
  cbn. by eexists.
Qed.

Lemma X17_witness :
  exists p,
    fst (fst (advanced_analysis toy_lib "trends" None (shop toy_lib six_orders)))
    = TrendsBody p /\
    ((exists r, p = Success r /\ 6 <= data_points r) \/
     (exists msg, p = Error ("Trend analysis failed: " ++ msg))).
Proof.
  destruct six_orders_trends as [p Hp].
  exists p. split; [exact Hp|]. exact (X17_route_trends_payload None _ p Hp).
Defined.

Lemma X18_witness :
  exists msg,
    fst (advanced_analysis toy_lib "trends" None (shop toy_lib five_orders))
    = (ErrorBody msg, 400).
Proof.
  apply (X18_route_trends_small_table None (shop toy_lib five_orders)
           (frame_of_records five_orders)).
  - reflexivity.
  - apply shop_table.
  - cbn. lia.
Defined.

Lemma six_orders_anomalies :
  exists p,
    fst (fst (advanced_analysis toy_lib "anomalies" None (shop toy_lib six_orders)))
    = AnomaliesBody p.
Proof.
  rewrite (advanced_analysis_anomalies None _ (frame_of_records six_orders));
    [|reflexivity|apply reach_init|apply shop_table].
  unfold anomalies_response.
  replace (columns (select_numeric (frame_of_records six_orders)))
    with ["Total Amount"] by (vm_compute; reflexivity).
  replace (safe_numeric_columns (frame_of_records six_orders))
    with ["Total Amount"] by (vm_compute; reflexivity).
  by eexists.
Qed.

Lemma six_orders_typed :
  typed_by_values (frame_of_records six_orders)
                  (columns (frame_of_records six_orders)) = true.
Proof. vm_compute. reflexivity. Qed.

Lemma X19_witness :
  exists p,
    fst (fst (advanced_analysis toy_lib "anomalies" None (shop toy_lib six_orders)))
    = AnomaliesBody p /\
    ((exists r, p = Success r /\ total_records r = 6) \/
     (exists msg, p = Error ("Anomaly detection failed: " ++ msg))).
Proof.
  destruct six_orders_anomalies as [p Hp].
  exists p. split; [exact Hp|].
  exact (proj2 (X19_route_anomalies_payload None (shop toy_lib six_orders)
                  (frame_of_records six_orders) p
                  (reach_init [] 0) (shop_table _ _ _) six_orders_typed Hp)).
Defined.

Lemma twin_records_safe :
  safe_numeric_columns (frame_of_records twin_records) = ["price"; "cost"].
Proof. vm_compute. reflexivity. Qed.

Lemma twin_records_typed :
  typed_by_values (frame_of_records twin_records)
                  (columns (frame_of_records twin_records)) = true.
Proof. vm_compute. reflexivity. Qed.

Lemma X20_witness :
  exists rep,
    fst (fst (advanced_analysis toy_lib "correlations" None
                (shop toy_lib twin_records)))
    = CorrelationsBody (Success rep) /\
    cr_variables_analyzed rep = 2 /\
    cr_strong_correlations_count rep = length (cr_strong_correlations rep) /\
    cr_total_relationships rep <= 1.
Proof.
  destruct (X20_route_correlations_report None (shop toy_lib twin_records)
              (frame_of_records twin_records) eq_refl (shop_table _ _ _)
              twin_records_typed)
    as (rep & Hb & Hv & _ & Hc & _ & Hle & _).
  { rewrite twin_records_safe. cbn. lia. }
  exists rep. split; [exact Hb|].
  rewrite twin_records_safe in Hv. cbn [length] in Hv.
  split; [exact Hv|]. split; [exact Hc|].
  rewrite Hv in Hle. lia.
Defined.

Lemma twin_records_report :
  exists rep,
    fst (fst (advanced_analysis toy_lib "correlations" None
                (shop toy_lib twin_records)))
    = CorrelationsBody (Success rep).
Proof.
  destruct (correlations_report None (shop toy_lib twin_records)
              (frame_of_records twin_records) _ (shop_table _ _ _) eq_refl)
    as [_ Hb]; [|by eexists].
  apply (correlations_served None _ (frame_of_records twin_records));
    [reflexivity|apply shop_table|].
  rewrite twin_records_safe. cbn. lia.
Qed.

Lemma X21_witness :
  exists rep,
    fst (fst (advanced_analysis toy_lib "correlations" None
                (shop toy_lib twin_records)))
    = CorrelationsBody (Success rep) /\
    Forall (fun p => exists x, rel_correlation p = Fin x /\ (0.7 < Rabs x <= 1)%R)
           (cr_strong_correlations rep) /\
    Forall (fun p => rel_strength p = "Moderate") (cr_moderate_correlations rep).
Proof.
  destruct twin_records_report as [rep Hb].
  exists rep. split; [exact Hb|].
  destruct (X21_route_relationships None (shop toy_lib twin_records)
              (frame_of_records twin_records) rep (shop_table _ _ _) Hb)
    as [Hs Hm].
  split.
  - eapply Forall_impl; [exact Hs|].
    intros p (_ & _ & _ & x & Hx & Hr & _). by exists x.
  - eapply Forall_impl; [exact Hm|].
    intros p (_ & _ & _ & x & _ & _ & Hr & _). exact Hr.
Defined.

(** ** Display names and sentences *)

Section Names.

Lemma cased_lower_ascii (c : ascii) :
  is_upper c || is_lower c = is_lower (lower_ascii c).
Proof. destruct c as [[] [] [] [] [] [] [] []]; reflexivity. Qed.

Lemma upper_lower_ascii (c : ascii) :
  is_upper c || is_lower c = true -> upper_ascii c = upper_ascii (lower_ascii c).
Proof. destruct c as [[] [] [] [] [] [] [] []]; (reflexivity || discriminate). Qed.

Lemma uncased_lower_ascii (c : ascii) :
  is_upper c || is_lower c = false -> lower_ascii c = c.
Proof. destruct c as [[] [] [] [] [] [] [] []]; (reflexivity || discriminate). Qed.

Lemma lower_replace_ascii (c : ascii) :
  lower_ascii (if Ascii.eqb c "_" then " "%char else c)
  = (if Ascii.eqb (lower_ascii c) "_" then " "%char else lower_ascii c).
Proof. destruct c as [[] [] [] [] [] [] [] []]; reflexivity. Qed.

Lemma lower_replace_char (s : string) :
  lower (replace_char "_" " " s) = replace_char "_" " " (lower s).
Proof.
  induction s as [|c s IH]; [done|]. cbn [replace_char lower].
  by rewrite lower_replace_ascii, IH.
Qed.

(** [title()] looks at the letters, not at their case. *)
Lemma title_from_lower (a b : string) previous :
  lower a = lower b -> title_from previous a = title_from previous b.
Proof.
  revert b previous. induction a as [|x a IH]; intros [|y b] previous H;
    try done.
  cbn [lower] in H. injection H as Hc Hs. cbn [title_from].
  assert (is_upper x || is_lower x = is_upper y || is_lower y) as Hcased
    by (by rewrite !cased_lower_ascii, Hc).
  rewrite <- Hcased. f_equal; [|by apply IH].
  destruct (is_upper x || is_lower x) eqn:E.
  - destruct previous; [done|].
    rewrite (upper_lower_ascii x), (upper_lower_ascii y), Hc by congruence.
    done.
  - rewrite <- (uncased_lower_ascii x), <- (uncased_lower_ascii y), Hc
      by congruence.
    done.
Qed.

(** X22. The display name of a column does not depend on the case of its
    letters: two names with the same lower-case form get the same display
    name, whether it comes from the table of known names or is made up
    from the name itself. *)
Theorem X22_friendly_name_ignores_case (a b : string) :
  lower a = lower b ->
  _get_business_friendly_name a = _get_business_friendly_name b.
Proof.
  intros H. unfold _get_business_friendly_name. rewrite H.
  destruct (List.find _ name_mapping); [done|].
  destruct (List.find _ name_mapping); [done|].
  f_equal. apply title_from_lower.
  by rewrite !lower_replace_char, H.
Qed.

Lemma X22_witness :
  lower "Unit_Weight" = lower "UNIT_weight" /\
  _get_business_friendly_name "Unit_Weight"
  = _get_business_friendly_name "UNIT_weight".
Proof.
  split; [reflexivity|].
  apply (X22_friendly_name_ignores_case "Unit_Weight" "UNIT_weight").
  reflexivity.
Defined.

End Names.

Section Sentences.

Context {lib : Library}.
Implicit Types (app : App lib) (d : DataFrame).

Lemma relationship_text m cols keep strength_of p :
  In p (relationships m cols keep strength_of) ->
  keep (rel_correlation p) = true /\
  rel_strength p = strength_of (rel_correlation p) /\
  rel_direction p
  = (if float_gt (rel_correlation p) (Fin 0) then "Positive" else "Negative") /\
  rel_variable1_display p = _get_business_friendly_name (rel_variable1 p) /\
  rel_variable2_display p = _get_business_friendly_name (rel_variable2 p) /\
  rel_interpretation p
  = _get_correlation_interpretation (rel_variable1 p) (rel_variable2 p)
      (rel_correlation p).
Proof.
  intros (i & j & Hij & Hk & Hp)%relationships_spec.
  unfold relationship_at in Hp. cbv zeta in Hp. rewrite Hk in Hp.
  by destruct Hp as [<-|[]].
Qed.

(** X23. The sentence of an entry of the correlation report agrees with
    its labels: it names the two display names, says [very strongly] for a
    very strong entry, [strongly] for a strong one and [moderately] for a
    moderate one, and [increase together] exactly for a positive
    direction. *)
Theorem X23_route_relationship_sentence json app rep p :
  fst (fst (advanced_analysis lib "correlations" json app))
  = CorrelationsBody (Success rep) ->
  p ∈ (cr_strong_correlations rep ++ cr_moderate_correlations rep)%list ->
  rel_strength p ∈ ["Very Strong"; "Strong"; "Moderate"] /\
  (rel_strength p = "Moderate" <-> p ∈ cr_moderate_correlations rep) /\
  rel_direction p ∈ ["Positive"; "Negative"] /\
  rel_interpretation p
  = rel_variable1_display p ++ " and " ++ rel_variable2_display p ++ " "
    ++ (if String.eqb (rel_strength p) "Very Strong" then "very strongly"
        else if String.eqb (rel_strength p) "Strong" then "strongly"
        else "moderately")
    ++ " "
    ++ (if String.eqb (rel_direction p) "Positive" then "increase together"
        else "move in opposite directions").
Proof.
  intros Hb Hp.
  destruct (advanced_analysis_refused "correlations" json app)
    as [[msg H]|(Hpa & dts & d & Hin & Ht)]; [by rewrite H in Hb|].
  destruct (data_types_of _ _ Hin) as [[[=] _]|[[[=] _]|[_ ->]]].
  destruct (correlations_report json app d _ Ht Hb eq_refl) as [_ [= ->]].
  unfold enhance in Hp |- *.
  cbn [cr_strong_correlations cr_moderate_correlations correlation_matrix]
    in Hp |- *.
  set (m := corr_to_dict _) in *.
  assert (forall q, q ∈ strong_relationships m (safe_numeric_columns d) ->
                    rel_strength q <> "Moderate") as Hstrong.
  { intros q (Hk & Hs & _)%list_elem_of_In%relationship_text.
    rewrite Hs. cbv beta.
    by destruct (float_gt (float_abs (rel_correlation q)) (Fin 0.9)). }
  assert (forall q, q ∈ moderate_relationships m (safe_numeric_columns d) ->
                    rel_strength q = "Moderate") as Hmoderate.
  { by intros q (Hk & Hs & _)%list_elem_of_In%relationship_text. }
  apply elem_of_app in Hp as [Hp|Hp].
  - pose proof (Hstrong p Hp) as Hne.
    apply list_elem_of_In, relationship_text in Hp
      as (Hk & Hs & Hd & H1 & H2 & Hi).
    rewrite Hi, H1, H2, Hs, Hd. unfold _get_correlation_interpretation.
    cbv zeta. rewrite Hk.
    split.
    { destruct (float_gt (float_abs _) (Fin 0.9));
        rewrite !elem_of_cons; auto. }
    split.
    { split; [by destruct (float_gt (float_abs _) (Fin 0.9))|].
      intros Hm%Hmoderate. rewrite Hs in Hm.
      by destruct (float_gt (float_abs _) (Fin 0.9)). }
    split; [destruct (float_gt _ (Fin 0)); rewrite !elem_of_cons; auto|].
    by destruct (float_gt (float_abs _) (Fin 0.9)), (float_gt _ (Fin 0)).
  - pose proof (Hmoderate p Hp) as He.
    pose proof Hp as Hp'.
    apply list_elem_of_In, relationship_text in Hp'
      as (Hk & Hs & Hd & H1 & H2 & Hi).
    apply andb_true_iff in Hk as [_ Hk]. pose proof (float_le_gt _ _ Hk) as Hk7.
    assert (float_gt (float_abs (rel_correlation p)) (Fin 0.9) = false) as Hk9.
    { destruct (rel_correlation p) as [x|]; [|done]. cbn in Hk, Hk7 |- *.
      apply bool_decide_eq_true in Hk. apply bool_decide_eq_false. lra. }
    rewrite Hi, H1, H2, Hs, Hd. unfold _get_correlation_interpretation.
    cbv zeta. rewrite Hk7, Hk9. cbv beta.
    split; [rewrite !elem_of_cons; by right; right; left|]. split; [done|].
    split; [destruct (float_gt _ (Fin 0)); rewrite !elem_of_cons; auto|].
    by destruct (float_gt _ (Fin 0)).
Qed.

End Sentences.

Lemma twin_records_entry :
  exists rep p,
    fst (fst (advanced_analysis toy_lib "correlations" None
                (shop toy_lib twin_records)))
    = CorrelationsBody (Success rep) /\
    p ∈ (cr_strong_correlations rep ++ cr_moderate_correlations rep)%list.
Proof.
  destruct (correlations_report None (shop toy_lib twin_records)
              (frame_of_records twin_records) _ (shop_table _ _ _) eq_refl)
    as [_ Hb].
  { apply (correlations_served None _ (frame_of_records twin_records));
      [reflexivity|apply shop_table|].
    rewrite twin_records_safe. cbn. lia. }
  eexists _, _. split; [exact Hb|].
  unfold enhance. cbn [cr_strong_correlations cr_moderate_correlations
                       correlation_matrix].
  apply elem_of_app. left. apply list_elem_of_In.
  unfold strong_relationships. rewrite relationships_triangle.
  rewrite twin_records_safe.
  cbn [length range2 seq flat_map Nat.sub Nat.add app].
  unfold relationship_at. cbv zeta. cbn [nth].
  rewrite matrix_get_corr by (cbn [columns]; rewrite !elem_of_cons; auto).
  change (column (mkDF ["price"; "cost"] (rows (frame_of_records twin_records)))
            "cost")
    with (column (select_numeric twin_table) "price").
  change (column (mkDF ["price"; "cost"] (rows (frame_of_records twin_records)))
            "price")
    with (column (select_numeric twin_table) "price").
  rewrite pearson_diag.
  rewrite bool_decide_eq_false_2
    by (apply twin_table_varies; rewrite !elem_of_cons; auto).
  cbn [float_abs float_gt]. rewrite Rabs_R1.
  rewrite bool_decide_eq_true_2 by lra.
  left. reflexivity.
Qed.

Lemma X23_witness :
  exists rep p,
    fst (fst (advanced_analysis toy_lib "correlations" None
                (shop toy_lib twin_records)))
    = CorrelationsBody (Success rep) /\
    p ∈ (cr_strong_correlations rep ++ cr_moderate_correlations rep)%list /\
    rel_strength p ∈ ["Very Strong"; "Strong"; "Moderate"] /\
    rel_direction p ∈ ["Positive"; "Negative"].
Proof.
  destruct twin_records_entry as (rep & p & Hb & Hp).
  exists rep, p. split; [exact Hb|]. split; [exact Hp|].
  destruct (X23_route_relationship_sentence None (shop toy_lib twin_records)
              rep p Hb Hp) as (Hs & _ & Hd & _).
  split; [exact Hs|exact Hd].
Defined.

(** * Strong negative pairs of spending columns *)

Section Independent.
Context {lib : Library}.

Lemma strong_pairs_sentence nd :
  Forall
    (fun p =>
       strength p
       = (if float_gt (correlation p) (Fin 0) then "strong positive"
          else "strong negative") /\
       interpretation p
       = _interpret_correlation (variable1 p) (variable2 p) (correlation p) /\
       exists x, correlation p = Fin x /\ (0.7 < Rabs x)%R)
    (strong_pairs nd).
Proof.
  apply Forall_forall. intros p Hp. unfold strong_pairs in Hp.
  apply list_elem_of_In, in_flat_map in Hp as (i & Hi & Hp).
  apply in_flat_map in Hp as (j & Hj & Hp).
  destruct (float_gt _ _) eqn:Hgt; [|done].
  destruct Hp as [<-|[]].
  cbn [correlation strength interpretation variable1 variable2].
  split; [done|]. split; [done|]. by apply float_gt_abs.
Qed.

(** X24. A strong negative pair of two spending columns (names holding
    [total], [amount] or [spent]) is reported with the sentence that the
    spending patterns are independent. *)
Theorem X24_negative_spending_called_independent s df d cols r p :
  heap s !! df = Some d ->
  fst (calculate_correlations lib df cols s) = Success r ->
  p ∈ strong_correlations r ->
  in_lower "total" (variable1 p) || in_lower "amount" (variable1 p)
    || in_lower "spent" (variable1 p) = true ->
  in_lower "total" (variable2 p) || in_lower "amount" (variable2 p)
    || in_lower "spent" (variable2 p) = true ->
  strength p = "strong negative" ->
  (exists x, correlation p = Fin x /\ (x < -0.7)%R) /\
  interpretation p = "Spending patterns are independent".
Proof.
  intros Hd. rewrite (calculate_correlations_value_eq _ _ d) by done.
  intros (nd & _ & _ & ->)%calculate_correlations_value_inv Hp H1 H2 Hs.
  pose proof (strong_pairs_sentence nd) as H. rewrite Forall_forall in H.
  destruct (H p Hp) as (Hst & Hi & x & Hx & Habs).
  rewrite Hs, Hx in Hst. cbn [float_gt] in Hst.
  case_bool_decide as Hpos; [done|].
  assert (x < -0.7)%R as Hneg.
  { unfold Rabs in Habs. destruct (Rcase_abs x); lra. }
  split; [by exists x|].
  rewrite Hi, Hx. unfold _interpret_correlation, spend_rule.
  rewrite H1, H2. cbn [float_gt].
  rewrite bool_decide_eq_false_2 by lra. done.
Qed.

End Independent.

Lemma mirror_table_run :
  fst (calculate_correlations toy_lib 0 None (init toy_lib [mirror_table] 0))
  = Success (mkCorrelationResult
               (corr_to_dict (select_numeric mirror_table))
               (strong_pairs (select_numeric mirror_table))
               2 2 (length (strong_pairs (select_numeric mirror_table)))
               (float_mean (upper_triangle (select_numeric mirror_table)))).
Proof.
  rewrite (calculate_correlations_value_eq _ _ mirror_table) by reflexivity.
  reflexivity.
Qed.

Lemma mirror_table_pearson :
  pearson (column (select_numeric mirror_table) "total")
          (column (select_numeric mirror_table) "amount") = Fin (-1).
Proof.
  change (column (select_numeric mirror_table) "total") with [Num 1; Num 2].
  change (column (select_numeric mirror_table) "amount") with [Num 2; Num 1].
  unfold pearson. cbn [complete_pairs zip zip_with omap list_omap map fst snd].
  cbv zeta.
  assert (sum_sq_dev [1; 2] = 1 / 2)%R as ->
    by (unfold sum_sq_dev, Rmean; cbn; lra).
  assert (sum_sq_dev [2; 1] = 1 / 2)%R as ->
    by (unfold sum_sq_dev, Rmean; cbn; lra).
  assert (sum_co_dev [1; 2] [2; 1] = - (1 / 2))%R as ->
    by (unfold sum_co_dev, Rmean; cbn; lra).
  rewrite sqrt_square by lra.
  rewrite bool_decide_eq_false_2 by lra. f_equal. lra.
Qed.

Lemma mirror_table_pair :
  exists p,
    strong_pairs (select_numeric mirror_table) = [p] /\
    variable1 p = "total" /\ variable2 p = "amount" /\
    strength p = "strong negative".
Proof.
  unfold strong_pairs.
  change (columns (select_numeric mirror_table)) with ["total"; "amount"].
  cbn [length range2 seq flat_map Nat.sub Nat.add nth app].
  unfold corr_iloc.
  change (columns (select_numeric mirror_table)) with ["total"; "amount"].
  cbn [nth]. rewrite mirror_table_pearson.
  cbn [float_abs float_gt].
  assert (Rabs (-1) = 1)%R as -> by (rewrite Rabs_left; lra).
  rewrite bool_decide_eq_true_2 by lra.
  rewrite bool_decide_eq_false_2 by lra.
  eexists. split; [reflexivity|]. done.
Qed.

Lemma X24_witness :
  exists r p,
    fst (calculate_correlations toy_lib 0 None (init toy_lib [mirror_table] 0))
    = Success r /\
    strong_correlations r = [p] /\ strength p = "strong negative" /\
    interpretation p = "Spending patterns are independent".
Proof.
  destruct mirror_table_pair as (p & Hp & H1 & H2 & Hs).
  eexists _, p. split; [exact mirror_table_run|]. split; [exact Hp|].
  split; [exact Hs|].
  refine (proj2 (X24_negative_spending_called_independent (lib := toy_lib)
                   (init toy_lib [mirror_table] 0) 0 mirror_table None _ p
                   eq_refl mirror_table_run _ _ _ Hs)).
  - cbn [strong_correlations]. rewrite Hp. apply elem_of_cons. by left.
  - rewrite H1. reflexivity.
  - rewrite H2. reflexivity.
Defined.

(** ** Calls that follow a fit *)

Section Refit.
Context {lib : Library}.
Implicit Types (s : state lib).

(** A call of [detect_anomalies] that succeeds leaves the scaler and the
    forest fitted, the forest with the contamination of the call. *)
Lemma detect_anomalies_refits s df d cols c r :
  heap s !! df = Some d -> seeded s ->
  fst (detect_anomalies lib df cols c s) = Success r ->
  contamination (anomaly_detector (snd (detect_anomalies lib df cols c s))) = c /\
  if_fitted (anomaly_detector (snd (detect_anomalies lib df cols c s))) <> None /\
  scaler_fitted _ (scaler (snd (detect_anomalies lib df cols c s))) <> None.
Proof.
  destruct s as [h sc [c0 rs fitted] km rng]; cbn [heap].
  intros Hd [Hs _]; cbn in Hs; subst rs. rewrite (state_ext h).
  unfold detect_anomalies, detect_anomalies_body.
  mstart. repeat mstep.
  all: try (cbn; intros; discriminate).
  cbn. intros _. split; [reflexivity|]. split; discriminate.
Qed.

End Refit.

Lemma three_scores_between :
  exists r,
    fst (detect_anomalies toy_lib 0 ["score"] 0.2
           (init toy_lib [three_scores; toy_table] 7))
    = Success r.
Proof.
  rewrite (detect_anomalies_value_eq _ _ three_scores) by (apply reach_init || reflexivity).
  unfold detect_anomalies_value.
  do 2 reval. cbv zeta. do 4 reval.
  cbn [map]. unfold if_label. decide_reals. cbn [map Z.eqb Pos.eqb Z.opp].
  do 4 reval.
  unfold nlargest.
  match goal with
  | |- context [has_column ?d ?c] =>
      replace (has_column d c) with true by (vm_compute; reflexivity)
  end.
  cbn [rbind catch Rlist_min Rlist_max]. eexists. reflexivity.
Qed.

(** Between the two calls [detect_anomalies] ran on another table with
    another contamination and refitted the scaler and the forest; the state
    of the second call is not that of the first. *)
Lemma C5_witness :
  let s1 := init toy_lib [toy_table] 0 in
  let s2 := snd (detect_anomalies toy_lib 0 ["score"] 0.2
                   (init toy_lib [three_scores; toy_table] 7)) in
  (contamination (anomaly_detector s2) = 0.2%R /\
   if_fitted (anomaly_detector s2) <> None /\
   scaler_fitted _ (scaler s2) <> None) /\
  (forall dc vc wd,
     fst (detect_trends toy_lib 0 dc vc wd s1)
     = fst (detect_trends toy_lib 1 dc vc wd s2)) /\
  (forall cols c,
     fst (detect_anomalies toy_lib 0 cols c s1)
     = fst (detect_anomalies toy_lib 1 cols c s2)) /\
  (forall features n,
     fst (segment_customers toy_lib 0 features n s1)
     = fst (segment_customers toy_lib 1 features n s2)) /\
  (forall cols,
     fst (calculate_correlations toy_lib 0 cols s1)
     = fst (calculate_correlations toy_lib 1 cols s2)) /\
  (forall dc vc periods,
     fst (generate_forecast toy_lib 0 dc vc periods s1)
     = fst (generate_forecast toy_lib 1 dc vc periods s2)).
Proof.
  split.
  - destruct three_scores_between as [r Hr].
    exact (detect_anomalies_refits
             (init toy_lib [three_scores; toy_table] 7) 0 three_scores
             ["score"] 0.2%R r eq_refl
             (reachable_seeded _ (reach_init _ _)) Hr).
  - apply (C5_deterministic (lib := toy_lib) _ _ 0 1 toy_table).
    + apply reach_init.
    + apply reach_detect_anomalies, reach_init.
    + reflexivity.
    + eapply run_to_frame;
        [ apply (detect_anomalies_run _ 0 three_scores);
          [reflexivity | apply reachable_seeded, reach_init]
        | reflexivity ].
Defined.

(** ** The most anomalous row *)

Section Lowest.
Context {lib : Library}.
Implicit Types (s : state lib).

Lemma decision_scores_fun d cols c scores scores' :
  decision_scores lib d cols c scores -> decision_scores lib d cols c scores' ->
  scores = scores'.
Proof.
  intros (sel & p & X & model & H1 & H2 & H3 & H4 & H5)
         (sel' & p' & X' & model' & H1' & H2' & H3' & H4' & H5').
  congruence.
Qed.

Lemma Permutation_filter_length {A} (p : A -> bool) (l l' : list A) :
  l ≡ₚ l' -> length (List.filter p l) = length (List.filter p l').
Proof.
  induction 1 as [|x l l' _ IH|x y l|l l' l'' _ IH _ IH']; cbn.
  - done.
  - destruct (p x); cbn; lia.
  - destruct (p x), (p y); cbn; lia.
  - lia.
Qed.

Lemma filter_filter_comm {A} (p q : A -> bool) (l : list A) :
  List.filter p (List.filter q l) = List.filter q (List.filter p l).
Proof.
  induction l as [|x l IH]; [done|]. cbn.
  destruct (q x) eqn:Eq, (p x) eqn:Ep; cbn; rewrite ?Eq, ?Ep, IH; done.
Qed.

Lemma length_filter_elem {A} (p : A -> bool) (l : list A) x :
  x ∈ l -> p x = true -> 1 <= length (List.filter p l).
Proof.
  induction 1 as [x l|x y l _ IH]; intros Hp; cbn.
  - rewrite Hp. cbn. lia.
  - destruct (p y); cbn; specialize (IH Hp); lia.
Qed.

(** The rows that score at most [m], when one row scores [m] and every
    other row scores more. *)
Lemma lowest_once (before after : list R) (m : R) :
  Forall (fun x => m < x)%R before -> Forall (fun x => m < x)%R after ->
  List.filter (fun x => bool_decide (x <= m)%R) (before ++ m :: after)%list
  = [m].
Proof.
  intros Hb Ha. rewrite List.filter_app. cbn [List.filter].
  rewrite bool_decide_eq_true_2 by lra.
  rewrite !filter_none; [done| |].
  - eapply Forall_impl; [exact Ha|]. cbn. intros x Hx.
    apply bool_decide_eq_false_2. lra.
  - eapply Forall_impl; [exact Hb|]. cbn. intros x Hx.
    apply bool_decide_eq_false_2. lra.
Qed.

(** C1. The lower the decision score, the more abnormal the row, and a row
    is flagged when its score is negative.  When more than five rows are
    flagged and one row scores strictly less than every other row, that
    row, the most anomalous one, is flagged and is missing from
    [top_anomalies], which lists five rows: the code keeps the five
    highest scores among the flagged rows. *)
Theorem C1_top_anomalies_least_extreme s df d cols c r scores before m after :
  reachable s -> heap s !! df = Some d ->
  fst (detect_anomalies lib df cols c s) = Success r ->
  decision_scores lib d cols c scores ->
  scores = (before ++ m :: after)%list ->
  Forall (fun x => m < x)%R before -> Forall (fun x => m < x)%R after ->
  5 < anomaly_count r ->
  (m < 0)%R /\
  length (top_anomalies r) = 5 /\
  Num m ∉ map (at_col "anomaly_score") (top_anomalies r).
Proof.
  intros Hr Hd. rewrite (detect_anomalies_value_eq _ _ d) by done.
  intros (scores' & top & rest & Hsc' & _ & _ & _ & Hc & _ & Htop & Htake
          & Hperm & Hsort & _)%detect_anomalies_value_report
         Hsc Hdec Hb Ha Hn.
  rewrite <- (decision_scores_fun _ _ _ _ _ Hsc Hsc') in *. clear Hsc'.
  rewrite Hc in Hn.
  pose proof (Permutation_length Hperm) as Hlen. rewrite length_app in Hlen.
  assert (length top = 5) as Htop5.
  { rewrite Htake at 1. rewrite length_take, length_app. lia. }
  assert (forall x, x ∈ scores -> (m <= x)%R) as Hmin.
  { intros x Hx. rewrite Hdec in Hx.
    apply elem_of_app in Hx as [Hx|Hx].
    - rewrite Forall_forall in Hb. pose proof (Hb x Hx). lra.
    - apply elem_of_cons in Hx as [->|Hx]; [lra|].
      rewrite Forall_forall in Ha. pose proof (Ha x Hx). lra. }
  assert (forall x, x ∈ (top ++ rest)%list -> x ∈ scores /\ (x < 0)%R) as Hflag.
  { intros x Hx. rewrite Hperm in Hx.
    apply list_elem_of_In, filter_In in Hx as [Hx Hneg].
    split; [by apply list_elem_of_In|]. by apply bool_decide_eq_true in Hneg. }
  split.
  { destruct top as [|x top']; [done|].
    destruct (Hflag x) as [Hx Hx0]; [apply elem_of_cons; by left|].
    pose proof (Hmin x Hx). lra. }
  split.
  { apply (f_equal length) in Htop. rewrite !length_map in Htop. lia. }
  rewrite Htop. intros Hm.
  apply list_elem_of_In, in_map_iff in Hm as (m' & [= ->] & Hm).
  apply list_elem_of_In in Hm.
  destruct rest as [|y rest']; [cbn in Hlen; lia|].
  assert (y <= m)%R as Hy.
  { apply (StronglySorted_app_1_elem_of _ _ _ _ _ Hsort); [done|].
    apply elem_of_cons. by left. }
  set (low := fun x : R => bool_decide (x <= m)%R).
  assert (length (List.filter low (top ++ y :: rest')%list) <= 1) as Hone.
  { rewrite (Permutation_filter_length low _ _ Hperm).
    rewrite filter_filter_comm. etransitivity; [apply length_filter_le|].
    rewrite Hdec. unfold low. by rewrite lowest_once. }
  rewrite List.filter_app, length_app in Hone.
  pose proof (length_filter_elem low top m Hm
                ltac:(unfold low; apply bool_decide_eq_true_2; lra)).
  pose proof (length_filter_elem low (y :: rest') y
                ltac:(apply elem_of_cons; by left)
                ltac:(unfold low; by apply bool_decide_eq_true_2)).
  lia.
Qed.

(** Once the scores are there, one per row of a table that has rows, the
    call succeeds. *)
Lemma detect_anomalies_value_total d cols c sel scores :
  getitems d cols = Ok sel -> empty (select_numeric sel) = false ->
  decision_scores lib d cols c scores ->
  length scores = len d -> len d <> 0 ->
  exists r, detect_anomalies_value lib d cols c = Success r.
Proof.
  intros Hsel He (sel' & p & X & model & Hsel' & Hp & HX & Hm & Hs) Hlen Hne.
  rewrite Hsel in Hsel'. injection Hsel' as <-.
  unfold detect_anomalies_value. rewrite Hsel. cbn [rbind]. rewrite He.
  cbv zeta. rewrite Hp. cbn [rbind]. rewrite HX. cbn [rbind].
  rewrite Hm. cbn [rbind]. rewrite Hs. cbn [rbind].
  rewrite flag_mask.
  unfold boolean_mask. rewrite bool_decide_eq_true_2 by (by rewrite length_map).
  cbn [rbind]. unfold np_mask.
  rewrite bool_decide_eq_true_2 by (by rewrite length_map).
  cbn [rbind]. rewrite mask_list_map_self.
  unfold with_column at 1.
  rewrite bool_decide_eq_true_2.
  2:{ unfold len. cbn [rows]. rewrite length_map.
      symmetry. by apply length_mask_list. }
  cbn [rbind]. unfold py_div. destruct (len d) as [|n] eqn:En; [done|].
  cbn [rbind]. unfold nlargest.
  match goal with
  | |- context [has_column ?a "anomaly_score"] =>
      assert (has_column a "anomaly_score" = true) as ->
  end.
  { unfold has_column. cbn [columns]. apply bool_decide_eq_true_2.
    case_bool_decide as Hc; [done|]. apply elem_of_app. right.
    apply elem_of_cons. by left. }
  cbn [rbind]. destruct scores as [|x scores]; [done|].
  cbn [Rlist_min Rlist_max rbind catch]. by eexists.
Qed.

End Lowest.

(** *** Sixty rows, contamination 0.1 *)

Section Sixty.

Lemma INR_below (i n : nat) : i <= n -> (0 <= INR i <= INR n)%R.
Proof. intros H. split; [apply pos_INR|by apply le_INR]. Qed.

Lemma INR_59 : INR 59 = 59%R.
Proof. rewrite INR_IZR_INZ. reflexivity. Qed.

Lemma sixty_scores_range :
  Forall (fun x => -1 <= x /\ x < 0)%R sixty_scores.
Proof.
  unfold sixty_scores. apply Forall_forall. intros x Hx.
  apply list_elem_of_In, in_map_iff in Hx as (i & <- & Hi%in_seq).
  pose proof (INR_below i 59 ltac:(lia)) as Hb. rewrite INR_59 in Hb. lra.
Qed.

Lemma raw_score_sixty :
  map raw_score (map (fun x => [Fin x]) sixty_scores) = sixty_scores.
Proof.
  rewrite map_map. rewrite <- (map_id sixty_scores) at 2.
  apply map_ext_in. intros x Hx.
  pose proof sixty_scores_range as HF. rewrite Forall_forall in HF.
  destruct (HF x) as [H1 H2]; [by apply list_elem_of_In|].
  cbn [raw_score].
  by rewrite !bool_decide_eq_true_2.
Qed.

Lemma in_order_map_seq {A} (le : A -> A -> bool) (f : nat -> A) (a n : nat) :
  (forall i, le (f i) (f (S i)) = true) ->
  in_order le (map f (seq a n)) = true.
Proof.
  intros Hf. revert a. induction n as [|n IH]; intros a; [done|].
  cbn [seq map]. destruct n as [|n]; [done|].
  cbn [seq map in_order]. rewrite Hf. cbn [andb]. apply (IH (S a)).
Qed.

Lemma Rsort_sixty : Rsort sixty_scores = sixty_scores.
Proof.
  unfold Rsort, sixty_scores. apply sort_by_in_order, in_order_map_seq.
  intros i. apply bool_decide_eq_true_2. rewrite S_INR. lra.
Qed.

Lemma Int_part_frac (r : R) (z : Z) (f : R) :
  r = (IZR z + f)%R -> (0 <= f < 1)%R ->
  Int_part r = z /\ frac_part r = f.
Proof.
  intros -> Hf.
  assert (Int_part (IZR z + f) = z) as Hi.
  { unfold Int_part. rewrite <- (up_tech (IZR z + f) z); [lia|lra|].
    rewrite plus_IZR. lra. }
  split; [done|]. unfold frac_part. rewrite Hi. lra.
Qed.

(** [offset_] on [sixty_rows]: position 5.9 between the order statistics
    -0.56 and -0.55. *)
Lemma np_percentile_sixty :
  np_percentile (100 * 0.1) sixty_scores = sixty_offset.
Proof.
  unfold np_percentile. rewrite Rsort_sixty.
  change (length sixty_scores) with 60. cbv zeta.
  destruct (Int_part_frac (100 * 0.1 / 100 * INR 59) 5 0.9) as [-> ->].
  { rewrite INR_59. lra. }
  { lra. }
  change (Z.to_nat 5) with 5%nat.
  change (nth 5 sixty_scores 0%R) with ((INR 5 - 61) / 100)%R.
  change (nth 6 sixty_scores ((INR 5 - 61) / 100)%R) with ((INR 6 - 61) / 100)%R.
  unfold sixty_offset. cbn [INR]. lra.
Qed.

Lemma sixty_matrix :
  to_matrix (fillna_mean (select_numeric (mkDF ["score"] (rows sixty_rows))))
  = map (fun x => [Fin x]) sixty_scores.
Proof. vm_compute. reflexivity. Qed.

Lemma sixty_decision :
  decision_scores sk_lib sixty_rows ["score"] 0.1
    (map (fun x => x - sixty_offset)%R sixty_scores).
Proof.
  exists (mkDF ["score"] (rows sixty_rows)), tt,
         (map (fun x => [Fin x]) sixty_scores), sixty_offset.
  split; [reflexivity|]. split; [reflexivity|].
  split; [cbn [scaler_transform sk_lib]; by rewrite sixty_matrix|].
  split.
  - cbn [iforest_fit sk_lib].
    rewrite !bool_decide_eq_true_2 by lra. cbn [andb].
    by rewrite raw_score_sixty, np_percentile_sixty.
  - cbn [iforest_decision sk_lib]. f_equal.
    rewrite <- raw_score_sixty at 2. by rewrite !map_map.
Qed.

Lemma sixty_rows_run :
  exists r,
    fst (detect_anomalies sk_lib 0 ["score"] 0.1 (init sk_lib [sixty_rows] 0))
    = Success r.
Proof.
  rewrite (detect_anomalies_value_eq _ _ sixty_rows)
    by (apply reach_init || reflexivity).
  apply (detect_anomalies_value_total sixty_rows ["score"] 0.1%R
           (mkDF ["score"] (rows sixty_rows))
           (map (fun x => x - sixty_offset)%R sixty_scores)).
  - reflexivity.
  - vm_compute. reflexivity.
  - apply sixty_decision.
  - unfold sixty_rows, len. cbn [rows]. by rewrite !length_map.
  - vm_compute. lia.
Qed.

(** The decision value of row [i] is negative for the first six rows and
    positive for the others. *)
Lemma sixty_flagged :
  List.filter negative (map (fun x => x - sixty_offset)%R sixty_scores)
  = map (fun i => ((INR i - 61) / 100 - sixty_offset)%R) (seq 0 6).
Proof.
  unfold sixty_scores. rewrite map_map.
  change (seq 0 60) with (seq 0 6 ++ seq 6 54)%list.
  rewrite map_app, List.filter_app.
  rewrite (filter_all negative (map _ (seq 0 6))).
  - rewrite filter_none; [by rewrite app_nil_r|].
    apply Forall_forall. intros x Hx.
    apply list_elem_of_In, in_map_iff in Hx as (i & <- & Hi%in_seq).
    apply bool_decide_eq_false_2. unfold sixty_offset.
    pose proof (INR_below 6 i ltac:(lia)) as Hb. cbn [INR] in Hb. lra.
  - apply Forall_forall. intros x Hx.
    apply list_elem_of_In, in_map_iff in Hx as (i & <- & Hi%in_seq).
    apply bool_decide_eq_true_2. unfold sixty_offset.
    pose proof (INR_below i 5 ltac:(lia)) as Hb. cbn [INR] in Hb. lra.
Qed.

Lemma sixty_lowest :
  Forall (fun x => (0 - 61) / 100 - sixty_offset < x)%R
         (map (fun x => x - sixty_offset)%R
              (map (fun i => ((INR i - 61) / 100)%R) (seq 1 59))).
Proof.
  rewrite map_map. apply Forall_forall. intros x Hx.
  apply list_elem_of_In, in_map_iff in Hx as (i & <- & Hi%in_seq).
  pose proof (INR_below 1 i ltac:(lia)) as Hb. cbn [INR] in Hb. lra.
Qed.

End Sixty.

(** On [sixty_rows] with the contamination 0.1 the forest of [sk_lib] flags
    six rows; the row with the lowest decision value, -0.059, is not among
    the five rows of [top_anomalies]. *)
Lemma C1_witness :
  exists r,
    fst (detect_anomalies sk_lib 0 ["score"] 0.1 (init sk_lib [sixty_rows] 0))
    = Success r /\
    anomaly_count r = 6 /\
    length (top_anomalies r) = 5 /\
    Num ((0 - 61) / 100 - sixty_offset)%R
      ∉ map (at_col "anomaly_score") (top_anomalies r).
Proof.
  destruct sixty_rows_run as [r Hr]. exists r. split; [exact Hr|].
  assert (anomaly_count r = 6) as Hc.
  { pose proof Hr as Hv.
    rewrite (detect_anomalies_value_eq _ _ sixty_rows) in Hv
      by (apply reach_init || reflexivity).
    apply detect_anomalies_value_report in Hv
      as (scores & _ & _ & Hsc & _ & _ & _ & Hc & _).
    rewrite (decision_scores_fun _ _ _ _ _ Hsc sixty_decision) in Hc.
    rewrite Hc, sixty_flagged. reflexivity. }
  split; [exact Hc|].
  exact (proj2 (C1_top_anomalies_least_extreme (lib := sk_lib)
                  (init sk_lib [sixty_rows] 0) 0 sixty_rows ["score"] 0.1%R r
                  (map (fun x => x - sixty_offset)%R sixty_scores)
                  [] ((0 - 61) / 100 - sixty_offset)%R
                  (map (fun x => x - sixty_offset)%R
                     (map (fun i => ((INR i - 61) / 100)%R) (seq 1 59)))
                  (reach_init _ _) eq_refl Hr sixty_decision eq_refl
                  (Forall_nil_2 _) sixty_lowest
                  ltac:(rewrite Hc; lia))).
Defined.
